(** * MLST allele-typing pipeline ([vk_mlst_analysis.py]): a shallow embedding

    The development follows the class [MLSTAnalyzer]: catalog loaders,
    alignment job scheduler, best-match selector, profile resolver and the
    [run_analysis] driver.

    Part I is the model.  Interpreter and library behaviour the script
    relies on comes first: strings (as byte strings), floats under [>],
    exceptions and [try]/[except], the logger (a computation carries the
    records it logs), insertion-ordered dictionaries, [csv.DictReader],
    [pathlib] names and the pandas frame.  What lies outside the
    interpreter (directories, files as they are found when read, what the
    alignment jobs return) is a [World], read and never written.  The
    methods of the class follow, each under its name, then the vocabulary
    of the statements and some inputs to run the model on.

    Part II holds the properties: general facts first, then for each
    component its lemmas and the theorems about it. *)

From Stdlib Require Import ZArith QArith List String Ascii Bool Lia.
From Stdlib Require Import DecimalString Permutation.
Import ListNotations.

Local Open Scope Z_scope.
Local Open Scope string_scope.
Local Open Scope list_scope.

Set Implicit Arguments.
Generalizable Variables K A B.

(* ================================================================== *)
(** ** Decidable equality on dictionary keys

    The instances for strings, options and pairs, each with the proof
    that its test decides equality. *)

Class Eqb (K : Type) := {
  eqb : K -> K -> bool;
  eqb_spec : forall x y : K, reflect (x = y) (eqb x y)
}.

#[export] Instance string_Eqb : Eqb string :=
  {| eqb := String.eqb; eqb_spec := String.eqb_spec |}.

Definition option_eqb `{Eqb K} (a b : option K) : bool :=
  match a, b with
  | Some x, Some y => eqb x y
  | None, None => true
  | _, _ => false
  end.

Lemma option_eqb_spec `{Eqb K} (a b : option K) : reflect (a = b) (option_eqb a b).
Proof.
  destruct a as [x|], b as [y|]; simpl; try (constructor; congruence).
  destruct (eqb_spec x y); constructor; congruence.
Qed.

#[export] Instance option_Eqb `{Eqb K} : Eqb (option K) :=
  {| eqb := option_eqb; eqb_spec := option_eqb_spec |}.

Definition pair_eqb `{Eqb A} `{Eqb B} (p q : A * B) : bool :=
  eqb (fst p) (fst q) && eqb (snd p) (snd q).

Lemma pair_eqb_spec `{Eqb A} `{Eqb B} (p q : A * B) : reflect (p = q) (pair_eqb p q).
Proof.
  destruct p as [a b], q as [c d]; unfold pair_eqb; simpl.
  destruct (eqb_spec a c), (eqb_spec b d); simpl; constructor; congruence.
Qed.

#[export] Instance pair_Eqb `{Eqb A} `{Eqb B} : Eqb (A * B) :=
  {| eqb := pair_eqb; eqb_spec := pair_eqb_spec |}.

(* ================================================================== *)
(** ** Python strings *)

Module PyStr.

(** [s.split(sep)] for a one-character separator: never an empty list. *)
Fixpoint split (sep : ascii) (s : string) : list string :=
  match s with
  | EmptyString => [EmptyString]
  | String c s' =>
      if Ascii.eqb c sep then EmptyString :: split sep s'
      else match split sep s' with
           | w :: ws => String c w :: ws
           | [] => [String c EmptyString]
           end
  end.

(** [l[0]] and [l[-1]] on the list [split] returns. *)
Definition first (l : list string) : string := hd EmptyString l.
Definition last (l : list string) : string := List.last l EmptyString.

(** [sep.join(l)]. *)
Definition join (sep : string) (l : list string) : string := String.concat sep l.

(** [s.replace(a, b)] for one-character [a] and [b]. *)
Fixpoint replace (a b : ascii) (s : string) : string :=
  match s with
  | EmptyString => EmptyString
  | String c s' => String (if Ascii.eqb c a then b else c) (replace a b s')
  end.

Definition lower_ascii (c : ascii) : ascii :=
  let n := nat_of_ascii c in
  if (65 <=? n)%nat && (n <=? 90)%nat then ascii_of_nat (n + 32) else c.

(** [s.lower()], on ASCII letters. *)
Fixpoint lower (s : string) : string :=
  match s with
  | EmptyString => EmptyString
  | String c s' => String (lower_ascii c) (lower s')
  end.

Definition is_space (c : ascii) : bool :=
  let n := nat_of_ascii c in
  (n =? 32)%nat || ((9 <=? n)%nat && (n <=? 13)%nat).

Fixpoint lstrip (s : string) : string :=
  match s with
  | String c s' => if is_space c then lstrip s' else s
  | EmptyString => EmptyString
  end.

Fixpoint rstrip (s : string) : string :=
  match s with
  | EmptyString => EmptyString
  | String c s' =>
      match rstrip s' with
      | EmptyString => if is_space c then EmptyString else String c EmptyString
      | r => String c r
      end
  end.

(** [s.strip()]. *)
Definition strip (s : string) : string := rstrip (lstrip s).

(** [s.rfind(c)]: index of the last occurrence, if any. *)
Fixpoint rfind (c : ascii) (s : string) : option nat :=
  match s with
  | EmptyString => None
  | String a s' =>
      match rfind c s' with
      | Some i => Some (S i)
      | None => if Ascii.eqb a c then Some 0%nat else None
      end
  end.

(** Number of occurrences of a character. *)
Fixpoint count (c : ascii) (s : string) : nat :=
  match s with
  | EmptyString => 0
  | String a s' => (if Ascii.eqb a c then 1 else 0) + count c s'
  end.

(** [str(n)] for a Python [int]. *)
Definition of_Z (z : Z) : string := NilZero.string_of_int (Z.to_int z).

End PyStr.

(* ================================================================== *)
(** ** Python floats, as far as [>] sees them

    A float is not-a-number, an infinity, or a finite value; a finite
    double is a rational, and [>] on finite doubles is [>] on those
    rationals.  Every comparison with NaN is false. *)

Inductive pyfloat : Type :=
| FNaN
| FNegInf
| FFin (q : Q)
| FPosInf.

Definition Qltb (x y : Q) : bool := (Qnum x * QDen y <? Qnum y * QDen x)%Z.

(** [a > b] *)
Definition fgt (a b : pyfloat) : bool :=
  match a, b with
  | FNaN, _ | _, FNaN => false
  | FNegInf, _ => false
  | FFin _, FNegInf => true
  | FFin x, FFin y => Qltb y x
  | FFin _, FPosInf => false
  | FPosInf, FPosInf => false
  | FPosInf, _ => true
  end.


(* ================================================================== *)
(** ** Exceptions, log records and the effect monad *)

Inductive exn : Type :=
| OSError
| FileNotFoundError
| ValueError
| TypeError
| KeyError
| AttributeError
| CsvError
| SystemExit (code : Z)
| KeyboardInterrupt.

(** [except Exception] catches everything but the [BaseException]-only
    classes. *)
Definition is_Exception (e : exn) : bool :=
  match e with
  | SystemExit _ | KeyboardInterrupt => false
  | _ => true
  end.

Inductive result (A : Type) : Type :=
| Returned (a : A)
| Raised (e : exn).
Arguments Raised {A} e.

Inductive level : Type := INFO | WARNING | ERROR.

(** One call of [self.logger.info / warning / error]: its level and what
    the message interpolates.  The constructors follow the call sites of
    the script; the text of an exception is not modelled, its class is. *)
Inductive event : Type :=
(* run_analysis, _validate_arguments *)
| AnalysisStarted
| RunTime
| ArgumentsDump
| NoArgSpecified (arg_name : string)
| ArgValue (arg_name arg_value : string)
| AnalysisCompleted
(* _load_alleles, _load_genomes *)
| ProcessingAlleleDir (dir : string)
| ProcessingGenomeDir (dir : string)
| CouldNotIdentifyFasta (dir : string) (e : exn)
| LoadedAlleles (n : nat) (gene_name file_name : string)
| LoadedGenome (isolate_id file_name : string)
| CouldNotProcessFasta (path : string) (e : exn)
| CouldNotProcessGenome (path : string) (e : exn)
| FoundGenes (n : nat)
| FoundGenomes (n : nat)
(* _create_output_directory *)
| OutputDirExists (path : string)
| RemovingDir (path : string)
| CreatedDir (path : string)
| CouldNotCreateDir (e : exn)
(* _run_blast_analysis, _run_parallel_commands *)
| RunningBlast
| GeneratedCommands (n : nat)
| RunningJobs (n : nat)
| CommandFailed (i : nat) (stderr : string)
| CommandCompleted (i : nat)
| CommandError (i : nat) (e : exn)
| AllJobsCompleted
(* _find_best_allele *)
| DifferentAlleles (blast_file : string)
| BestLS (best : Z * pyfloat * string)
| BestID (best : Z * pyfloat * string)
| ErrorProcessing (blast_file : string) (e : exn)
(* _assign_sequence_types, _load_mlst_profiles *)
| AssigningSTs
| IsolateAlleles (isolate_id allele_profile : string)
| AssignedST (st : string)
| ProfileNotFound (allele_profile : string)
| LoadingProfiles (path : string)
| GeneOrder (genes : list (option string))
| LoadedProfiles (n : nat)
| ErrorLoadingProfiles (e : exn)
(* _write_results *)
| UnknownFormat (fmt : string)
| ResultsWritten (path : string)
| ErrorWriting (fmt : string) (e : exn).

Record log_record : Type := { lvl : level; ev : event }.

(** A computation returns or raises, and leaves the records it logged. *)
Definition M (A : Type) : Type := (list log_record * result A)%type.

Definition ret {A} (a : A) : M A := ([], Returned a).
Definition raise {A} (e : exn) : M A := ([], Raised e).

Definition bind {A B} (m : M A) (f : A -> M B) : M B :=
  match m with
  | (l, Returned a) => let (l', r) := f a in (l ++ l', r)
  | (l, Raised e) => (l, Raised e)
  end.

Declare Scope py_scope.
Delimit Scope py_scope with py.
Notation "x <- c1 ;; c2" := (bind c1 (fun x => c2))
  (at level 61, c1 at next level, right associativity) : py_scope.
Notation "' pat <- c1 ;; c2" := (bind c1 (fun x => match x with pat => c2 end))
  (at level 61, pat pattern, c1 at next level, right associativity) : py_scope.
Notation "c1 ;; c2" := (bind c1 (fun _ => c2))
  (at level 61, right associativity) : py_scope.
Local Open Scope py_scope.

Definition log (lv : level) (e : event) : M unit :=
  ([{| lvl := lv; ev := e |}], Returned tt).

Definition lift {A} (r : result A) : M A := ([], r).

(** [try: body  except Exception as e: handler e] *)
Definition try_except {A} (body : M A) (handler : exn -> M A) : M A :=
  match body with
  | (l, Raised e) =>
      if is_Exception e then let (l', r) := handler e in (l ++ l', r)
      else (l, Raised e)
  | done => done
  end.

(** [sys.exit(code)] *)
Definition sys_exit {A} (code : Z) : M A := raise (SystemExit code).

(** [for x in xs: s = body(s, x)] *)
Fixpoint for_each {S X} (xs : list X) (body : S -> X -> M S) (s : S) : M S :=
  match xs with
  | [] => ret s
  | x :: xs' => s' <- body s x ;; for_each xs' body s'
  end.

Definition logs {A} (m : M A) : list log_record := fst m.
Definition outcome {A} (m : M A) : result A := snd m.

(** A computation that lets no [BaseException]-only class escape. *)
Definition catchable {A} (m : M A) : Prop :=
  match outcome m with
  | Returned _ => True
  | Raised e => is_Exception e = true
  end.

Create HintDb catchable.

(** [m] returns [a], and every record it logs satisfies [P]. *)
Definition returns_with {A} (P : log_record -> Prop) (m : M A) (a : A) : Prop :=
  outcome m = Returned a /\ Forall P (logs m).

(* ================================================================== *)
(** ** Insertion-ordered dictionaries *)

Module PyDict.

Definition t (K V : Type) : Type := list (K * V).

Definition empty {K V} : t K V := [].

Fixpoint get `{Eqb K} {V} (d : t K V) (k : K) : option V :=
  match d with
  | [] => None
  | (k', v) :: d' => if eqb k' k then Some v else get d' k
  end.

(** [d[k] = v]: a present key keeps its place and takes the new value; a
    new key goes last. *)
Fixpoint set `{Eqb K} {V} (d : t K V) (k : K) (v : V) : t K V :=
  match d with
  | [] => [(k, v)]
  | (k', v') :: d' => if eqb k' k then (k', v) :: d' else (k', v') :: set d' k v
  end.

Definition keys {K V} (d : t K V) : list K := map fst d.
Definition items {K V} (d : t K V) : list (K * V) := d.
Definition mem `{Eqb K} {V} (d : t K V) (k : K) : bool :=
  match get d k with Some _ => true | None => false end.

(** [d[k]], raising [KeyError]. *)
Definition getitem `{Eqb K} {V} (d : t K V) (k : K) : result V :=
  match get d k with
  | Some v => Returned v
  | None => Raised KeyError
  end.

End PyDict.

(* ================================================================== *)
(** ** Builtins taken as given

    [int(s)] and [float(s)] on a string ([None] stands for [ValueError])
    and [str] of a list of strings.  The development holds for every
    such parser; [decimal_builtins] below reads plain decimal literals
    and serves to run the model on concrete files. *)

Class Builtins : Type := {
  int_of_str : string -> option Z;
  float_of_str : string -> option pyfloat;
  repr_list : list string -> string
}.

(* ================================================================== *)
(** ** [csv.DictReader] *)

(** What a row dictionary holds under a key: a field, [restval] (None)
    for a field the line lacks, or the list of surplus fields kept under
    [restkey] (the key None). *)
Inductive csvval : Type :=
| VStr (s : string)
| VNone
| VRest (l : list string).

Definition csv_row : Type := PyDict.t (option string) csvval.

Definition dict_of_line (fieldnames line : list string) : csv_row :=
  let d := fold_left (fun d kv => PyDict.set d (Some (fst kv)) (VStr (snd kv)))
                     (combine fieldnames line) PyDict.empty in
  let lf := List.length fieldnames in
  let lr := List.length line in
  if (lf <? lr)%nat then PyDict.set d None (VRest (skipn lf line))
  else fold_left (fun d k => PyDict.set d (Some k) VNone) (skipn lr fieldnames) d.

Definition nonblank (line : list string) : bool :=
  match line with [] => false | _ => true end.

(** [csv.DictReader(f, fieldnames=names)]: blank lines are skipped. *)
Definition DictReader_with (fieldnames : list string) (lines : list (list string))
  : list csv_row :=
  map (dict_of_line fieldnames) (filter nonblank lines).

(** [csv.DictReader(f)]: the first line gives the field names. *)
Definition DictReader (lines : list (list string)) : list csv_row :=
  match lines with
  | [] => []
  | header :: rest => DictReader_with header rest
  end.

(** [str(v)], [int(v)], [float(v)] on what a row holds. *)
Definition str_ `{Builtins} (v : csvval) : string :=
  match v with
  | VStr s => s
  | VNone => "None"
  | VRest l => repr_list l
  end.

Definition int_ `{Builtins} (v : csvval) : result Z :=
  match v with
  | VStr s => match int_of_str s with
              | Some z => Returned z
              | None => Raised ValueError
              end
  | _ => Raised TypeError
  end.

Definition float_ `{Builtins} (v : csvval) : result pyfloat :=
  match v with
  | VStr s => match float_of_str s with
              | Some x => Returned x
              | None => Raised ValueError
              end
  | _ => Raised TypeError
  end.

(** [v.split(sep)], an [AttributeError] off a string. *)
Definition split_ (sep : ascii) (v : csvval) : result (list string) :=
  match v with
  | VStr s => Returned (PyStr.split sep s)
  | _ => Raised AttributeError
  end.

(* ================================================================== *)
(** ** The world outside the interpreter *)

(** Failures of the operating system and of the parsers, all of them
    subclasses of [Exception]. *)
Inductive io_error : Type := IOFailure | DecodeFailure | FormatFailure.

Definition exn_of (e : io_error) : exn :=
  match e with
  | IOFailure => OSError
  | DecodeFailure => ValueError
  | FormatFailure => CsvError
  end.

(** A delimited text file as [csv.reader] delivers it: the lines read,
    and the failure that ends the reading early, if one does. *)
Inductive text_file : Type :=
| NoFile
| Unreadable
| Lines (lines : list (list string)) (failure : option io_error).

(** [Bio.SeqRecord]: the script reads [id] only. *)
Record SeqRecord : Type := { seq_id : string }.

Inductive fasta : Type :=
| BadFasta (e : io_error)
| Sequences (records : list SeqRecord).

Record dir_entry : Type := {
  entry_name : string;
  entry_is_file : bool;
  entry_fasta : fasta     (* list(SeqIO.parse(path, 'fasta')) *)
}.

Inductive dir_state : Type :=
| NoDir
| NoListing (e : io_error)
| Entries (l : list dir_entry).

(** [subprocess.run] through the pool: [result.get()] gives a completed
    process or raises. *)
Inductive job : Type :=
| Completed (returncode : Z) (stderr : string)
| JobRaised (e : io_error).

Record World : Type := {
  dirs : string -> dir_state;
  files : string -> text_file;         (* as found when they are read *)
  jobs : string -> job;                (* by command line *)
  outdir_exists : bool;
  rmtree_failure : option io_error;
  mkdir_failure : option io_error;
  write_failure : string -> option io_error   (* by output path *)
}.

Record Args : Type := {
  indirname : string;
  genomedir : string;
  profile : string;
  outdirname : string;
  logfile : option string;
  verbose : bool;
  force : bool;
  blast_exe : string;
  formats : string
}.

(** [pathlib]: [Path(a) / b], and [name], [suffix], [stem] of a file name. *)
Module Path.

Definition join (a b : string) : string :=
  match b with
  | String "/" _ => b
  | _ => a ++ "/" ++ b
  end.

Definition has_suffix (name : string) : option nat :=
  match PyStr.rfind "." name with
  | Some i => if (0 <? i)%nat && (i <? String.length name - 1)%nat then Some i else None
  | None => None
  end.

Definition suffix (name : string) : string :=
  match has_suffix name with
  | Some i => substring i (String.length name - i) name
  | None => ""
  end.

Definition stem (name : string) : string :=
  match has_suffix name with
  | Some i => substring 0 i name
  | None => name
  end.

End Path.

(* ================================================================== *)
(** ** Catalog loaders: [_get_fasta_files], [_load_alleles], [_load_genomes] *)

Definition extensions : list string := [".fasta"; ".fas"; ".fna"; ".fa"].

Definition is_fasta_file (f : dir_entry) : bool :=
  entry_is_file f
  && existsb (String.eqb (PyStr.lower (Path.suffix (entry_name f)))) extensions.

(** [sequences[0].id.split('_')[0]] *)
Definition gene_name_of (first : SeqRecord) : string :=
  PyStr.first (PyStr.split "_" (seq_id first)).

(** [filepath.stem.replace("|", "_").replace(" ", "_")] *)
Definition isolate_id_of (file_name : string) : string :=
  PyStr.replace " " "_" (PyStr.replace "|" "_" (Path.stem file_name)).

(** [list(SeqIO.parse(filepath, 'fasta'))] *)
Definition parse_fasta (f : dir_entry) : M (list SeqRecord) :=
  match entry_fasta f with
  | BadFasta e => raise (exn_of e)
  | Sequences records => ret records
  end.

Section Loaders.
Context (w : World) (args : Args).

Definition _get_fasta_files (directory : string) : M (list dir_entry) :=
  match dirs w directory with
  | NoDir => raise FileNotFoundError
  | NoListing e => raise (exn_of e)
  | Entries l => ret (filter is_fasta_file l)
  end.

(** One round of the loop of [_load_alleles]; [filepath] is
    [directory / entry_name f]. *)
Definition load_allele_file (directory : string)
    (alleles : PyDict.t string (string * nat)) (f : dir_entry)
  : M (PyDict.t string (string * nat)) :=
  let filepath := Path.join directory (entry_name f) in
  try_except
    (sequences <- parse_fasta f ;;
     match sequences with
     | [] => ret alleles
     | first :: _ =>
         let gene_name := gene_name_of first in
         let alleles := PyDict.set alleles gene_name (filepath, List.length sequences) in
         log INFO (LoadedAlleles (List.length sequences) gene_name (entry_name f)) ;;
         ret alleles
     end)
    (fun e => log ERROR (CouldNotProcessFasta filepath e) ;; sys_exit 1).

Definition _load_alleles : M (PyDict.t string (string * nat)) :=
  log INFO (ProcessingAlleleDir (indirname args)) ;;
  fasta_files <-
    try_except (_get_fasta_files (indirname args))
      (fun e => log ERROR (CouldNotIdentifyFasta (indirname args) e) ;; sys_exit 1) ;;
  alleles <- for_each fasta_files (load_allele_file (indirname args)) PyDict.empty ;;
  log INFO (FoundGenes (List.length alleles)) ;;
  ret alleles.

Definition load_genome_file (directory : string)
    (genomes : PyDict.t string string) (f : dir_entry)
  : M (PyDict.t string string) :=
  let filepath := Path.join directory (entry_name f) in
  try_except
    (sequences <- parse_fasta f ;;
     match sequences with
     | [] => ret genomes
     | _ :: _ =>
         let isolate_id := isolate_id_of (entry_name f) in
         let genomes := PyDict.set genomes isolate_id filepath in
         log INFO (LoadedGenome isolate_id (entry_name f)) ;;
         ret genomes
     end)
    (fun e => log ERROR (CouldNotProcessGenome filepath e) ;; sys_exit 1).

Definition _load_genomes : M (PyDict.t string string) :=
  log INFO (ProcessingGenomeDir (genomedir args)) ;;
  fasta_files <-
    try_except (_get_fasta_files (genomedir args))
      (fun e => log ERROR (CouldNotIdentifyFasta (genomedir args) e) ;; sys_exit 1) ;;
  genomes <- for_each fasta_files (load_genome_file (genomedir args)) PyDict.empty ;;
  log INFO (FoundGenomes (List.length genomes)) ;;
  ret genomes.

End Loaders.

(* ================================================================== *)
(** ** Best-match selector: [_find_best_allele] *)

(** The tuple [(ls, pident, allele_num)] the loop keeps. *)
Definition tracked : Type := (Z * pyfloat * string)%type.
Definition t_ls (b : tracked) : Z := fst (fst b).
Definition t_pident (b : tracked) : pyfloat := snd (fst b).
Definition t_allele (b : tracked) : string := snd b.

(** The two [if] statements of the loop body. *)
Definition track_pident (best_by_pident : option tracked) (new : tracked)
  : option tracked :=
  match best_by_pident with
  | None => Some new
  | Some b => if fgt (t_pident new) (t_pident b) then Some new else Some b
  end.

Definition track_ls (best_by_ls : option tracked) (new : tracked)
  : option tracked :=
  match best_by_ls with
  | None => Some new
  | Some b =>
      if (t_ls new <? t_ls b)%Z
         || ((t_ls new =? t_ls b)%Z && fgt (t_pident new) (t_pident b))
      then Some new else Some b
  end.

Definition fieldnames : list string :=
  ["qseqid"; "sseqid"; "pident"; "qlen"; "length"; "gaps"; "mismatch"].

Section Selector.
Context `{Builtins} (w : World).

(** [row[key]] *)
Definition field (row : csv_row) (key : string) : M csvval :=
  lift (PyDict.getitem row (Some key)).

(** One round of [for row in reader]. *)
Definition find_best_step (st : option tracked * option tracked) (row : csv_row)
  : M (option tracked * option tracked) :=
  let (best_by_ls, best_by_pident) := st in
  qseqid <- field row "qseqid" ;;
  parts <- lift (split_ "_" qseqid) ;;
  let allele_num := PyStr.last parts in
  qlen_s <- field row "qlen" ;;
  qlen <- lift (int_ qlen_s) ;;
  length_s <- field row "length" ;;
  length <- lift (int_ length_s) ;;
  gaps_s <- field row "gaps" ;;
  gaps <- lift (int_ gaps_s) ;;
  let ls := qlen - length + gaps in
  pident_s <- field row "pident" ;;
  pident <- lift (float_ pident_s) ;;
  let new := (ls, pident, allele_num) in
  ret (track_ls best_by_ls new, track_pident best_by_pident new).

(** [Path(blast_file).exists()]; the status of every path can be read, so
    that the call answers. *)
Definition file_exists (path : string) : bool :=
  match files w path with
  | NoFile => false
  | _ => true
  end.

(** [open(path)] and the reader over it: the rows it yields before it
    stops or fails. *)
Definition open_csv (path : string) : M (list (list string) * option io_error) :=
  match files w path with
  | NoFile => raise FileNotFoundError
  | Unreadable => raise OSError
  | Lines lines failure => ret (lines, failure)
  end.

Definition reader_end (failure : option io_error) : M unit :=
  match failure with
  | Some e => raise (exn_of e)
  | None => ret tt
  end.

(** The statements after the loop: the cross-check of the two tuples and
    the value returned. *)
Definition report_best (blast_file : string) (st : option tracked * option tracked)
  : M (option string) :=
  match st with
  | (Some best_by_ls, Some best_by_pident) =>
      (if negb (String.eqb (t_allele best_by_ls) (t_allele best_by_pident)) then
         log WARNING (DifferentAlleles blast_file) ;;
         log WARNING (BestLS best_by_ls) ;;
         log WARNING (BestID best_by_pident)
       else ret tt) ;;
      ret (Some (t_allele best_by_ls))
  | _ => ret None
  end.

Definition _find_best_allele (blast_file : string) : M (option string) :=
  if negb (file_exists blast_file) then ret None
  else
    try_except
      ('(lines, failure) <- open_csv blast_file ;;
       st <- for_each (DictReader_with fieldnames lines) find_best_step (None, None) ;;
       reader_end failure ;;
       report_best blast_file st)
      (fun e => log ERROR (ErrorProcessing blast_file e) ;; ret None).

End Selector.

(* ================================================================== *)
(** ** The pandas frame, as far as the script uses it

    A frame of dtype [object]: row labels, column labels and the cells
    set so far; a cell never set is NaN. *)

Inductive cell : Type :=
| CNaN
| CNone
| CInt (z : Z)
| CStr (s : string).

Record DataFrame : Type := {
  index : list string;
  columns : list string;
  cells : PyDict.t (string * string) cell
}.

Module Pandas.

(** [pd.DataFrame(index=index, columns=columns)] *)
Definition new (index columns : list string) : DataFrame :=
  {| index := index; columns := columns; cells := PyDict.empty |}.

Definition has (labels : list string) (l : string) : bool :=
  existsb (String.eqb l) labels.

(** The cell at a row and a column label. *)
Definition at_ (df : DataFrame) (r c : string) : cell :=
  match PyDict.get (cells df) (r, c) with
  | Some v => v
  | None => CNaN
  end.

(** [df.loc[r, c] = v]; a label the frame lacks is added to it. *)
Definition loc_set (df : DataFrame) (r c : string) (v : cell) : DataFrame :=
  {| index := if has (index df) r then index df else index df ++ [r];
     columns := if has (columns df) c then columns df else columns df ++ [c];
     cells := PyDict.set (cells df) (r, c) v |}.

(** [row[c]] on a row that [iterrows] yields: [KeyError] off the columns. *)
Definition row_get (df : DataFrame) (r : string) (c : option string) : result cell :=
  match c with
  | Some c => if has (columns df) c then Returned (at_ df r c) else Raised KeyError
  | None => Raised KeyError
  end.

(** [pd.notna(x)] *)
Definition notna (x : cell) : bool :=
  match x with
  | CNaN | CNone => false
  | _ => true
  end.

(** [str(x)] *)
Definition str (x : cell) : string :=
  match x with
  | CNaN => "nan"
  | CNone => "None"
  | CInt z => PyStr.of_Z z
  | CStr s => s
  end.

(** Sorting order of cells: missing values last. *)
Definition cell_leb (a b : cell) : bool :=
  match a, b with
  | CInt x, CInt y => (x <=? y)%Z
  | CInt _, _ => true
  | CStr _, CInt _ => false
  | CStr x, CStr y => String.leb x y
  | CStr _, _ => true
  | _, (CInt _ | CStr _) => false
  | _, _ => true
  end.

Fixpoint key_leb (a b : list cell) : bool :=
  match a, b with
  | x :: a', y :: b' =>
      if cell_leb x y then (if cell_leb y x then key_leb a' b' else true) else false
  | _, _ => true
  end.

Fixpoint insert_row (key : string -> list cell) (r : string) (l : list string)
  : list string :=
  match l with
  | [] => [r]
  | r' :: l' => if key_leb (key r) (key r') then r :: l
                else r' :: insert_row key r l'
  end.

Definition sort_rows (key : string -> list cell) (l : list string) : list string :=
  fold_right (insert_row key) [] l.

(** [df.sort_values(by)]: [KeyError] on a label that is no column; an
    empty [by] gives the frame back (pandas 1.3 and later).  The cells do
    not change, the rows are reordered. *)
Definition sort_values (by_ : list (option string)) (df : DataFrame) : result DataFrame :=
  match by_ with
  | [] => Returned df
  | _ =>
      if forallb (fun c => match c with
                           | Some c => has (columns df) c
                           | None => false
                           end) by_
      then
        let key r := map (fun c => match c with
                                   | Some c => at_ df r c
                                   | None => CNaN
                                   end) by_ in
        Returned {| index := sort_rows key (index df);
                    columns := columns df;
                    cells := cells df |}
      else Raised KeyError
  end.

End Pandas.

(* ================================================================== *)
(** ** Alignment job scheduler *)

Section Scheduler.
Context `{Builtins} (w : World) (args : Args).

Definition _validate_arguments : M unit :=
  for_each
    [ (indirname args, "input directory");
      (outdirname args, "output directory");
      (profile args, "MLST profile");
      (genomedir args, "genome directory") ]
    (fun _ '(arg_value, arg_name) =>
       (if String.eqb arg_value "" then
          log ERROR (NoArgSpecified arg_name) ;; sys_exit 1
        else ret tt) ;;
       log INFO (ArgValue arg_name arg_value))
    tt.

Definition _create_output_directory : M unit :=
  (if outdir_exists w then
     if negb (force args) then
       log ERROR (OutputDirExists (outdirname args)) ;; sys_exit 1
     else
       log INFO (RemovingDir (outdirname args)) ;;
       match rmtree_failure w with
       | Some e => raise (exn_of e)
       | None => ret tt
       end
   else ret tt) ;;
  try_except
    (match mkdir_failure w with
     | Some e => raise (exn_of e)
     | None => ret tt
     end ;;
     log INFO (CreatedDir (outdirname args)))
    (fun e => log ERROR (CouldNotCreateDir e) ;; sys_exit 1).

Definition _create_blast_command (query_file subject_file output_file : string)
  : string :=
  blast_exe args ++ " -query " ++ query_file ++ " -subject " ++ subject_file
  ++ " -out " ++ output_file
  ++ " -outfmt '6 qseqid sseqid pident qlen length gaps mismatch'".

(** Where the alignment of a locus against a genome is written. *)
Definition output_file_of (allele_name genome_id : string) : string :=
  Path.join (outdirname args) (allele_name ++ "_vs_" ++ genome_id ++ ".tab").

(** The body of the inner loop of [_run_blast_analysis]: one more command
    and one more output file. *)
Definition add_job (allele : string * (string * nat))
    (acc : list string * PyDict.t (string * string) string)
    (genome : string * string)
  : list string * PyDict.t (string * string) string :=
  let '(allele_name, (allele_file, _)) := allele in
  let '(genome_id, genome_file) := genome in
  let '(commands, output_files) := acc in
  let output_file := output_file_of allele_name genome_id in
  let command := _create_blast_command allele_file genome_file output_file in
  (commands ++ [command],
   PyDict.set output_files (genome_id, allele_name) output_file).

(** The two nested loops: for each allele, for each genome. *)
Definition blast_jobs (alleles : PyDict.t string (string * nat))
    (genomes : PyDict.t string string)
  : list string * PyDict.t (string * string) string :=
  fold_left
    (fun acc allele => fold_left (add_job allele) (PyDict.items genomes) acc)
    (PyDict.items alleles) ([], PyDict.empty).

(** One round of the waiting loop of [_run_parallel_commands]. *)
Definition await_job (_ : unit) (job : nat * string) : M unit :=
  let (i, cmd) := job in
  try_except
    (match jobs w cmd with
     | JobRaised e => raise (exn_of e)
     | Completed returncode stderr =>
         if negb (returncode =? 0)%Z then log WARNING (CommandFailed (i + 1) stderr)
         else if verbose args then log INFO (CommandCompleted (i + 1))
         else ret tt
     end)
    (fun e => log ERROR (CommandError (i + 1) e)).

Definition _run_parallel_commands (commands : list string) : M unit :=
  log INFO (RunningJobs (List.length commands)) ;;
  for_each (combine (seq 0 (List.length commands)) commands) await_job tt ;;
  log INFO AllJobsCompleted.

Definition _run_blast_analysis (alleles : PyDict.t string (string * nat))
    (genomes : PyDict.t string string)
  : M (PyDict.t (string * string) string) :=
  log INFO RunningBlast ;;
  let (commands, output_files) := blast_jobs alleles genomes in
  log INFO (GeneratedCommands (List.length commands)) ;;
  _run_parallel_commands commands ;;
  ret output_files.

(** [int(best_allele)] on the string the selector returns. *)
Definition int_str (s : string) : result Z :=
  match int_of_str s with
  | Some z => Returned z
  | None => Raised ValueError
  end.

Definition process_blast_file (df : DataFrame) (item : string * string * string)
  : M DataFrame :=
  let '((genome_id, allele_name), blast_file) := item in
  best_allele <- _find_best_allele w blast_file ;;
  match best_allele with
  | Some a =>
      z <- lift (int_str a) ;;
      ret (Pandas.loc_set df genome_id allele_name (CInt z))
  | None => ret (Pandas.loc_set df genome_id allele_name CNone)
  end.

Definition _process_blast_results (alleles : PyDict.t string (string * nat))
    (genomes : PyDict.t string string)
    (blast_files : PyDict.t (string * string) string)
  : M DataFrame :=
  let columns := PyDict.keys alleles ++ ["ST"] in
  let df := Pandas.new (PyDict.keys genomes) columns in
  for_each (PyDict.items blast_files) process_blast_file df.

End Scheduler.

(* ================================================================== *)
(** ** Profile resolver: [_load_mlst_profiles], [_assign_sequence_types] *)

(** [[f(x) for x in xs]] *)
Fixpoint for_list {X Y} (f : X -> M Y) (xs : list X) : M (list Y) :=
  match xs with
  | [] => ret []
  | x :: xs' => y <- f x ;; ys <- for_list f xs' ;; ret (y :: ys)
  end.

Fixpoint insert_str (s : string) (l : list string) : list string :=
  match l with
  | [] => [s]
  | x :: l' => if String.leb s x then s :: l else x :: insert_str s l'
  end.

Definition sort_strings (l : list string) : list string :=
  fold_right insert_str [] l.

Definition strings_of (l : list (option string)) : list string :=
  flat_map (fun k => match k with Some s => [s] | None => [] end) l.

Definition is_None {X} (k : option X) : bool :=
  match k with None => true | Some _ => false end.

(** [sorted(keys)] on the keys of a row: strings sort, and a [None]
    among strings is a [TypeError]. *)
Definition sorted_keys (l : list (option string)) : result (list (option string)) :=
  match filter is_None l, strings_of l with
  | [], strs => Returned (map Some (sort_strings strs))
  | nones, [] => Returned nones
  | _, _ => Raised TypeError
  end.

(** [for gene in genes], [list(genes)]: a [TypeError] on [None]. *)
Definition iter_ {X} (genes : option (list X)) : result (list X) :=
  match genes with
  | Some l => Returned l
  | None => Raised TypeError
  end.

Definition not_a_gene (k : option string) : bool :=
  eqb k (Some "ST") || eqb k (Some "clonal_complex").

Section Resolver.
Context `{Builtins} (w : World) (args : Args).

(** [','.join([str(row[gene]) for gene in genes])] on a profile row. *)
Definition profile_key (genes : list (option string)) (row : csv_row) : M string :=
  parts <- for_list (fun gene => v <- lift (PyDict.getitem row gene) ;; ret (str_ v))
                    genes ;;
  ret (PyStr.join "," parts).

(** One round of the loop of [_load_mlst_profiles]. *)
Definition profile_step
    (st : option (list (option string)) * PyDict.t string csvval) (row : csv_row)
  : M (option (list (option string)) * PyDict.t string csvval) :=
  let (genes, profiles) := st in
  genes <- match genes with
           | None =>
               genes <- lift (sorted_keys
                                (filter (fun k => negb (not_a_gene k)) (PyDict.keys row))) ;;
               log INFO (GeneOrder genes) ;;
               ret genes
           | Some genes => ret genes
           end ;;
  allele_profile <- profile_key genes row ;;
  st_value <- lift (PyDict.getitem row (Some "ST")) ;;
  ret (Some genes, PyDict.set profiles allele_profile st_value).

Definition _load_mlst_profiles
  : M (option (list (option string)) * PyDict.t string csvval) :=
  log INFO (LoadingProfiles (profile args)) ;;
  try_except
    ('(lines, failure) <- open_csv w (profile args) ;;
     st <- for_each (DictReader lines) profile_step (None, PyDict.empty) ;;
     reader_end failure ;;
     log INFO (LoadedProfiles (List.length (snd st))) ;;
     ret st)
    (fun e => log ERROR (ErrorLoadingProfiles e) ;; sys_exit 1).

(** [','.join([str(row[gene]) if pd.notna(row[gene]) else 'NA' for gene in genes])]
    on the row of [isolate_id]. *)
Definition isolate_key (df : DataFrame) (genes : option (list (option string)))
    (isolate_id : string) : M string :=
  genes <- lift (iter_ genes) ;;
  parts <- for_list (fun gene =>
                       x <- lift (Pandas.row_get df isolate_id gene) ;;
                       ret (if Pandas.notna x then Pandas.str x else "NA"))
                    genes ;;
  ret (PyStr.join "," parts).

(** One round of [for isolate_id, row in df.iterrows()]; the rows are
    those of the frame [df0] the loop started on, and the loop writes the
    column ST only. *)
Definition assign_step (df0 : DataFrame)
    (genes : option (list (option string))) (profiles : PyDict.t string csvval)
    (df : DataFrame) (isolate_id : string) : M DataFrame :=
  allele_profile <- isolate_key df0 genes isolate_id ;;
  log INFO (IsolateAlleles isolate_id allele_profile) ;;
  match PyDict.get profiles allele_profile with
  | Some st =>
      n <- lift (int_ st) ;;
      let df := Pandas.loc_set df isolate_id "ST" (CInt n) in
      log INFO (AssignedST (str_ st)) ;;
      ret df
  | None =>
      let df := Pandas.loc_set df isolate_id "ST" (CStr "NEW") in
      log WARNING (ProfileNotFound allele_profile) ;;
      ret df
  end.

Definition _assign_sequence_types (df : DataFrame) : M DataFrame :=
  log INFO AssigningSTs ;;
  '(genes, profiles) <- _load_mlst_profiles ;;
  df' <- for_each (index df) (assign_step df genes profiles) df ;;
  by_ <- lift (iter_ genes) ;;
  lift (Pandas.sort_values by_ df').

(* ------------------------------------------------------------------ *)
(** ** Result aggregator and the driver *)

Definition write_format (output_dir : string) (_ : unit) (fmt : string) : M unit :=
  let output_file := Path.join output_dir ("MLST_results." ++ fmt) in
  let write (path : string) : M unit :=
    match write_failure w path with
    | Some e => raise (exn_of e)
    | None => ret tt
    end in
  try_except
    (if String.eqb fmt "csv" then
       write output_file ;; log INFO (ResultsWritten output_file)
     else if String.eqb fmt "tab" || String.eqb fmt "tsv" then
       write output_file ;; log INFO (ResultsWritten output_file)
     else if String.eqb fmt "excel" || String.eqb fmt "xlsx" || String.eqb fmt "xls" then
       write (Path.join output_dir "MLST_results.xlsx") ;;
       log INFO (ResultsWritten output_file)
     else
       log WARNING (UnknownFormat fmt))
    (fun e => log ERROR (ErrorWriting fmt e)).

Definition _write_results (df : DataFrame) : M unit :=
  let output_formats :=
    map (fun fmt => PyStr.strip (PyStr.lower fmt)) (PyStr.split "," (formats args)) in
  for_each output_formats (write_format (outdirname args)) tt.

(** [run_analysis]; the value is the frame handed to [_write_results]. *)
Definition run_analysis : M DataFrame :=
  log INFO AnalysisStarted ;;
  log INFO RunTime ;;
  log INFO ArgumentsDump ;;
  _validate_arguments args ;;
  alleles <- _load_alleles w args ;;
  genomes <- _load_genomes w args ;;
  _create_output_directory w args ;;
  blast_results <- _run_blast_analysis w args alleles genomes ;;
  results_df <- _process_blast_results w alleles genomes blast_results ;;
  results_df <- _assign_sequence_types results_df ;;
  _write_results results_df ;;
  log INFO AnalysisCompleted ;;
  ret results_df.

End Resolver.

(* ================================================================== *)
(** ** Vocabulary of the statements about the selector *)

(** An alignment hit: the fields of one output line the selector reads. *)
Record AlignmentHit : Type := {
  query_allele_id : string;
  percent_identity : pyfloat;
  query_length : Z;
  alignment_length : Z;
  gap_count : Z
}.

(** Length Score. *)
Definition LS (h : AlignmentHit) : Z :=
  query_length h - alignment_length h + gap_count h.

Definition allele_number (h : AlignmentHit) : string :=
  PyStr.last (PyStr.split "_" (query_allele_id h)).

Definition tuple_of (h : AlignmentHit) : tracked :=
  (LS h, percent_identity h, allele_number h).



(** A row that reads as a hit: all five fields are present and parse. *)
Definition parse_hit `{Builtins} (row : csv_row) : option AlignmentHit :=
  match PyDict.get row (Some "qseqid"), PyDict.get row (Some "qlen"),
        PyDict.get row (Some "length"), PyDict.get row (Some "gaps"),
        PyDict.get row (Some "pident") with
  | Some (VStr q), Some (VStr a), Some (VStr b), Some (VStr c), Some (VStr p) =>
      match int_of_str a, int_of_str b, int_of_str c, float_of_str p with
      | Some qlen, Some len, Some gaps, Some pident =>
          Some {| query_allele_id := q; percent_identity := pident;
                  query_length := qlen; alignment_length := len;
                  gap_count := gaps |}
      | _, _, _, _ => None
      end
  | _, _, _, _, _ => None
  end.

(** The loop body on a row that reads as the hit [h]. *)
Definition track (st : option tracked * option tracked) (h : AlignmentHit)
  : option tracked * option tracked :=
  (track_ls (fst st) (tuple_of h), track_pident (snd st) (tuple_of h)).

Fixpoint all_some {X} (l : list (option X)) : option (list X) :=
  match l with
  | [] => Some []
  | None :: _ => None
  | Some x :: l' => option_map (cons x) (all_some l')
  end.

(** The hit list of a file: [None] as soon as one non-blank line does
    not read as a hit. *)
Definition hit_list `{Builtins} (lines : list (list string)) : option (list AlignmentHit) :=
  all_some (map parse_hit (DictReader_with fieldnames lines)).


(* ================================================================== *)
(** ** Vocabulary of the statements about the loaders *)

(** A file that [SeqIO.parse] reads without raising. *)
Definition readable (f : dir_entry) : Prop :=
  exists records, entry_fasta f = Sequences records.

(** What a locus file contributes to the allele catalog: nothing when it
    has no sequence, else an entry under the gene name of its first
    header. *)
Definition allele_entry (directory : string) (f : dir_entry)
  : option (string * (string * nat)) :=
  match entry_fasta f with
  | Sequences (first :: rest) =>
      Some (gene_name_of first,
            (Path.join directory (entry_name f), S (List.length rest)))
  | _ => None
  end.

(** What a genome file contributes to the genome catalog. *)
Definition genome_entry (directory : string) (f : dir_entry)
  : option (string * string) :=
  match entry_fasta f with
  | Sequences (_ :: _) =>
      Some (isolate_id_of (entry_name f), Path.join directory (entry_name f))
  | _ => None
  end.

(** A round of a loader's loop that raises nothing. *)
Definition apply_entry `{Eqb K} {V X} (entry : X -> option (K * V))
    (d : PyDict.t K V) (x : X) : PyDict.t K V :=
  match entry x with
  | Some (k, v) => PyDict.set d k v
  | None => d
  end.

(** A record logged at INFO level: neither a warning nor an error. *)
Definition info (r : log_record) : Prop := lvl r = INFO.

Definition anything (_ : log_record) : Prop := True.

(** The four required arguments are given. *)
Definition args_given (args : Args) : Prop :=
  indirname args <> "" /\ outdirname args <> "" /\
  profile args <> "" /\ genomedir args <> "".

(* ================================================================== *)
(** ** Vocabulary of the statements about the resolver *)

(** What a row holds under a key it has. *)
Definition row_value (row : csv_row) (k : option string) : csvval :=
  match PyDict.get row k with
  | Some v => v
  | None => VNone
  end.

(** The locus columns of a profile row, sorted. *)
Definition genes_of (row : csv_row) : list (option string) :=
  map Some (sort_strings
              (strings_of (filter (fun k => negb (not_a_gene k)) (PyDict.keys row)))).

(** The genes once the loop has seen a row. *)
Definition genes_after (genes : option (list (option string))) (row : csv_row)
  : list (option string) :=
  match genes with
  | None => genes_of row
  | Some g => g
  end.

(** The allele-combination key of a profile row. *)
Definition row_key `{Builtins} (genes : list (option string)) (row : csv_row) : string :=
  PyStr.join "," (map (fun g => str_ (row_value row g)) genes).

(** The ST field of a profile row. *)
Definition row_ST (row : csv_row) : csvval := row_value row (Some "ST").

Definition profile_entry `{Builtins} (genes : list (option string)) (row : csv_row)
  : option (string * csvval) :=
  Some (row_key genes row, row_ST row).

(** The profile rows the reader yields are those of a table: they share
    the keys of the first row, all of them column names, [ST] among them. *)
Definition profile_table (rows : list csv_row) : Prop :=
  match rows with
  | [] => False
  | r1 :: _ =>
      (forall k, In k (PyDict.keys r1) -> k <> None) /\
      In (Some "ST") (PyDict.keys r1) /\
      (forall r k, In r rows -> In k (PyDict.keys r1) -> In k (PyDict.keys r))
  end.

(** The text of a cell in a genome's key. *)
Definition cell_text (x : cell) : string :=
  if Pandas.notna x then Pandas.str x else "NA".

Definition gene_cell (df : DataFrame) (isolate_id : string) (gene : option string)
  : cell :=
  match gene with
  | Some c => Pandas.at_ df isolate_id c
  | None => CNaN
  end.

Definition genome_parts (df : DataFrame) (genes : list (option string))
    (isolate_id : string) : list string :=
  map (fun g => cell_text (gene_cell df isolate_id g)) genes.

(** The allele-combination key of a genome. *)
Definition genome_key (df : DataFrame) (genes : list (option string))
    (isolate_id : string) : string :=
  PyStr.join "," (genome_parts df genes isolate_id).

Definition is_column (df : DataFrame) (gene : option string) : Prop :=
  exists c, gene = Some c /\ Pandas.has (columns df) c = true.

(** Writing one column, a row at a time. *)
Definition write_column (col : string) (value : string -> cell)
    (df : DataFrame) (r : string) : DataFrame :=
  Pandas.loc_set df r col (value r).

(** The cell the resolver writes in column ST for a key. *)
Definition sequence_type `{Builtins} (profiles : PyDict.t string csvval) (key : string)
  : cell :=
  match PyDict.get profiles key with
  | Some st => match int_ st with
               | Returned n => CInt n
               | Raised _ => CNaN
               end
  | None => CStr "NEW"
  end.

(** The dictionary [_load_mlst_profiles] builds from the rows of a table. *)
Definition profiles_of `{Builtins} (rows : list csv_row) : PyDict.t string csvval :=
  match rows with
  | [] => PyDict.empty
  | r1 :: _ => fold_left (apply_entry (profile_entry (genes_of r1))) rows PyDict.empty
  end.

Definition table_genes (rows : list csv_row) : list (option string) :=
  match rows with
  | [] => []
  | r1 :: _ => genes_of r1
  end.

(** A string without the character [c]. *)
Definition free_of (c : ascii) (s : string) : Prop := PyStr.count c s = 0%nat.

(** A cell that holds an allele number or none. *)
Definition integer_or_none (x : cell) : Prop :=
  match x with
  | CStr _ => False
  | _ => True
  end.

(** Decision procedures for the conditions on tables and frames. *)
Definition profile_tableb (rows : list csv_row) : bool :=
  match rows with
  | [] => false
  | r1 :: _ =>
      forallb (fun k => negb (is_None k)) (PyDict.keys r1)
      && PyDict.mem r1 (Some "ST")
      && forallb (fun r => forallb (PyDict.mem r) (PyDict.keys r1)) rows
  end.

Definition is_columnb (df : DataFrame) (gene : option string) : bool :=
  match gene with
  | Some c => Pandas.has (columns df) c
  | None => false
  end.

Definition integer_STb `{Builtins} (row : csv_row) : bool :=
  match int_ (row_ST row) with
  | Returned _ => true
  | Raised _ => false
  end.

(* ================================================================== *)
(** ** Vocabulary of the statements about the scheduler *)



(** What a (locus, genome) pair adds to the dictionary of output files. *)
Definition job_entry (args : Args)
    (pair : (string * (string * nat)) * (string * string))
  : option ((string * string) * string) :=
  let '((allele_name, _), (genome_id, _)) := pair in
  Some ((genome_id, allele_name), output_file_of args allele_name genome_id).


(* ================================================================== *)
(** ** Decimal literals: an instance of the builtins to run the model on *)

Definition digit_of (c : ascii) : option Z :=
  let n := nat_of_ascii c in
  if (48 <=? n)%nat && (n <=? 57)%nat then Some (Z.of_nat n - 48) else None.

Fixpoint digits_value (acc : Z) (s : string) : option Z :=
  match s with
  | EmptyString => Some acc
  | String c s' =>
      match digit_of c with
      | Some d => digits_value (10 * acc + d) s'
      | None => None
      end
  end.

Definition unsigned_int (s : string) : option Z :=
  match s with
  | EmptyString => None
  | _ => digits_value 0 s
  end.

Definition decimal_int (s : string) : option Z :=
  match s with
  | String "-" s' => option_map Z.opp (unsigned_int s')
  | _ => unsigned_int s
  end.

(** [ddd] or [ddd.ddd], read exactly. *)
Definition decimal_float (s : string) : option pyfloat :=
  match PyStr.split "." s with
  | [a] => option_map (fun n => FFin (inject_Z n)) (unsigned_int a)
  | [a; b] =>
      match unsigned_int (a ++ b) with
      | Some n => Some (FFin (Qmake n (Z.to_pos (10 ^ Z.of_nat (String.length b)))))
      | None => None
      end
  | _ => None
  end.

Definition quote (s : string) : string := "'" ++ s ++ "'".

#[export] Instance decimal_builtins : Builtins := {|
  int_of_str := decimal_int;
  float_of_str := decimal_float;
  repr_list := fun l => ("[" ++ PyStr.join ", " (map quote l) ++ "]")%string
|}.

(* ================================================================== *)
(** ** Inputs to run the model on *)

Definition quiet_world : World := {|
  dirs := fun _ => NoDir;
  files := fun _ => NoFile;
  jobs := fun _ => Completed 0 "";
  outdir_exists := false;
  rmtree_failure := None;
  mkdir_failure := None;
  write_failure := fun _ => None
|}.

Definition with_files (f : string -> text_file) (w : World) : World := {|
  dirs := dirs w; files := f; jobs := jobs w;
  outdir_exists := outdir_exists w; rmtree_failure := rmtree_failure w;
  mkdir_failure := mkdir_failure w; write_failure := write_failure w
|}.

Definition with_dirs (d : string -> dir_state) (w : World) : World := {|
  dirs := d; files := files w; jobs := jobs w;
  outdir_exists := outdir_exists w; rmtree_failure := rmtree_failure w;
  mkdir_failure := mkdir_failure w; write_failure := write_failure w
|}.


(** A table of files by path; a path not listed is absent. *)
Fixpoint file_table (t : list (string * text_file)) (path : string) : text_file :=
  match t with
  | [] => NoFile
  | (p, f) :: t' => if String.eqb p path then f else file_table t' path
  end.

Fixpoint dir_table (t : list (string * list dir_entry)) (path : string) : dir_state :=
  match t with
  | [] => NoDir
  | (p, l) :: t' => if String.eqb p path then Entries l else dir_table t' path
  end.

(** One alignment output file, everything else absent. *)
Definition one_file (path : string) (t : text_file) : World :=
  with_files (fun p => if String.eqb p path then t else NoFile) quiet_world.

Definition profile_world (t : text_file) : World :=
  one_file "profile.tsv" t.

Definition fasta_file (file_name : string) (ids : list string) : dir_entry := {|
  entry_name := file_name;
  entry_is_file := true;
  entry_fasta := Sequences (map (fun i => {| seq_id := i |}) ids)
|}.

Definition demo_args : Args := {|
  indirname := "alleles";
  genomedir := "genomes";
  profile := "profile.tsv";
  outdirname := "out";
  logfile := None;
  verbose := false;
  force := false;
  blast_exe := "blastn";
  formats := "csv,tab"
|}.

(** Every file of a listing written out is readable. *)
Ltac all_readable :=
  cbn; repeat (constructor; [eexists; reflexivity|]); constructor.

(** LS and percent identity disagree: [abc_1] is complete with 98%
    identity, [abc_2] is ten bases short with 100%. *)
Definition lines_disagree : list (list string) :=
  [ ["abc_2"; "G1"; "100.000"; "100"; "90"; "0"; "0"];
    ["abc_1"; "G1"; "98.000"; "100"; "100"; "0"; "2"] ].





(** Two locus files whose first headers both start with [arcC]. *)
Definition entries_same_gene : list dir_entry :=
  [ fasta_file "arcC.fasta" ["arcC_1"; "arcC_2"];
    fasta_file "notes.txt" ["x_1"];
    fasta_file "arcC_extra.fas" ["arcC_7"] ].

Definition world_same_gene : World :=
  with_dirs (fun d =>
    if String.eqb d "alleles"
    then Entries entries_same_gene
    else NoDir) quiet_world.

(** Two genome files whose stems both sanitize to [a_b]. *)
Definition entries_same_isolate : list dir_entry :=
  [ fasta_file "a b.fasta" ["contig1"];
    fasta_file "a_b.fna" ["contig1"; "contig2"] ].

Definition world_same_isolate : World :=
  with_dirs (fun d =>
    if String.eqb d "genomes"
    then Entries entries_same_isolate
    else NoDir) quiet_world.

(** Locus files without a single sequence. *)
Definition entries_no_loci : list dir_entry :=
  [ fasta_file "abc.fasta" []; fasta_file "xyz.fa" [] ].

(** A profile table of two loci. *)
Definition lines_abc_xyz : list (list string) :=
  [ ["ST"; "abc"; "xyz"; "clonal_complex"];
    ["10"; "2"; "7"; "CC1"];
    ["11"; "1"; "7"; "CC1"] ].

Definition profile_abc_xyz : text_file := Lines lines_abc_xyz None.

(** Two loci, two genomes; the alignment of [xyz] against [G2] left no
    output file. *)
Definition world_two_by_two : World :=
  with_dirs (dir_table
    [ ("alleles", [ fasta_file "abc.fasta" ["abc_1"; "abc_2"];
                    fasta_file "xyz.fasta" ["xyz_7"] ]);
      ("genomes", [ fasta_file "G1.fasta" ["contig1"];
                    fasta_file "G2.fasta" ["contig1"] ]) ])
  (with_files (file_table
    [ ("out/abc_vs_G1.tab",
       Lines [ ["abc_1"; "G1"; "95.000"; "100"; "95"; "0"; "5"];
               ["abc_2"; "G1"; "100.000"; "100"; "100"; "0"; "0"] ] None);
      ("out/xyz_vs_G1.tab",
       Lines [ ["xyz_7"; "G1"; "100.000"; "80"; "80"; "0"; "0"] ] None);
      ("out/abc_vs_G2.tab",
       Lines [ ["abc_2"; "G2"; "100.000"; "100"; "100"; "0"; "0"] ] None);
      ("profile.tsv", profile_abc_xyz) ])
    quiet_world).

(** The frame [_process_blast_results] builds in that world. *)
Definition frame_two_by_two : DataFrame := {|
  index := ["G1"; "G2"];
  columns := ["abc"; "xyz"; "ST"];
  cells := [ ("G1", "abc", CInt 2); ("G2", "abc", CInt 2);
             ("G1", "xyz", CInt 7); ("G2", "xyz", CNone) ]
|}.

(** Two rows with the same allele combination and different STs. *)
Definition lines_duplicate : list (list string) :=
  [ ["ST"; "abc"; "xyz"]; ["10"; "2"; "7"]; ["11"; "2"; "7"] ].

(** A header and no row. *)
Definition lines_header_only : list (list string) :=
  [ ["ST"; "abc"; "xyz"] ].

(** A row with the text NA in a locus column. *)
Definition lines_NA_literal : list (list string) :=
  [ ["ST"; "abc"; "xyz"]; ["10"; "2"; "NA"] ].

(** A table that has the locus [abc] only. *)
Definition lines_abc_only : list (list string) :=
  [ ["ST"; "abc"]; ["10"; "2"] ].

(** An ST field that is no integer, a locus the frame has no column for,
    and a row longer than the header. *)
Definition lines_bad_ST : list (list string) :=
  [ ["ST"; "abc"; "xyz"]; ["10a"; "2"; "7"] ].

Definition lines_other_locus : list (list string) :=
  [ ["ST"; "abc"; "pqr"]; ["10"; "2"; "7"] ].

Definition lines_long_row : list (list string) :=
  [ ["ST"; "abc"; "xyz"]; ["10"; "2"; "7"; "extra"] ].

(** No locus file has a sequence, one genome, and a profile table whose
    only column is ST. *)
Definition world_no_loci_run : World :=
  with_dirs (dir_table
    [ ("alleles", entries_no_loci);
      ("genomes", [ fasta_file "G1.fasta" ["contig1"] ]) ])
  (with_files (file_table [ ("profile.tsv", Lines [ ["ST"]; ["5"] ] None) ])
    quiet_world).

(** The catalogs the loaders return in the world of two loci and two
    genomes. *)
Definition alleles_abc_xyz : PyDict.t string (string * nat) :=
  [ ("abc", ("alleles/abc.fasta", 2%nat)); ("xyz", ("alleles/xyz.fasta", 1%nat)) ].

Definition genomes_G1_G2 : PyDict.t string string :=
  [ ("G1", "genomes/G1.fasta"); ("G2", "genomes/G2.fasta") ].



(* ================================================================== *)
(** ** Vocabulary of the further properties *)

(** What listing a directory raises, if it raises. *)
Definition listing_error (d : dir_state) : option exn :=
  match d with
  | NoDir => Some FileNotFoundError
  | NoListing e => Some (exn_of e)
  | Entries _ => None
  end.

(** A record that stands first in no log: the default of [List.last]. *)
Definition no_record : log_record := {| lvl := INFO; ev := RunTime |}.

(** A genome directory that cannot be listed, and a locus directory whose
    second sequence file is damaged. *)
Definition world_damaged_locus : World :=
  with_dirs (dir_table
    [ ("alleles", [ fasta_file "abc.fasta" ["abc_1"];
                    {| entry_name := "xyz.fasta"; entry_is_file := true;
                       entry_fasta := BadFasta DecodeFailure |};
                    fasta_file "pqr.fasta" ["pqr_1"] ]) ])
    quiet_world.


(** A command whose process ran and ended with status 0. *)
Definition job_succeeded (w : World) (cmd : string) : Prop :=
  exists stderr, jobs w cmd = Completed 0 stderr.

(** [[fmt.lower().strip() for fmt in self.args.formats.split(',')]] *)
Definition output_formats (args : Args) : list string :=
  map (fun fmt => PyStr.strip (PyStr.lower fmt)) (PyStr.split "," (formats args)).

(** The format names [_write_results] has a branch for. *)
Definition known_format (fmt : string) : bool :=
  existsb (String.eqb fmt) ["csv"; "tab"; "tsv"; "excel"; "xlsx"; "xls"].


(** The command line of one (locus, genome) pair. *)
Definition job_command (args : Args)
    (pair : (string * (string * nat)) * (string * string)) : string :=
  let '((allele_name, (allele_file, _)), (genome_id, genome_file)) := pair in
  _create_blast_command args allele_file genome_file
                        (output_file_of args allele_name genome_id).


(** What opening a file for reading raises, if it raises. *)
Definition open_error (f : text_file) : option exn :=
  match f with
  | NoFile => Some FileNotFoundError
  | Unreadable => Some OSError
  | Lines _ _ => None
  end.

(** A computation that returns, or exits with status 1. *)
Definition returns_or_exits {A} (m : M A) : Prop :=
  (exists a, outcome m = Returned a) \/ outcome m = Raised (SystemExit 1).


(** The step of [run_analysis] a record comes from: the call sites of the
    logger, grouped by the method that holds them, in the order in which
    [run_analysis] calls the methods. *)
Definition phase (e : event) : nat :=
  match e with
  | AnalysisStarted | RunTime | ArgumentsDump | NoArgSpecified _ | ArgValue _ _ => 0
  | ProcessingAlleleDir _ | ProcessingGenomeDir _ | CouldNotIdentifyFasta _ _
  | LoadedAlleles _ _ _ | LoadedGenome _ _ | CouldNotProcessFasta _ _
  | CouldNotProcessGenome _ _ | FoundGenes _ | FoundGenomes _ => 1
  | OutputDirExists _ | RemovingDir _ | CreatedDir _ | CouldNotCreateDir _ => 2
  | RunningBlast | GeneratedCommands _ | RunningJobs _ | CommandFailed _ _
  | CommandCompleted _ | CommandError _ _ | AllJobsCompleted => 3
  | DifferentAlleles _ | BestLS _ | BestID _ | ErrorProcessing _ _ => 4
  | AssigningSTs | IsolateAlleles _ _ | AssignedST _ | ProfileNotFound _
  | LoadingProfiles _ | GeneOrder _ | LoadedProfiles _ | ErrorLoadingProfiles _ => 5
  | UnknownFormat _ | ResultsWritten _ | ErrorWriting _ _ => 6
  | AnalysisCompleted => 7
  end.

(** Every record a computation logs, whether it returns or raises,
    satisfies [P]. *)
Definition logs_all {A} (P : log_record -> Prop) (m : M A) : Prop :=
  Forall P (logs m).

Definition in_phase (k : nat) (r : log_record) : Prop := phase (ev r) = k.


(** Every exception a computation may raise satisfies [P]. *)
Definition raises_only {A} (P : exn -> Prop) (m : M A) : Prop :=
  forall e, outcome m = Raised e -> P e.

(** What the handlers of [main] turn into exit status 1, or what already
    is an exit with status 1. *)
Definition ordinary_or_exit (e : exn) : Prop :=
  e = SystemExit 1 \/ is_Exception e = true.

(* ================================================================== *)
(** * Part II: properties *)

(* ------------------------------------------------------------------ *)
(** ** Equality on keys *)

Lemma eqb_refl `{Eqb K} (x : K) : eqb x x = true.
Proof. destruct (eqb_spec x x); congruence. Qed.

Lemma eqb_eq `{Eqb K} (x y : K) : eqb x y = true <-> x = y.
Proof. destruct (eqb_spec x y); split; congruence. Qed.

Lemma eqb_neq `{Eqb K} (x y : K) : eqb x y = false <-> x <> y.
Proof. destruct (eqb_spec x y); split; congruence. Qed.

(* ------------------------------------------------------------------ *)
(** ** The model at work *)

Example split_underscore :
  PyStr.split "_" "arcC_12" = ["arcC"; "12"] /\
  PyStr.split "_" "arcC" = ["arcC"] /\
  PyStr.split "_" "a__b_" = ["a"; ""; "b"; ""] /\
  PyStr.last (PyStr.split "_" "gene_x_7") = "7" /\
  PyStr.first (PyStr.split "_" "gene_x_7") = "gene".
Proof. repeat split. Qed.

Example path_parts :
  Path.suffix "G1.final.FASTA" = ".FASTA" /\
  Path.stem "G1.final.FASTA" = "G1.final" /\
  Path.suffix ".hidden" = "" /\
  Path.stem "trailing." = "trailing." /\
  isolate_id_of "lab|run 3.fna" = "lab_run_3".
Proof. repeat split. Qed.

Example str_of_int :
  PyStr.of_Z 0 = "0" /\ PyStr.of_Z 42 = "42" /\ PyStr.of_Z (-7) = "-7".
Proof. repeat split. Qed.

Example dict_reader_short_and_long_lines :
  DictReader [ ["ST"; "abc"]; ["10"]; []; ["11"; "2"; "x"; "y"] ]
  = [ [(Some "ST", VStr "10"); (Some "abc", VNone)];
      [(Some "ST", VStr "11"); (Some "abc", VStr "2"); (None, VRest ["x"; "y"])] ].
Proof. reflexivity. Qed.

(** The loaders, the scheduler and the table construction in the world
    of two loci and two genomes. *)
Example two_by_two_catalogs :
  outcome (_load_alleles world_two_by_two demo_args) = Returned alleles_abc_xyz /\
  outcome (_load_genomes world_two_by_two demo_args) = Returned genomes_G1_G2.
Proof. split; reflexivity. Qed.

Example two_by_two_jobs :
  blast_jobs demo_args alleles_abc_xyz genomes_G1_G2
  = ([ "blastn -query alleles/abc.fasta -subject genomes/G1.fasta -out out/abc_vs_G1.tab -outfmt '6 qseqid sseqid pident qlen length gaps mismatch'";
       "blastn -query alleles/abc.fasta -subject genomes/G2.fasta -out out/abc_vs_G2.tab -outfmt '6 qseqid sseqid pident qlen length gaps mismatch'";
       "blastn -query alleles/xyz.fasta -subject genomes/G1.fasta -out out/xyz_vs_G1.tab -outfmt '6 qseqid sseqid pident qlen length gaps mismatch'";
       "blastn -query alleles/xyz.fasta -subject genomes/G2.fasta -out out/xyz_vs_G2.tab -outfmt '6 qseqid sseqid pident qlen length gaps mismatch'" ],
     [ ("G1", "abc", "out/abc_vs_G1.tab"); ("G2", "abc", "out/abc_vs_G2.tab");
       ("G1", "xyz", "out/xyz_vs_G1.tab"); ("G2", "xyz", "out/xyz_vs_G2.tab") ]).
Proof. reflexivity. Qed.

Example two_by_two_frame :
  _process_blast_results world_two_by_two alleles_abc_xyz genomes_G1_G2
    (snd (blast_jobs demo_args alleles_abc_xyz genomes_G1_G2))
  = ret frame_two_by_two.
Proof. vm_compute. reflexivity. Qed.

(** The whole run: [G1] has the combination 2,7 of ST 10; [G2] lacks
    [xyz] and is NEW. *)
Example two_by_two_run :
  outcome (run_analysis world_two_by_two demo_args)
  = Returned {| index := ["G1"; "G2"];
                columns := ["abc"; "xyz"; "ST"];
                cells := [ ("G1", "abc", CInt 2); ("G2", "abc", CInt 2);
                           ("G1", "xyz", CInt 7); ("G2", "xyz", CNone);
                           ("G1", "ST", CInt 10); ("G2", "ST", CStr "NEW") ] |}.
Proof. vm_compute. reflexivity. Qed.

(* ------------------------------------------------------------------ *)
(** ** Float comparison *)







(* ------------------------------------------------------------------ *)
(** ** The effect monad *)

Lemma bind_ret {A B} (a : A) (f : A -> M B) : bind (ret a) f = f a.
Proof. unfold bind, ret. destruct (f a); reflexivity. Qed.


Lemma bind_lift_returned {A B} (a : A) (f : A -> M B) :
  bind (lift (Returned a)) f = f a.
Proof. apply bind_ret. Qed.

Lemma bind_lift_raised {A B} (e : exn) (f : A -> M B) :
  bind (lift (Raised e)) f = raise e.
Proof. reflexivity. Qed.

Lemma for_each_cons {S X} (body : S -> X -> M S) x xs s :
  for_each (x :: xs) body s = bind (body s x) (fun s' => for_each xs body s').
Proof. reflexivity. Qed.

Lemma for_each_pure {S X} (g : S -> X -> S) (body : S -> X -> M S) (xs : list X) :
  (forall s x, In x xs -> body s x = ret (g s x)) ->
  forall s, for_each xs body s = ret (fold_left g xs s).
Proof.
  induction xs as [|x xs IH]; intros Hb s; simpl; trivial.
  rewrite Hb by (now left). rewrite bind_ret.
  apply IH. intros; apply Hb; now right.
Qed.

Lemma catchable_ret {A} (a : A) : catchable (ret a).
Proof. exact I. Qed.

Lemma catchable_log lv e : catchable (log lv e).
Proof. exact I. Qed.

Lemma catchable_bind {A B} (m : M A) (f : A -> M B) :
  catchable m -> (forall a, catchable (f a)) -> catchable (bind m f).
Proof.
  unfold catchable, bind, outcome.
  destruct m as [l [a|e]]; simpl; trivial.
  intros _ Hf. specialize (Hf a). destruct (f a) as [l' r]; exact Hf.
Qed.

Lemma catchable_for_each {S X} (body : S -> X -> M S) (xs : list X) :
  (forall s x, catchable (body s x)) -> forall s, catchable (for_each xs body s).
Proof.
  intros Hb. induction xs as [|x xs IH]; intros s; simpl.
  - apply catchable_ret.
  - apply catchable_bind; auto.
Qed.

Lemma try_except_returns {A} (body : M A) (handler : exn -> M A) :
  catchable body ->
  (forall e, exists a, outcome (handler e) = Returned a) ->
  exists a, outcome (try_except body handler) = Returned a.
Proof.
  unfold catchable, try_except, outcome.
  destruct body as [l [a|e]]; simpl; intros Hc Hh.
  - now exists a.
  - rewrite Hc. destruct (Hh e) as [a Ha].
    destruct (handler e) as [l' r]; simpl in *. now exists a.
Qed.

#[local] Hint Resolve catchable_ret catchable_log catchable_bind catchable_for_each
  : catchable.

(* ------------------------------------------------------------------ *)
(** ** The selector's loop *)

Section SelectorFacts.
Context `{Builtins}.

(** A row that reads as a hit updates the two tracked tuples and logs
    nothing. *)
Lemma find_best_step_hit (st : option tracked * option tracked) row h :
  parse_hit row = Some h ->
  find_best_step st row = ret (track st h).
Proof.
  unfold parse_hit, find_best_step, field, PyDict.getitem. destruct st as [bl bp].
  destruct (PyDict.get row (Some "qseqid")) as [[q| |]|]; try discriminate.
  destruct (PyDict.get row (Some "qlen")) as [[a| |]|]; try discriminate.
  destruct (PyDict.get row (Some "length")) as [[b| |]|]; try discriminate.
  destruct (PyDict.get row (Some "gaps")) as [[c| |]|]; try discriminate.
  destruct (PyDict.get row (Some "pident")) as [[p| |]|]; try discriminate.
  simpl.
  destruct (int_of_str a) as [qlen|]; try discriminate.
  destruct (int_of_str b) as [len|]; try discriminate.
  destruct (int_of_str c) as [gaps|]; try discriminate.
  destruct (float_of_str p) as [pident|]; try discriminate.
  intros [= <-]. reflexivity.
Qed.

(** Every other row raises, and what it raises [except Exception] catches. *)
Lemma find_best_step_malformed (st : option tracked * option tracked) row :
  parse_hit row = None ->
  exists e, find_best_step st row = raise e /\ is_Exception e = true.
Proof.
  unfold parse_hit, find_best_step, field, PyDict.getitem. destruct st as [bl bp].
  destruct (PyDict.get row (Some "qseqid")) as [[q| |]|]; simpl;
    try (intros _; eexists; split; [reflexivity|reflexivity]).
  destruct (PyDict.get row (Some "qlen")) as [[a| |]|]; simpl;
    try (intros _; eexists; split; [reflexivity|reflexivity]).
  destruct (int_of_str a) as [qlen|]; simpl;
    [|intros _; destruct (PyDict.get row (Some "length")) as [[?| |]|],
                         (PyDict.get row (Some "gaps")) as [[?| |]|],
                         (PyDict.get row (Some "pident")) as [[?| |]|];
      eexists; split; reflexivity].
  destruct (PyDict.get row (Some "length")) as [[b| |]|]; simpl;
    try (intros _; eexists; split; [reflexivity|reflexivity]).
  destruct (int_of_str b) as [len|]; simpl;
    [|intros _; destruct (PyDict.get row (Some "gaps")) as [[?| |]|],
                         (PyDict.get row (Some "pident")) as [[?| |]|];
      eexists; split; reflexivity].
  destruct (PyDict.get row (Some "gaps")) as [[c| |]|]; simpl;
    try (intros _; eexists; split; [reflexivity|reflexivity]).
  destruct (int_of_str c) as [gaps|]; simpl;
    [|intros _; destruct (PyDict.get row (Some "pident")) as [[?| |]|];
      eexists; split; reflexivity].
  destruct (PyDict.get row (Some "pident")) as [[p| |]|]; simpl;
    try (intros _; eexists; split; [reflexivity|reflexivity]).
  destruct (float_of_str p) as [pident|]; simpl; [discriminate|].
  intros _; eexists; split; reflexivity.
Qed.

Lemma find_best_step_catchable st row : catchable (find_best_step st row).
Proof.
  destruct (parse_hit row) as [h|] eqn:E.
  - rewrite (find_best_step_hit st _ E). exact I.
  - destruct (find_best_step_malformed st _ E) as [e [-> He]]. exact He.
Qed.

End SelectorFacts.

Section SelectorLoop.
Context `{Builtins}.

Lemma for_each_hits rows : forall hits st,
  all_some (map parse_hit rows) = Some hits ->
  for_each rows find_best_step st = ret (fold_left track hits st).
Proof.
  induction rows as [|row rows IH]; simpl; intros hits st E.
  - injection E as <-. reflexivity.
  - destruct (parse_hit row) as [h|] eqn:Eh; [|discriminate].
    destruct (all_some (map parse_hit rows)) as [hs|] eqn:Ehs; [|discriminate].
    injection E as <-. rewrite (find_best_step_hit st _ Eh), bind_ret.
    simpl. now apply IH.
Qed.


End SelectorLoop.











Section SelectorTheorems.
Context `{Builtins} (w : World).

Lemma report_best_returns blast_file st :
  exists v, outcome (report_best blast_file st) = Returned v.
Proof.
  destruct st as [[bl|] [bp|]]; simpl; eauto.
  destruct (negb _); simpl; eauto.
Qed.



Lemma try_except_done {A} (body : M A) handler :
  (exists a, outcome body = Returned a) -> try_except body handler = body.
Proof. destruct body as [l [a|e]]; simpl; intros [a' E]; [reflexivity|discriminate]. Qed.

(** On a file whose lines all read as hits, the selector is the loop
    over the hit list followed by the report. *)
Lemma find_best_allele_hits blast_file lines hits :
  files w blast_file = Lines lines None ->
  hit_list lines = Some hits ->
  _find_best_allele w blast_file
  = report_best blast_file (fold_left track hits (None, None)).
Proof.
  intros Hf Hh. unfold _find_best_allele, file_exists, open_csv. rewrite Hf. simpl negb.
  cbv iota. rewrite bind_ret. rewrite (for_each_hits _ _ Hh), bind_ret.
  simpl reader_end. rewrite bind_ret.
  apply try_except_done, report_best_returns.
Qed.


(** C4.  A file with no row (an empty hit list) gives [None]: nothing is
    raised and nothing is logged. *)
Theorem find_best_allele_empty blast_file lines :
  files w blast_file = Lines lines None ->
  DictReader_with fieldnames lines = [] ->
  _find_best_allele w blast_file = ret None.
Proof.
  intros Hf Hrows.
  assert (Hh : hit_list lines = Some []) by (unfold hit_list; now rewrite Hrows).
  rewrite (find_best_allele_hits _ Hf Hh). reflexivity.
Qed.


Lemma open_csv_catchable path : catchable (open_csv w path).
Proof. unfold open_csv. destruct (files w path); exact I || reflexivity. Qed.

Lemma reader_end_catchable failure : catchable (reader_end failure).
Proof. destruct failure as [[]|]; exact I || reflexivity. Qed.

Lemma report_best_catchable blast_file st : catchable (report_best blast_file st).
Proof.
  unfold catchable. destruct (report_best_returns blast_file st) as [v ->]. exact I.
Qed.

#[local] Hint Resolve open_csv_catchable reader_end_catchable report_best_catchable
  find_best_step_catchable : catchable.

(** The body of the [try] lets nothing escape [except Exception]. *)
Lemma find_best_body_catchable blast_file :
  catchable
    ('(lines, failure) <- open_csv w blast_file ;;
     st <- for_each (DictReader_with fieldnames lines) find_best_step (None, None) ;;
     reader_end failure ;;
     report_best blast_file st).
Proof.
  apply catchable_bind; [auto with catchable|].
  intros [lines failure]. auto 6 with catchable.
Qed.

(** The selector returns on every file. *)
Lemma find_best_allele_returns blast_file :
  exists v, outcome (_find_best_allele w blast_file) = Returned v.
Proof.
  unfold _find_best_allele. destruct (negb (file_exists w blast_file)).
  - now exists None.
  - apply try_except_returns; [apply find_best_body_catchable|].
    intros e. now exists None.
Qed.


End SelectorTheorems.


(** The same file run through: allele 1 is returned although allele 2 has
    the higher identity, and the three warnings are logged. *)
Example find_best_allele_disagree_run :
  _find_best_allele (one_file "out/abc_vs_G1.tab" (Lines lines_disagree None))
                    "out/abc_vs_G1.tab"
  = ([ {| lvl := WARNING; ev := DifferentAlleles "out/abc_vs_G1.tab" |};
       {| lvl := WARNING; ev := BestLS (0, FFin (98000 # 1000), "1") |};
       {| lvl := WARNING; ev := BestID (10, FFin (100000 # 1000), "2") |} ],
     Returned (Some "1")).
Proof. vm_compute. reflexivity. Qed.

(** A file of two blank lines. *)
Lemma find_best_allele_empty_witness :
  _find_best_allele (one_file "out/xyz_vs_G2.tab" (Lines [[]; []] None))
                    "out/xyz_vs_G2.tab" = ret None.
Proof.
  apply (find_best_allele_empty
           (one_file "out/xyz_vs_G2.tab" (Lines [[]; []] None))
           "out/xyz_vs_G2.tab" (lines := [[]; []])); reflexivity.
Defined.


(* ------------------------------------------------------------------ *)
(** ** Dictionaries *)

Section DictFacts.
Context `{Eqb K} {V : Type}.
Implicit Types (d : PyDict.t K V) (k : K) (v : V).

Lemma get_set_same d k v : PyDict.get (PyDict.set d k v) k = Some v.
Proof.
  induction d as [|[k' v'] d IH]; simpl.
  - now rewrite eqb_refl.
  - destruct (eqb k' k) eqn:E; simpl; rewrite E; auto.
Qed.

Lemma get_set_other d k k' v :
  k <> k' -> PyDict.get (PyDict.set d k v) k' = PyDict.get d k'.
Proof.
  intros Hne. induction d as [|[k0 v0] d IH]; simpl.
  - apply eqb_neq in Hne. now rewrite Hne.
  - destruct (eqb k0 k) eqn:E; simpl.
    + apply eqb_eq in E. subst k0. apply eqb_neq in Hne. now rewrite Hne.
    + destruct (eqb k0 k'); auto.
Qed.

Lemma keys_set d k v k' :
  In k' (PyDict.keys (PyDict.set d k v)) <-> k' = k \/ In k' (PyDict.keys d).
Proof.
  unfold PyDict.keys. induction d as [|[k0 v0] d IH]; simpl.
  - intuition congruence.
  - destruct (eqb k0 k) eqn:E; simpl.
    + apply eqb_eq in E. subst. intuition congruence.
    + rewrite IH. intuition congruence.
Qed.

(** A dictionary never holds a key twice. *)
Lemma keys_set_NoDup d k v :
  NoDup (PyDict.keys d) -> NoDup (PyDict.keys (PyDict.set d k v)).
Proof.
  unfold PyDict.keys. induction d as [|[k0 v0] d IH]; simpl; intros Hnd.
  - constructor; [intros []|constructor].
  - inversion Hnd as [|? ? Hnotin Hnd']; subst.
    destruct (eqb k0 k) eqn:E; simpl.
    + now constructor.
    + constructor; [|auto].
      intros Hin. apply (keys_set d k v k0) in Hin.
      destruct Hin as [->|Hin]; [|contradiction].
      now rewrite eqb_refl in E.
Qed.

Lemma get_in_keys d k v : PyDict.get d k = Some v -> In k (PyDict.keys d).
Proof.
  unfold PyDict.keys. induction d as [|[k0 v0] d IH]; simpl; [discriminate|].
  destruct (eqb k0 k) eqn:E; [apply eqb_eq in E; auto|auto].
Qed.

Lemma get_not_in_keys d k : ~ In k (PyDict.keys d) -> PyDict.get d k = None.
Proof.
  unfold PyDict.keys. induction d as [|[k0 v0] d IH]; simpl; trivial.
  intros Hn. destruct (eqb k0 k) eqn:E.
  - apply eqb_eq in E. tauto.
  - apply IH. tauto.
Qed.

End DictFacts.

(* ------------------------------------------------------------------ *)
(** ** Loops whose rounds return *)

Section ReturnsWith.
Context (P : log_record -> Prop).

Lemma returns_ret {A} (a : A) : returns_with P (ret a) a.
Proof. split; [reflexivity|constructor]. Qed.

Lemma returns_log lv e : P {| lvl := lv; ev := e |} -> returns_with P (log lv e) tt.
Proof. intros HP. split; [reflexivity|]. constructor; [exact HP|constructor]. Qed.

Lemma returns_bind {A B} (m : M A) (f : A -> M B) a b :
  returns_with P m a -> returns_with P (f a) b -> returns_with P (bind m f) b.
Proof.
  unfold returns_with, outcome, logs, bind.
  destruct m as [l [a'|e]]; simpl; intros [E Hl]; [|discriminate].
  injection E as ->. destruct (f a) as [l' r]; simpl. intros [-> Hl'].
  split; [reflexivity|]. apply Forall_app; auto.
Qed.

Lemma returns_try {A} (m : M A) handler a :
  returns_with P m a -> returns_with P (try_except m handler) a.
Proof.
  unfold returns_with, outcome, logs, try_except.
  destruct m as [l [a'|e]]; simpl; intros [E Hl]; [auto|discriminate].
Qed.

Lemma returns_lift {A} (a : A) : returns_with P (lift (Returned a)) a.
Proof. split; [reflexivity|constructor]. Qed.

(** A loop whose every round returns the value of a pure step returns the
    fold of the step. *)
Lemma returns_for_each {S X} (g : S -> X -> S) (body : S -> X -> M S) (xs : list X) :
  (forall s x, In x xs -> returns_with P (body s x) (g s x)) ->
  forall s, returns_with P (for_each xs body s) (fold_left g xs s).
Proof.
  induction xs as [|x xs IH]; intros Hb s; simpl.
  - apply returns_ret.
  - eapply returns_bind; [apply Hb; now left|].
    apply IH. intros; apply Hb; now right.
Qed.

End ReturnsWith.

Lemma outcome_bind {A B} (m : M A) (f : A -> M B) a :
  outcome m = Returned a -> outcome (bind m f) = outcome (f a).
Proof.
  destruct m as [l [a'|e]]; simpl; intros [= ->].
  unfold bind. destruct (f a); reflexivity.
Qed.

Lemma logs_bind {A B} (m : M A) (f : A -> M B) a :
  outcome m = Returned a -> logs (bind m f) = logs m ++ logs (f a).
Proof.
  destruct m as [l [a'|e]]; simpl; intros [= ->].
  unfold bind. destruct (f a); reflexivity.
Qed.

Lemma outcome_bind_raised {A B} (m : M A) (f : A -> M B) e :
  outcome m = Raised e -> outcome (bind m f) = Raised e.
Proof. destruct m as [l [a'|e']]; simpl; intros [= ->]. reflexivity. Qed.

(* ------------------------------------------------------------------ *)
(** ** Catalogs built by a loop of updates *)

Section CatalogFacts.
Context `{Eqb K} {V X : Type} (entry : X -> option (K * V)).

Lemma fold_entries_NoDup xs : forall d,
  NoDup (PyDict.keys d) ->
  NoDup (PyDict.keys (fold_left (apply_entry entry) xs d)).
Proof.
  induction xs as [|x xs IH]; intros d Hd; simpl; trivial.
  apply IH. unfold apply_entry. destruct (entry x) as [[k v]|]; trivial.
  now apply keys_set_NoDup.
Qed.

Lemma fold_entries_keys xs : forall d k,
  In k (PyDict.keys (fold_left (apply_entry entry) xs d)) <->
  In k (PyDict.keys d) \/ exists x v, In x xs /\ entry x = Some (k, v).
Proof.
  induction xs as [|x xs IH]; intros d k; simpl.
  - split; [auto|]. intros [Hk|[x [v [[] _]]]]. exact Hk.
  - rewrite IH. unfold apply_entry. split.
    + intros [Hk|[x' [v [Hx' E]]]].
      * destruct (entry x) as [[k0 v0]|] eqn:Ex; [|auto].
        apply keys_set in Hk. destruct Hk as [->|Hk]; [|auto].
        right. exists x, v0. auto.
      * right. exists x', v. auto.
    + intros [Hk|[x' [v [[<-|Hx'] E]]]].
      * left. destruct (entry x) as [[k0 v0]|]; trivial.
        apply keys_set. auto.
      * left. rewrite E. apply keys_set. auto.
      * right. exists x', v. auto.
Qed.

Lemma fold_entries_untouched xs : forall d k,
  (forall x v, In x xs -> entry x <> Some (k, v)) ->
  PyDict.get (fold_left (apply_entry entry) xs d) k = PyDict.get d k.
Proof.
  induction xs as [|x xs IH]; intros d k Hno; simpl; trivial.
  rewrite IH by (intros; apply Hno; now right).
  unfold apply_entry. destruct (entry x) as [[k0 v0]|] eqn:Ex; trivial.
  apply get_set_other. intros ->. apply (Hno x v0); [now left|exact Ex].
Qed.

Lemma fold_entries_get xs : forall d k v,
  PyDict.get (fold_left (apply_entry entry) xs d) k = Some v ->
  PyDict.get d k = Some v \/ exists x, In x xs /\ entry x = Some (k, v).
Proof.
  induction xs as [|x xs IH]; intros d k v Hget; simpl in Hget; [auto|].
  destruct (IH _ _ _ Hget) as [Hd|[x' [Hx' E]]]; [|right; exists x'; simpl; auto].
  unfold apply_entry in Hd. destruct (entry x) as [[k0 v0]|] eqn:Ex; [|auto].
  destruct (eqb_spec k0 k) as [->|Hne].
  - rewrite get_set_same in Hd. injection Hd as ->. right. exists x. simpl. auto.
  - rewrite get_set_other in Hd by exact Hne. auto.
Qed.

(** The last update of a key is the one the catalog keeps. *)
Lemma fold_entries_last pre x post d k v :
  entry x = Some (k, v) ->
  (forall x' v', In x' post -> entry x' <> Some (k, v')) ->
  PyDict.get (fold_left (apply_entry entry) (pre ++ x :: post) d) k = Some v.
Proof.
  intros Ex Hpost. rewrite fold_left_app. simpl.
  rewrite fold_entries_untouched by exact Hpost.
  unfold apply_entry at 1. rewrite Ex. apply get_set_same.
Qed.

End CatalogFacts.

(* ------------------------------------------------------------------ *)
(** ** The loaders *)

Section LoaderFacts.
Context (w : World) (args : Args).

Lemma load_allele_file_readable directory alleles f :
  readable f ->
  returns_with info (load_allele_file directory alleles f)
               (apply_entry (allele_entry directory) alleles f).
Proof.
  intros [records E].
  unfold load_allele_file, parse_fasta, apply_entry, allele_entry.
  rewrite E. rewrite bind_ret. apply returns_try.
  destruct records as [|first rest]; [apply returns_ret|].
  eapply returns_bind; [now apply returns_log | apply returns_ret].
Qed.

Lemma load_genome_file_readable directory genomes f :
  readable f ->
  returns_with info (load_genome_file directory genomes f)
               (apply_entry (genome_entry directory) genomes f).
Proof.
  intros [records E].
  unfold load_genome_file, parse_fasta, apply_entry, genome_entry.
  rewrite E. rewrite bind_ret. apply returns_try.
  destruct records as [|first rest]; [apply returns_ret|].
  eapply returns_bind; [now apply returns_log | apply returns_ret].
Qed.

(** With every sequence file readable, the allele loader returns the
    catalog its rounds build and logs at INFO level only. *)
Lemma load_alleles_readable l :
  dirs w (indirname args) = Entries l ->
  Forall readable (filter is_fasta_file l) ->
  returns_with info (_load_alleles w args)
    (fold_left (apply_entry (allele_entry (indirname args)))
               (filter is_fasta_file l) PyDict.empty).
Proof.
  intros Hd Hr. unfold _load_alleles, _get_fasta_files. rewrite Hd.
  eapply returns_bind; [now apply returns_log|].
  eapply returns_bind; [apply returns_try, returns_ret|].
  eapply returns_bind.
  - apply returns_for_each. intros s x Hx. apply load_allele_file_readable.
    rewrite Forall_forall in Hr. now apply Hr.
  - eapply returns_bind; [now apply returns_log | apply returns_ret].
Qed.

Lemma load_genomes_readable l :
  dirs w (genomedir args) = Entries l ->
  Forall readable (filter is_fasta_file l) ->
  returns_with info (_load_genomes w args)
    (fold_left (apply_entry (genome_entry (genomedir args)))
               (filter is_fasta_file l) PyDict.empty).
Proof.
  intros Hd Hr. unfold _load_genomes, _get_fasta_files. rewrite Hd.
  eapply returns_bind; [now apply returns_log|].
  eapply returns_bind; [apply returns_try, returns_ret|].
  eapply returns_bind.
  - apply returns_for_each. intros s x Hx. apply load_genome_file_readable.
    rewrite Forall_forall in Hr. now apply Hr.
  - eapply returns_bind; [now apply returns_log | apply returns_ret].
Qed.

End LoaderFacts.

Section LoaderTheorems.
Context (w : World) (args : Args).

(** C10.  With every locus file readable, the allele catalog holds no gene
    name twice; each of its keys is the first underscore-separated token of
    the first header of some file; and the entry under a gene name is that
    of the last-enumerated file yielding it, whatever came before: when two
    files yield the same gene name the later one replaces the earlier, and
    the loader logs at INFO level only, no warning and no error. *)
Theorem load_alleles_one_entry_per_gene l :
  dirs w (indirname args) = Entries l ->
  Forall readable (filter is_fasta_file l) ->
  exists alleles,
    outcome (_load_alleles w args) = Returned alleles /\
    NoDup (PyDict.keys alleles) /\
    (forall g, In g (PyDict.keys alleles) ->
       exists f first rest,
         In f (filter is_fasta_file l) /\
         entry_fasta f = Sequences (first :: rest) /\
         g = PyStr.first (PyStr.split "_" (seq_id first))) /\
    (forall pre f post g v,
       filter is_fasta_file l = pre ++ f :: post ->
       allele_entry (indirname args) f = Some (g, v) ->
       (forall f' v', In f' post -> allele_entry (indirname args) f' <> Some (g, v')) ->
       PyDict.get alleles g = Some v) /\
    Forall info (logs (_load_alleles w args)).
Proof.
  intros Hd Hr. destruct (load_alleles_readable w args Hd Hr) as [Ho Hl].
  eexists. split; [exact Ho|]. split; [|split; [|split]].
  - apply fold_entries_NoDup. constructor.
  - intros g Hg. apply fold_entries_keys in Hg.
    destruct Hg as [[]|[f [v [Hf E]]]].
    unfold allele_entry in E.
    destruct (entry_fasta f) as [|[|first rest]] eqn:Ef; try discriminate.
    injection E as <- _. exists f, first, rest. auto.
  - intros pre f post g v Hsplit E Hpost. rewrite Hsplit.
    now apply fold_entries_last.
  - exact Hl.
Qed.

(** C6, as the code has it.  With every genome file readable the genome
    loader returns: no identifier occurs twice in the catalog, and the
    path under an identifier is that of the last-enumerated file whose
    sanitized stem gives it.  Two files that give the same identifier do
    not make the load fail; the later path replaces the earlier, and
    nothing is logged above INFO level. *)
Theorem load_genomes_later_file_replaces l :
  dirs w (genomedir args) = Entries l ->
  Forall readable (filter is_fasta_file l) ->
  exists genomes,
    outcome (_load_genomes w args) = Returned genomes /\
    NoDup (PyDict.keys genomes) /\
    (forall pre f post i p,
       filter is_fasta_file l = pre ++ f :: post ->
       genome_entry (genomedir args) f = Some (i, p) ->
       (forall f' p', In f' post -> genome_entry (genomedir args) f' <> Some (i, p')) ->
       PyDict.get genomes i = Some p) /\
    Forall info (logs (_load_genomes w args)).
Proof.
  intros Hd Hr. destruct (load_genomes_readable w args Hd Hr) as [Ho Hl].
  eexists. split; [exact Ho|]. split; [|split].
  - apply fold_entries_NoDup. constructor.
  - intros pre f post i p Hsplit E Hpost. rewrite Hsplit.
    now apply fold_entries_last.
  - exact Hl.
Qed.

End LoaderTheorems.

(** Two locus files of the gene [arcC]: the later one is kept. *)
Lemma load_alleles_one_entry_per_gene_witness :
  Forall readable (filter is_fasta_file entries_same_gene) /\
  exists alleles,
    outcome (_load_alleles world_same_gene demo_args) = Returned alleles /\
    NoDup (PyDict.keys alleles) /\
    PyDict.get alleles "arcC" = Some ("alleles/arcC_extra.fas", 1%nat) /\
    Forall info (logs (_load_alleles world_same_gene demo_args)).
Proof.
  assert (Hr : Forall readable (filter is_fasta_file entries_same_gene)) by all_readable.
  split; [exact Hr|].
  destruct (@load_alleles_one_entry_per_gene world_same_gene demo_args
              entries_same_gene eq_refl Hr)
    as [alleles [Ho [Hnd [_ [Hlast Hl]]]]].
  exists alleles. repeat split; trivial.
  apply (Hlast [fasta_file "arcC.fasta" ["arcC_1"; "arcC_2"]]
               (fasta_file "arcC_extra.fas" ["arcC_7"]) []); [reflexivity|reflexivity|].
  intros f' v' [].
Defined.

(** Two genome files of the identifier [a_b]: the later one is kept. *)
Lemma load_genomes_later_file_replaces_witness :
  Forall readable (filter is_fasta_file entries_same_isolate) /\
  exists genomes,
    outcome (_load_genomes world_same_isolate demo_args) = Returned genomes /\
    NoDup (PyDict.keys genomes) /\
    PyDict.get genomes "a_b" = Some "genomes/a_b.fna" /\
    Forall info (logs (_load_genomes world_same_isolate demo_args)).
Proof.
  assert (Hr : Forall readable (filter is_fasta_file entries_same_isolate)) by all_readable.
  split; [exact Hr|].
  destruct (@load_genomes_later_file_replaces world_same_isolate demo_args
              entries_same_isolate eq_refl Hr)
    as [genomes [Ho [Hnd [Hlast Hl]]]].
  exists genomes. repeat split; trivial.
  apply (Hlast [fasta_file "a b.fasta" ["contig1"]]
               (fasta_file "a_b.fna" ["contig1"; "contig2"]) []); [reflexivity|reflexivity|].
  intros f' v' [].
Defined.

(** C6 as stated fails: the stems [a b] and [a_b] give the same identifier,
    both files are loaded, and the loader returns a catalog instead of
    failing. *)
Lemma load_genomes_collision_returns :
  isolate_id_of "a b.fasta" = isolate_id_of "a_b.fna" /\
  _load_genomes world_same_isolate demo_args
  = ([ {| lvl := INFO; ev := ProcessingGenomeDir "genomes" |};
       {| lvl := INFO; ev := LoadedGenome "a_b" "a b.fasta" |};
       {| lvl := INFO; ev := LoadedGenome "a_b" "a_b.fna" |};
       {| lvl := INFO; ev := FoundGenomes 1 |} ],
     Returned [("a_b", "genomes/a_b.fna")]).
Proof. split; vm_compute; reflexivity. Qed.

(* ------------------------------------------------------------------ *)
(** ** Sorting the locus names *)

Lemma in_insert_str s x l : In x (insert_str s l) <-> x = s \/ In x l.
Proof.
  induction l as [|y l IH]; simpl.
  - intuition congruence.
  - destruct (String.leb s y); simpl; [intuition congruence|].
    rewrite IH. intuition congruence.
Qed.

Lemma in_sort_strings x l : In x (sort_strings l) <-> In x l.
Proof.
  induction l as [|y l IH]; simpl; [tauto|].
  rewrite in_insert_str, IH. intuition congruence.
Qed.

Lemma in_strings_of s l : In s (strings_of l) <-> In (Some s) l.
Proof.
  unfold strings_of. rewrite in_flat_map. split.
  - intros [[k|] [Hk Hs]]; simpl in Hs; [|contradiction].
    destruct Hs as [->|[]]. exact Hk.
  - intros Hs. exists (Some s). simpl. auto.
Qed.

Lemma sorted_keys_strings l :
  (forall k, In k l -> k <> None) ->
  sorted_keys l = Returned (map Some (sort_strings (strings_of l))).
Proof.
  intros Hl. unfold sorted_keys.
  assert (E : filter is_None l = []).
  { induction l as [|[s|] l IH]; simpl; trivial.
    - apply IH. intros; apply Hl; now right.
    - exfalso. apply (Hl None); [now left|reflexivity]. }
  now rewrite E.
Qed.

Lemma genes_of_in_keys row g : In g (genes_of row) -> In g (PyDict.keys row).
Proof.
  unfold genes_of. rewrite in_map_iff. intros [s [<- Hs]].
  apply in_sort_strings, in_strings_of, filter_In in Hs. tauto.
Qed.

(* ------------------------------------------------------------------ *)
(** ** List comprehensions *)

Lemma for_list_pure {X Y} (f : X -> M Y) (g : X -> Y) xs :
  (forall x, In x xs -> f x = ret (g x)) -> for_list f xs = ret (map g xs).
Proof.
  induction xs as [|x xs IH]; intros Hf; simpl; trivial.
  rewrite Hf by (now left). rewrite bind_ret.
  rewrite IH by (intros; apply Hf; now right). now rewrite bind_ret.
Qed.

Lemma in_keys_getitem `{Eqb K} {V} (d : PyDict.t K V) k :
  In k (PyDict.keys d) -> exists v, PyDict.get d k = Some v.
Proof.
  unfold PyDict.keys. induction d as [|[k0 v0] d IH]; simpl; [intros []|].
  destruct (eqb_spec k0 k) as [->|Hne]; [eauto|].
  intros [E|Hin]; [contradiction|auto].
Qed.

(* ------------------------------------------------------------------ *)
(** ** Loading the profile table *)

Section ProfileFacts.
Context `{Builtins} (w : World) (args : Args).

Lemma getitem_row_value (row : csv_row) k :
  In k (PyDict.keys row) -> PyDict.getitem row k = Returned (row_value row k).
Proof.
  intros Hk. destruct (in_keys_getitem row k Hk) as [v E].
  unfold PyDict.getitem, row_value. now rewrite E.
Qed.

Lemma profile_key_row_key genes row :
  (forall g, In g genes -> In g (PyDict.keys row)) ->
  profile_key genes row = ret (row_key genes row).
Proof.
  intros Hg. unfold profile_key, row_key.
  rewrite (for_list_pure _ (fun g => str_ (row_value row g))).
  - now rewrite bind_ret.
  - intros g Hin. rewrite (getitem_row_value _ _ (Hg g Hin)).
    now rewrite bind_lift_returned.
Qed.

Lemma profile_step_returns genes profiles row :
  (genes = None -> forall k, In k (PyDict.keys row) -> k <> None) ->
  In (Some "ST") (PyDict.keys row) ->
  (forall g, In g (genes_after genes row) -> In g (PyDict.keys row)) ->
  returns_with info (profile_step (genes, profiles) row)
    (Some (genes_after genes row),
     apply_entry (profile_entry (genes_after genes row)) profiles row).
Proof.
  intros Hstr HST Hg. unfold profile_step.
  eapply returns_bind with (a := genes_after genes row).
  - destruct genes as [g|]; simpl; [apply returns_ret|].
    rewrite sorted_keys_strings.
    + fold (genes_of row). split; [reflexivity|]. now repeat constructor.
    + intros k Hk. apply filter_In in Hk. apply Hstr; tauto.
  - rewrite (profile_key_row_key _ _ Hg), bind_ret.
    rewrite (getitem_row_value _ _ HST), bind_lift_returned.
    apply returns_ret.
Qed.

Lemma profile_loop_rest genes rows :
  (forall r, In r rows ->
     In (Some "ST") (PyDict.keys r) /\
     forall g, In g genes -> In g (PyDict.keys r)) ->
  forall profiles,
    returns_with info (for_each rows profile_step (Some genes, profiles))
      (Some genes, fold_left (apply_entry (profile_entry genes)) rows profiles).
Proof.
  induction rows as [|r rows IH]; intros Hr profiles.
  - apply returns_ret.
  - destruct (Hr r (or_introl eq_refl)) as [HST Hg].
    rewrite for_each_cons. eapply returns_bind.
    + apply profile_step_returns with (genes := Some genes);
        [discriminate|exact HST|exact Hg].
    + apply IH. intros; apply Hr; now right.
Qed.

(** On a profile table the loop returns the sorted locus names of the
    first row and the dictionary its rows build, one update per row. *)
Lemma profile_loop r1 rest :
  profile_table (r1 :: rest) ->
  returns_with info (for_each (r1 :: rest) profile_step (None, PyDict.empty))
    (Some (genes_of r1),
     fold_left (apply_entry (profile_entry (genes_of r1))) (r1 :: rest) PyDict.empty).
Proof.
  intros [Hstr [HST Hkeys]]. rewrite for_each_cons. eapply returns_bind.
  - apply profile_step_returns with (genes := @None (list (option string)));
      [intros _; exact Hstr | exact HST | apply genes_of_in_keys].
  - cbn [fold_left genes_after]. apply profile_loop_rest. intros r Hr. split.
    + apply Hkeys; [now right|exact HST].
    + intros g Hg. apply Hkeys; [now right|]. now apply genes_of_in_keys.
Qed.

Lemma load_mlst_profiles_table lines r1 rest :
  files w (profile args) = Lines lines None ->
  DictReader lines = r1 :: rest ->
  profile_table (r1 :: rest) ->
  returns_with info (_load_mlst_profiles w args)
    (Some (genes_of r1),
     fold_left (apply_entry (profile_entry (genes_of r1))) (r1 :: rest) PyDict.empty).
Proof.
  intros Hf Hrows Htable. unfold _load_mlst_profiles, open_csv. rewrite Hf.
  eapply returns_bind; [now apply returns_log|].
  apply returns_try. rewrite bind_ret, Hrows.
  eapply returns_bind; [now apply profile_loop|].
  simpl reader_end. rewrite bind_ret.
  eapply returns_bind; [now apply returns_log | apply returns_ret].
Qed.

End ProfileFacts.

(* ------------------------------------------------------------------ *)
(** ** The frame *)

Lemma at_loc_set_same df r c v : Pandas.at_ (Pandas.loc_set df r c v) r c = v.
Proof. unfold Pandas.at_, Pandas.loc_set; simpl. now rewrite get_set_same. Qed.

Lemma at_loc_set_other df r c v r' c' :
  (r, c) <> (r', c') ->
  Pandas.at_ (Pandas.loc_set df r c v) r' c' = Pandas.at_ df r' c'.
Proof.
  intros Hne. unfold Pandas.at_, Pandas.loc_set; simpl.
  now rewrite get_set_other.
Qed.

Lemma has_app labels extra l :
  Pandas.has labels l = true -> Pandas.has (labels ++ extra) l = true.
Proof. unfold Pandas.has. rewrite existsb_app. now intros ->. Qed.

Lemma has_loc_set df r c v c' :
  Pandas.has (columns df) c' = true ->
  Pandas.has (columns (Pandas.loc_set df r c v)) c' = true.
Proof.
  intros Hc. unfold Pandas.loc_set; simpl.
  destruct (Pandas.has (columns df) c); [exact Hc|now apply has_app].
Qed.

Section ColumnWrites.
Context (col : string) (value : string -> cell).

Lemma write_column_other rows : forall df r c,
  c <> col ->
  Pandas.at_ (fold_left (write_column col value) rows df) r c = Pandas.at_ df r c.
Proof.
  induction rows as [|r0 rows IH]; intros df r c Hc; simpl; trivial.
  rewrite IH by exact Hc. apply at_loc_set_other. congruence.
Qed.

Lemma write_column_written rows : forall df r,
  In r rows \/ Pandas.at_ df r col = value r ->
  Pandas.at_ (fold_left (write_column col value) rows df) r col = value r.
Proof.
  induction rows as [|r0 rows IH]; intros df r Hr; simpl.
  - destruct Hr as [[]|Hr]; exact Hr.
  - apply IH. destruct Hr as [[->|Hr]|Hr]; auto.
    + right. apply at_loc_set_same.
    + right. unfold write_column.
      destruct (String.eqb_spec r0 r) as [->|Hne]; [apply at_loc_set_same|].
      rewrite at_loc_set_other by congruence. exact Hr.
Qed.

Lemma write_column_has rows : forall df c,
  Pandas.has (columns df) c = true ->
  Pandas.has (columns (fold_left (write_column col value) rows df)) c = true.
Proof.
  induction rows as [|r0 rows IH]; intros df c Hc; simpl; trivial.
  apply IH. now apply has_loc_set.
Qed.

End ColumnWrites.

(** Sorting by columns the frame has reorders the rows and leaves every
    cell as it is. *)
Lemma sort_values_cells by_ df :
  (forall g, In g by_ -> is_column df g) ->
  exists df', Pandas.sort_values by_ df = Returned df' /\
              forall r c, Pandas.at_ df' r c = Pandas.at_ df r c.
Proof.
  intros Hby. unfold Pandas.sort_values.
  destruct by_ as [|g by_]; [now exists df|].
  assert (E : forallb (fun c => match c with
                                | Some c => Pandas.has (columns df) c
                                | None => false
                                end) (g :: by_) = true).
  { apply forallb_forall. intros x Hx. destruct (Hby x Hx) as [c [-> Hc]]. exact Hc. }
  rewrite E. eexists. split; [reflexivity|]. reflexivity.
Qed.

(* ------------------------------------------------------------------ *)
(** ** Assigning sequence types *)

Section AssignFacts.
Context `{Builtins} (w : World) (args : Args).

Lemma isolate_key_genome_key df genes isolate_id :
  (forall g, In g genes -> is_column df g) ->
  isolate_key df (Some genes) isolate_id = ret (genome_key df genes isolate_id).
Proof.
  intros Hc. unfold isolate_key, genome_key, genome_parts. simpl iter_.
  rewrite bind_lift_returned.
  rewrite (for_list_pure _ (fun g => cell_text (gene_cell df isolate_id g))).
  - now rewrite bind_ret.
  - intros g Hg. destruct (Hc g Hg) as [c [-> Hcol]].
    unfold Pandas.row_get. rewrite Hcol. now rewrite bind_lift_returned.
Qed.

Lemma assign_step_returns df0 genes profiles df isolate_id :
  (forall g, In g genes -> is_column df0 g) ->
  (forall key st, PyDict.get profiles key = Some st ->
                  exists n, int_ st = Returned n) ->
  returns_with anything (assign_step df0 (Some genes) profiles df isolate_id)
    (write_column "ST" (fun i => sequence_type profiles (genome_key df0 genes i))
                  df isolate_id).
Proof.
  intros Hc Hint. unfold assign_step, write_column, sequence_type.
  rewrite (isolate_key_genome_key _ _ Hc), bind_ret.
  eapply returns_bind; [now apply returns_log|].
  destruct (PyDict.get profiles (genome_key df0 genes isolate_id)) as [st|] eqn:E.
  - destruct (Hint _ _ E) as [n ->]. rewrite bind_lift_returned.
    eapply returns_bind; [now apply returns_log | apply returns_ret].
  - eapply returns_bind; [now apply returns_log | apply returns_ret].
Qed.

(** On a profile table whose ST fields are integers and whose loci are
    columns of the frame, the resolver returns; the ST cell of every
    genome is the value looked up under its key, and no other column
    changes. *)
Lemma assign_sequence_types_returns df lines rows :
  files w (profile args) = Lines lines None ->
  DictReader lines = rows ->
  profile_table rows ->
  (forall g, In g (table_genes rows) -> is_column df g) ->
  (forall r, In r rows -> exists n, int_ (row_ST r) = Returned n) ->
  exists df',
    outcome (_assign_sequence_types w args df) = Returned df' /\
    (forall i, In i (index df) ->
       Pandas.at_ df' i "ST"
       = sequence_type (profiles_of rows) (genome_key df (table_genes rows) i)) /\
    (forall i c, c <> "ST" -> Pandas.at_ df' i c = Pandas.at_ df i c).
Proof.
  intros Hf Hrows Htable Hcols Hint.
  destruct rows as [|r1 rest]; [destruct Htable|].
  simpl table_genes in *. simpl profiles_of.
  set (genes := genes_of r1) in *.
  set (profiles := fold_left (apply_entry (profile_entry genes)) (r1 :: rest) PyDict.empty).
  set (value := fun i => sequence_type profiles (genome_key df genes i)).
  assert (Hloop : returns_with anything
                    (for_each (index df) (assign_step df (Some genes) profiles) df)
                    (fold_left (write_column "ST" value) (index df) df)).
  { apply returns_for_each. intros s x _. apply assign_step_returns; [exact Hcols|].
    intros key st Hget. apply fold_entries_get in Hget.
    destruct Hget as [Hget|[r [Hr E]]]; [discriminate|].
    injection E as _ <-. now apply Hint. }
  destruct (@sort_values_cells genes
              (fold_left (write_column "ST" value) (index df) df))
    as [df' [Hsort Hcells]].
  { intros g Hg. destruct (Hcols g Hg) as [c [-> Hc]]. exists c. split; trivial.
    now apply write_column_has. }
  exists df'. split; [|split].
  - unfold _assign_sequence_types.
    rewrite (outcome_bind _ _ (a := tt)) by reflexivity.
    destruct (load_mlst_profiles_table w args Hf Hrows Htable) as [Hload _].
    rewrite (outcome_bind _ _ Hload). fold genes. fold profiles.
    destruct Hloop as [Hloop _]. rewrite (outcome_bind _ _ Hloop).
    simpl iter_. rewrite bind_lift_returned. exact Hsort.
  - intros i Hi. rewrite Hcells.
    change (sequence_type profiles (genome_key df genes i)) with (value i).
    apply (@write_column_written "ST" value). now left.
  - intros i c Hc. rewrite Hcells. now apply write_column_other.
Qed.

End AssignFacts.

(* ------------------------------------------------------------------ *)
(** ** Keys joined with commas *)

Section JoinFacts.
Variable c : ascii.

Lemma count_append a b :
  PyStr.count c (a ++ b)%string = (PyStr.count c a + PyStr.count c b)%nat.
Proof. induction a as [|x a IH]; simpl; [reflexivity|]. rewrite IH. lia. Qed.

Lemma split_free s : free_of c s -> PyStr.split c s = [s].
Proof.
  unfold free_of. induction s as [|x s IH]; simpl; [reflexivity|].
  destruct (Ascii.eqb x c); [discriminate|]. simpl. intros E. now rewrite IH.
Qed.

Lemma split_app_sep a b :
  free_of c a -> PyStr.split c (a ++ String c b)%string = a :: PyStr.split c b.
Proof.
  unfold free_of. induction a as [|x a IH]; simpl.
  - now rewrite Ascii.eqb_refl.
  - destruct (Ascii.eqb x c); [discriminate|]. simpl. intros E. now rewrite IH.
Qed.

Lemma join_cons sep s s' l :
  PyStr.join sep (s :: s' :: l) = (s ++ sep ++ PyStr.join sep (s' :: l))%string.
Proof. reflexivity. Qed.

Lemma split_join l :
  l <> [] -> Forall (free_of c) l ->
  PyStr.split c (PyStr.join (String c EmptyString) l) = l.
Proof.
  intros Hne Hl. induction Hl as [|s l Hs Hl IH]; [congruence|].
  destruct l as [|s' l].
  - now apply split_free.
  - rewrite join_cons. change (String c "" ++ ?t)%string with (String c t).
    rewrite split_app_sep by exact Hs. f_equal. apply IH. discriminate.
Qed.

Lemma count_join l :
  PyStr.count c (PyStr.join (String c EmptyString) l)
  = (pred (List.length l) + list_sum (map (PyStr.count c) l))%nat.
Proof.
  induction l as [|s l IH]; [reflexivity|].
  destruct l as [|s' l].
  - simpl. lia.
  - rewrite join_cons, !count_append, IH.
    simpl. rewrite Ascii.eqb_refl. lia.
Qed.

Lemma list_sum_zero (f : string -> nat) l :
  list_sum (map f l) = 0%nat -> Forall (fun s => f s = 0%nat) l.
Proof.
  induction l as [|s l IH]; simpl; intros E; constructor.
  - lia.
  - apply IH. lia.
Qed.

(** Two lists of equal length with the same join, one of them free of the
    separator, are the same list. *)
Lemma join_inj xs ys :
  List.length xs = List.length ys ->
  Forall (free_of c) ys ->
  PyStr.join (String c EmptyString) xs = PyStr.join (String c EmptyString) ys ->
  xs = ys.
Proof.
  intros Hlen Hys E.
  destruct ys as [|y ys]; [destruct xs; [reflexivity|discriminate]|].
  assert (Hxs : Forall (free_of c) xs).
  { apply list_sum_zero. pose proof (f_equal (PyStr.count c) E) as Hc.
    rewrite !count_join, Hlen in Hc.
    assert (list_sum (map (PyStr.count c) (y :: ys)) = 0%nat).
    { clear -Hys. induction Hys as [|s l Hs _ IH]; simpl; [reflexivity|].
      unfold free_of in Hs. lia. }
    lia. }
  rewrite <- (split_join (l := xs)), <- (split_join (l := y :: ys)); trivial.
  - now rewrite E.
  - discriminate.
  - destruct xs; [discriminate|discriminate].
Qed.

End JoinFacts.

Lemma uint_no_comma d : PyStr.count "," (NilEmpty.string_of_uint d) = 0%nat.
Proof. induction d; simpl; trivial. Qed.

Lemma of_Z_no_comma z : PyStr.count "," (PyStr.of_Z z) = 0%nat.
Proof.
  unfold PyStr.of_Z, NilZero.string_of_int, NilZero.string_of_uint.
  destruct (Z.to_int z) as [d|d]; destruct d; simpl; trivial; apply uint_no_comma.
Qed.

(* ------------------------------------------------------------------ *)
(** ** Deciding the conditions *)

Lemma mem_in_keys `{Eqb K} {V} (d : PyDict.t K V) k :
  PyDict.mem d k = true <-> In k (PyDict.keys d).
Proof.
  unfold PyDict.mem. split.
  - destruct (PyDict.get d k) eqn:E; [intros _; eapply get_in_keys; eauto|discriminate].
  - intros Hk. destruct (in_keys_getitem d k Hk) as [v ->]. reflexivity.
Qed.

Lemma profile_tableb_sound rows : profile_tableb rows = true -> profile_table rows.
Proof.
  destruct rows as [|r1 rest]; [discriminate|]. unfold profile_tableb, profile_table.
  rewrite !andb_true_iff, !forallb_forall. intros [[Hstr HST] Hkeys].
  split; [|split].
  - intros k Hk ->. specialize (Hstr None Hk). discriminate.
  - now apply mem_in_keys.
  - intros r k Hr Hk. specialize (Hkeys r Hr). rewrite forallb_forall in Hkeys.
    now apply mem_in_keys, Hkeys.
Qed.

Lemma is_columnb_sound df genes :
  forallb (is_columnb df) genes = true -> forall g, In g genes -> is_column df g.
Proof.
  rewrite forallb_forall. intros Hall g Hg. specialize (Hall g Hg).
  destruct g as [c|]; [|discriminate]. now exists c.
Qed.

Lemma integer_STb_sound `{Builtins} rows :
  forallb integer_STb rows = true ->
  forall r, In r rows -> exists n, int_ (row_ST r) = Returned n.
Proof.
  rewrite forallb_forall. intros Hall r Hr. specialize (Hall r Hr).
  unfold integer_STb in Hall. destruct (int_ (row_ST r)) as [n|]; [eauto|discriminate].
Qed.

Section ProfilesOf.
Context `{Builtins}.

(** The dictionary of a table maps a key to the ST field of the last row
    that has it, and holds no other key. *)
Lemma profiles_of_last rows pre r post :
  rows = pre ++ r :: post ->
  (forall r', In r' post -> row_key (table_genes rows) r' <> row_key (table_genes rows) r) ->
  PyDict.get (profiles_of rows) (row_key (table_genes rows) r) = Some (row_ST r).
Proof.
  intros Hsplit Hpost. destruct rows as [|r1 rest]; [now destruct pre|].
  simpl table_genes in *.
  change (profiles_of (r1 :: rest))
    with (fold_left (apply_entry (profile_entry (genes_of r1))) (r1 :: rest)
                    PyDict.empty).
  rewrite Hsplit. apply fold_entries_last; [reflexivity|].
  intros r' st' Hr' E. injection E as E _. exact (Hpost r' Hr' E).
Qed.

Lemma profiles_of_miss rows key :
  (forall r, In r rows -> row_key (table_genes rows) r <> key) ->
  PyDict.get (profiles_of rows) key = None.
Proof.
  intros Hno. destruct rows as [|r1 rest]; [reflexivity|].
  simpl table_genes in *.
  change (profiles_of (r1 :: rest))
    with (fold_left (apply_entry (profile_entry (genes_of r1))) (r1 :: rest)
                    PyDict.empty).
  apply get_not_in_keys. rewrite fold_entries_keys.
  intros [[]|[r [st [Hr E]]]]. injection E as E _. exact (Hno r Hr E).
Qed.

End ProfilesOf.

Section ResolverTheorems.
Context `{Builtins} (w : World) (args : Args).

(** C2, as the code has it.  Take a profile table (rows sharing the column
    names of the first, ST among them) whose loci are columns of the frame
    and whose ST fields read as integers.  The resolver returns, and for
    every genome: when rows of the table have the genome's key, the ST
    cell is the integer of the last such row, later rows having replaced
    earlier ones in the dictionary; when no row has it, the ST cell is the
    string NEW. *)
Theorem assign_sequence_types_last_row df lines rows :
  files w (profile args) = Lines lines None ->
  DictReader lines = rows ->
  profile_table rows ->
  (forall g, In g (table_genes rows) -> is_column df g) ->
  (forall r, In r rows -> exists n, int_ (row_ST r) = Returned n) ->
  exists df',
    outcome (_assign_sequence_types w args df) = Returned df' /\
    forall i, In i (index df) ->
      (forall pre r post n,
         rows = pre ++ r :: post ->
         row_key (table_genes rows) r = genome_key df (table_genes rows) i ->
         (forall r', In r' post ->
            row_key (table_genes rows) r' <> genome_key df (table_genes rows) i) ->
         int_ (row_ST r) = Returned n ->
         Pandas.at_ df' i "ST" = CInt n) /\
      ((forall r, In r rows ->
          row_key (table_genes rows) r <> genome_key df (table_genes rows) i) ->
       Pandas.at_ df' i "ST" = CStr "NEW").
Proof.
  intros Hf Hrows Htable Hcols Hint.
  destruct (assign_sequence_types_returns w args Hf Hrows Htable Hcols Hint)
    as [df' [Ho [HST _]]].
  exists df'. split; [exact Ho|]. intros i Hi. rewrite (HST i Hi).
  unfold sequence_type. split.
  - intros pre r post n Hsplit Hkey Hpost Hn. rewrite <- Hkey.
    rewrite (@profiles_of_last _ rows pre r post Hsplit); [now rewrite Hn|].
    intros r' Hr'. rewrite Hkey. now apply Hpost.
  - intros Hno. now rewrite profiles_of_miss.
Qed.

End ResolverTheorems.

(** The world of two loci and two genomes: [G1] matches the row of ST 10,
    [G2] matches no row. *)
Lemma assign_sequence_types_last_row_witness :
  profile_tableb (DictReader lines_abc_xyz) = true /\
  exists df',
    outcome (_assign_sequence_types world_two_by_two demo_args frame_two_by_two)
    = Returned df' /\
    Pandas.at_ df' "G1" "ST" = CInt 10 /\
    Pandas.at_ df' "G2" "ST" = CStr "NEW".
Proof.
  split; [reflexivity|].
  destruct (@assign_sequence_types_last_row decimal_builtins world_two_by_two
              demo_args frame_two_by_two lines_abc_xyz (DictReader lines_abc_xyz)
              eq_refl eq_refl
              (@profile_tableb_sound (DictReader lines_abc_xyz) eq_refl)
              (@is_columnb_sound frame_two_by_two
                 (table_genes (DictReader lines_abc_xyz)) eq_refl)
              (@integer_STb_sound decimal_builtins (DictReader lines_abc_xyz) eq_refl))
    as [df' [Ho Hall]].
  exists df'. split; [exact Ho|]. split.
  - destruct (Hall "G1" (or_introl eq_refl)) as [Hlast _].
    apply (Hlast [] (dict_of_line ["ST"; "abc"; "xyz"; "clonal_complex"]
                                  ["10"; "2"; "7"; "CC1"])
                 [dict_of_line ["ST"; "abc"; "xyz"; "clonal_complex"]
                               ["11"; "1"; "7"; "CC1"]] 10);
      [reflexivity | reflexivity | | reflexivity].
    intros r' [<-|[]] E. vm_compute in E. discriminate.
  - destruct (Hall "G2" (or_intror (or_introl eq_refl))) as [_ Hnew].
    apply Hnew. intros r [<-|[<-|[]]] E; vm_compute in E; discriminate.
Defined.

(** C2 as stated fails.  With two rows of the same allele combination the
    genome whose key equals that of the first row (ST 10) is given the ST
    of the second (11).  With a header and no row the resolver raises
    instead of assigning NEW; it raises as well on an ST field that is no
    integer and on a locus the frame has no column for, and exits on a
    row longer than the header. *)
Lemma assign_sequence_types_not_that_row :
  (row_key (table_genes (DictReader lines_duplicate))
           (dict_of_line ["ST"; "abc"; "xyz"] ["10"; "2"; "7"])
   = genome_key frame_two_by_two (table_genes (DictReader lines_duplicate)) "G1" /\
   row_ST (dict_of_line ["ST"; "abc"; "xyz"] ["10"; "2"; "7"]) = VStr "10" /\
   exists df',
     outcome (_assign_sequence_types (profile_world (Lines lines_duplicate None))
                                     demo_args frame_two_by_two)
     = Returned df' /\
     Pandas.at_ df' "G1" "ST" = CInt 11) /\
  outcome (_assign_sequence_types (profile_world (Lines lines_header_only None))
                                  demo_args frame_two_by_two)
  = Raised TypeError /\
  outcome (_assign_sequence_types (profile_world (Lines lines_bad_ST None))
                                  demo_args frame_two_by_two)
  = Raised ValueError /\
  outcome (_assign_sequence_types (profile_world (Lines lines_other_locus None))
                                  demo_args frame_two_by_two)
  = Raised KeyError /\
  outcome (_assign_sequence_types (profile_world (Lines lines_long_row None))
                                  demo_args frame_two_by_two)
  = Raised (SystemExit 1).
Proof.
  split; [split; [reflexivity|split; [reflexivity|]]|repeat split].
  eexists. split; [vm_compute; reflexivity|reflexivity].
Qed.

Section MissingLocus.
Context `{Builtins} (w : World) (args : Args).

Lemma cell_text_no_comma x :
  integer_or_none x -> PyStr.count "," (cell_text x) = 0%nat.
Proof.
  destruct x as [| |z|s]; simpl; trivial; [|intros []].
  intros _. apply of_Z_no_comma.
Qed.

(** C5, as the code has it.  Take a profile table as in C2 and a genome
    whose cells in the locus columns are allele numbers or none.  When
    the best match of a locus of the table is none, the genome's key
    holds NA at the position of that locus; and when no row of the table
    holds the text NA in the column of that locus, the resolver returns
    and the genome's ST cell is the string NEW. *)
Theorem assign_sequence_types_missing_locus df lines rows i k g :
  files w (profile args) = Lines lines None ->
  DictReader lines = rows ->
  profile_table rows ->
  (forall g', In g' (table_genes rows) -> is_column df g') ->
  (forall r, In r rows -> exists n, int_ (row_ST r) = Returned n) ->
  In i (index df) ->
  (forall g', In g' (table_genes rows) -> integer_or_none (gene_cell df i g')) ->
  nth_error (table_genes rows) k = Some g ->
  Pandas.notna (gene_cell df i g) = false ->
  nth_error (genome_parts df (table_genes rows) i) k = Some "NA" /\
  ((forall r, In r rows -> str_ (row_value r g) <> "NA") ->
   exists df',
     outcome (_assign_sequence_types w args df) = Returned df' /\
     Pandas.at_ df' i "ST" = CStr "NEW").
Proof.
  intros Hf Hrows Htable Hcols Hint Hi Hcells Hk Hna.
  assert (Hpart : nth_error (genome_parts df (table_genes rows) i) k = Some "NA").
  { unfold genome_parts. rewrite nth_error_map, Hk. simpl.
    unfold cell_text. now rewrite Hna. }
  split; [exact Hpart|]. intros HnoNA.
  destruct (assign_sequence_types_returns w args Hf Hrows Htable Hcols Hint)
    as [df' [Ho [HST _]]].
  exists df'. split; [exact Ho|].
  rewrite (HST i Hi). unfold sequence_type.
  rewrite profiles_of_miss; [reflexivity|]. intros r Hr E.
  unfold row_key, genome_key in E. apply join_inj in E.
  - pose proof (f_equal (fun l => nth_error l k) E) as Ek. simpl in Ek.
    rewrite Hpart, nth_error_map, Hk in Ek. simpl in Ek.
    injection Ek as Ek. exact (HnoNA r Hr Ek).
  - unfold genome_parts. now rewrite !length_map.
  - unfold genome_parts. apply Forall_forall. intros s Hs.
    apply in_map_iff in Hs. destruct Hs as [g' [<- Hg']].
    apply cell_text_no_comma. now apply Hcells.
Qed.

End MissingLocus.

(** The same world: the best match of [G2] for [xyz] is none. *)
Lemma assign_sequence_types_missing_locus_witness :
  Pandas.notna (Pandas.at_ frame_two_by_two "G2" "xyz") = false /\
  nth_error (genome_parts frame_two_by_two
               (table_genes (DictReader lines_abc_xyz)) "G2") 1
  = Some "NA" /\
  exists df',
    outcome (_assign_sequence_types world_two_by_two demo_args frame_two_by_two)
    = Returned df' /\
    Pandas.at_ df' "G2" "ST" = CStr "NEW".
Proof.
  split; [reflexivity|].
  destruct (@assign_sequence_types_missing_locus decimal_builtins world_two_by_two
              demo_args frame_two_by_two lines_abc_xyz (DictReader lines_abc_xyz)
              "G2" 1%nat (Some "xyz")
              eq_refl eq_refl
              (@profile_tableb_sound (DictReader lines_abc_xyz) eq_refl)
              (@is_columnb_sound frame_two_by_two
                 (table_genes (DictReader lines_abc_xyz)) eq_refl)
              (@integer_STb_sound decimal_builtins (DictReader lines_abc_xyz) eq_refl)
              (or_intror (or_introl eq_refl)))
    as [Hpart Hnew].
  - intros g' [<-|[<-|[]]]; exact I.
  - reflexivity.
  - reflexivity.
  - split; [exact Hpart|]. apply Hnew.
    intros r [<-|[<-|[]]] E; vm_compute in E; discriminate.
Defined.

(** C5 as stated fails on a genome whose best match for [xyz] is none.
    When a row of the table holds the text NA in column [xyz], the key
    [2,NA] is found and the genome is given that row's ST.  When the
    table has no column [xyz], the key is [2], without NA, and is found
    as well.  When the table has a header and no row, the resolver
    raises. *)
Lemma assign_sequence_types_missing_locus_found :
  Pandas.at_ frame_two_by_two "G2" "xyz" = CNone /\
  (genome_key frame_two_by_two (table_genes (DictReader lines_NA_literal)) "G2"
   = "2,NA" /\
   exists df',
     outcome (_assign_sequence_types (profile_world (Lines lines_NA_literal None))
                                     demo_args frame_two_by_two)
     = Returned df' /\
     Pandas.at_ df' "G2" "ST" = CInt 10) /\
  (genome_key frame_two_by_two (table_genes (DictReader lines_abc_only)) "G2"
   = "2" /\
   exists df',
     outcome (_assign_sequence_types (profile_world (Lines lines_abc_only None))
                                     demo_args frame_two_by_two)
     = Returned df' /\
     Pandas.at_ df' "G2" "ST" = CInt 10) /\
  outcome (_assign_sequence_types (profile_world (Lines lines_header_only None))
                                  demo_args frame_two_by_two)
  = Raised TypeError.
Proof.
  split; [reflexivity|]. split; [|split]; [| |reflexivity];
    (split; [reflexivity|]);
    (eexists; split; [vm_compute; reflexivity|reflexivity]).
Qed.

(* ------------------------------------------------------------------ *)
(** ** The driver *)

Lemma in_logs_bind_l {A B} (m : M A) (f : A -> M B) r :
  In r (logs m) -> In r (logs (bind m f)).
Proof.
  unfold logs, bind. destruct m as [l [a|e]]; simpl; trivial.
  destruct (f a) as [l' x]; simpl. intros Hr. apply in_or_app. now left.
Qed.

Lemma in_logs_bind_r {A B} (m : M A) (f : A -> M B) a r :
  outcome m = Returned a -> In r (logs (f a)) -> In r (logs (bind m f)).
Proof.
  intros Ho Hr. rewrite (logs_bind _ _ Ho). apply in_or_app. now right.
Qed.

Lemma validate_arguments_given args :
  args_given args -> returns_with info (_validate_arguments args) tt.
Proof.
  intros [Hi [Ho [Hp Hg]]]. unfold _validate_arguments.
  apply String.eqb_neq in Hi, Ho, Hp, Hg.
  cbn [for_each]. rewrite Hi, Ho, Hp, Hg.
  split; [reflexivity|]. repeat constructor.
Qed.

Section DriverTheorems.
Context `{Builtins} (w : World) (args : Args).

(** C7, as the code has it.  With every locus file readable the allele
    loader returns, never aborting: the catalog holds exactly the gene
    names of the files that have a sequence, a file without sequences is
    skipped whether or not another locus loads, and when no file has a
    sequence the catalog returned is empty.  No check on the number of
    loci follows the load: with the required arguments given, the run
    goes on to the genome directory. *)
Theorem load_alleles_skips_empty_files l :
  dirs w (indirname args) = Entries l ->
  Forall readable (filter is_fasta_file l) ->
  args_given args ->
  exists alleles,
    outcome (_load_alleles w args) = Returned alleles /\
    (forall g, In g (PyDict.keys alleles) <->
       exists f first rest,
         In f (filter is_fasta_file l) /\
         entry_fasta f = Sequences (first :: rest) /\
         g = gene_name_of first) /\
    (Forall (fun f => entry_fasta f = Sequences []) (filter is_fasta_file l) ->
     alleles = PyDict.empty) /\
    In {| lvl := INFO; ev := ProcessingGenomeDir (genomedir args) |}
       (logs (run_analysis w args)).
Proof.
  intros Hd Hr Hargs. destruct (load_alleles_readable w args Hd Hr) as [Ho Hl].
  eexists. split; [exact Ho|]. split; [|split].
  - intros g. rewrite fold_entries_keys. split.
    + intros [[]|[f [v [Hf E]]]]. unfold allele_entry in E.
      destruct (entry_fasta f) as [|[|first rest]] eqn:Ef; try discriminate.
      injection E as <- _. exists f, first, rest. auto.
    + intros [f [first [rest [Hf [Ef ->]]]]]. right.
      exists f. eexists. split; [exact Hf|]. unfold allele_entry. now rewrite Ef.
  - intros Hempty. clear Ho Hl Hr.
    induction (filter is_fasta_file l) as [|f fs IH]; [reflexivity|].
    inversion Hempty as [|? ? Ef Hfs]; subst. simpl.
    unfold apply_entry at 2. unfold allele_entry at 2. rewrite Ef. now apply IH.
  - unfold run_analysis.
    do 3 (eapply in_logs_bind_r; [reflexivity|]).
    eapply in_logs_bind_r; [apply (validate_arguments_given Hargs)|].
    eapply in_logs_bind_r; [exact Ho|].
    apply in_logs_bind_l. unfold _load_genomes. apply in_logs_bind_l. now left.
Qed.

End DriverTheorems.

(** Two locus files without sequences. *)
Lemma load_alleles_skips_empty_files_witness :
  Forall readable (filter is_fasta_file entries_no_loci) /\
  outcome (_load_alleles world_no_loci_run demo_args) = Returned PyDict.empty /\
  In {| lvl := INFO; ev := ProcessingGenomeDir "genomes" |}
     (logs (run_analysis world_no_loci_run demo_args)).
Proof.
  assert (Hr : Forall readable (filter is_fasta_file entries_no_loci)) by all_readable.
  split; [exact Hr|].
  destruct (@load_alleles_skips_empty_files decimal_builtins world_no_loci_run
              demo_args entries_no_loci eq_refl Hr)
    as [alleles [Ho [_ [Hempty Hrun]]]].
  - repeat split; discriminate.
  - split; [|exact Hrun].
    rewrite Ho. f_equal. apply Hempty. cbn. repeat constructor.
Defined.

(** C7 as stated fails: no locus file has a sequence, and the run ends
    with a result table, not with an abort. *)
Lemma run_analysis_completes_without_loci :
  Forall (fun f => entry_fasta f = Sequences []) (filter is_fasta_file entries_no_loci) /\
  outcome (run_analysis world_no_loci_run demo_args)
  = Returned {| index := ["G1"]; columns := ["ST"];
                cells := [("G1", "ST", CInt 5)] |} /\
  In {| lvl := INFO; ev := AnalysisCompleted |}
     (logs (run_analysis world_no_loci_run demo_args)).
Proof.
  split; [cbn; repeat constructor|].
  split; [vm_compute; reflexivity|].
  vm_compute. repeat (first [left; reflexivity | right]).
Qed.

(* ------------------------------------------------------------------ *)
(** ** The scheduler *)

Lemma get_in `{Eqb K} {V} (d : PyDict.t K V) k v :
  PyDict.get d k = Some v -> In (k, v) d.
Proof.
  induction d as [|[k0 v0] d IH]; simpl; [discriminate|].
  destruct (eqb_spec k0 k) as [->|Hne].
  - intros [= ->]. now left.
  - intros Hget. right. now apply IH.
Qed.

(** A key whose every update carries the same value holds that value once
    one update has been made. *)
Lemma fold_entries_functional `{Eqb K} {V X} (entry : X -> option (K * V)) xs k v :
  (exists x, In x xs /\ entry x = Some (k, v)) ->
  (forall x v', In x xs -> entry x = Some (k, v') -> v' = v) ->
  PyDict.get (fold_left (apply_entry entry) xs PyDict.empty) k = Some v.
Proof.
  intros [x [Hx Ex]] Hfun.
  assert (Hk : In k (PyDict.keys (fold_left (apply_entry entry) xs PyDict.empty))).
  { apply fold_entries_keys. right. eauto. }
  destruct (in_keys_getitem _ _ Hk) as [v' Hget]. rewrite Hget. f_equal.
  apply fold_entries_get in Hget. destruct Hget as [Hget|[x' [Hx' Ex']]];
    [discriminate|eauto].
Qed.

Section SchedulerFacts.
Context `{Builtins} (w : World) (args : Args).

Lemma blast_jobs_inner allele genomes : forall acc,
  snd (fold_left (add_job args allele) genomes acc)
  = fold_left (apply_entry (job_entry args)) (map (pair allele) genomes) (snd acc).
Proof.
  induction genomes as [|[g gf] genomes IH]; intros [cmds files]; [reflexivity|].
  cbn [fold_left map]. rewrite IH. destruct allele as [a [af n]]. reflexivity.
Qed.

Lemma blast_jobs_outer alleles genomes : forall acc,
  snd (fold_left (fun acc allele => fold_left (add_job args allele) genomes acc)
                 alleles acc)
  = fold_left (apply_entry (job_entry args)) (list_prod alleles genomes) (snd acc).
Proof.
  induction alleles as [|allele alleles IH]; intros acc; [reflexivity|].
  cbn [fold_left list_prod]. rewrite IH, fold_left_app. f_equal.
  apply blast_jobs_inner.
Qed.

(** The dictionary of output files is built by one update per pair, in
    the order of the two loops. *)
Lemma blast_jobs_files alleles genomes :
  snd (blast_jobs args alleles genomes)
  = fold_left (apply_entry (job_entry args))
              (list_prod (PyDict.items alleles) (PyDict.items genomes))
              PyDict.empty.
Proof. unfold blast_jobs. now rewrite blast_jobs_outer. Qed.

Lemma blast_jobs_NoDup alleles genomes :
  NoDup (PyDict.keys (snd (blast_jobs args alleles genomes))).
Proof. rewrite blast_jobs_files. apply fold_entries_NoDup. constructor. Qed.

Lemma blast_jobs_get alleles genomes a g :
  In a (PyDict.keys alleles) -> In g (PyDict.keys genomes) ->
  PyDict.get (snd (blast_jobs args alleles genomes)) (g, a)
  = Some (output_file_of args a g).
Proof.
  intros Ha Hg. rewrite blast_jobs_files.
  unfold PyDict.keys in Ha, Hg. apply in_map_iff in Ha, Hg.
  destruct Ha as [[a' [af n]] [Ea Ha]], Hg as [[g' gf] [Eg Hg]]. simpl in Ea, Eg. subst.
  apply fold_entries_functional.
  - exists ((a, (af, n)), (g, gf)). split; [now apply in_prod|reflexivity].
  - intros [[a' [af' n']] [g' gf']] v' _ E. simpl in E. now injection E as -> -> <-.
Qed.

Lemma blast_jobs_items alleles genomes g a path :
  In (g, a, path) (snd (blast_jobs args alleles genomes)) ->
  path = output_file_of args a g /\
  In a (PyDict.keys alleles) /\ In g (PyDict.keys genomes).
Proof.
  intros Hin.
  assert (Hget : PyDict.get (snd (blast_jobs args alleles genomes)) (g, a) = Some path).
  { pose proof (blast_jobs_NoDup alleles genomes) as Hnd.
    revert Hin Hnd. generalize (snd (blast_jobs args alleles genomes)).
    intros d. unfold PyDict.keys.
    induction d as [|[k0 v0] d IH]; cbn [PyDict.get map fst In]; [intros []|].
    intros [E|Hin] Hnd; inversion Hnd as [|? ? Hnotin Hnd']; subst.
    - injection E as -> ->. now rewrite eqb_refl.
    - destruct (eqb_spec k0 (g, a)) as [->|Hne]; [|auto].
      exfalso. apply Hnotin. apply in_map_iff. now exists (g, a, path). }
  rewrite blast_jobs_files in Hget. apply fold_entries_get in Hget.
  destruct Hget as [Hget|[[[a' [af n]] [g' gf]] [Hx E]]]; [discriminate|].
  simpl in E. injection E as -> -> <-. apply in_prod_iff in Hx. destruct Hx as [Ha Hg].
  split; [reflexivity|]. unfold PyDict.keys, PyDict.items in *. split.
  - apply in_map_iff. now exists (a, (af, n)).
  - apply in_map_iff. now exists (g, gf).
Qed.

(** Waiting for a job never raises. *)
Lemma await_job_returns job : returns_with anything (await_job w args tt job) tt.
Proof.
  destruct job as [i cmd]. unfold await_job.
  destruct (jobs w cmd) as [rc stderr|e].
  - apply returns_try.
    destruct (negb (rc =? 0)%Z); [now apply returns_log|].
    destruct (verbose args); [now apply returns_log|apply returns_ret].
  - destruct e; split; simpl; trivial; repeat constructor.
Qed.


Lemma run_parallel_commands_returns commands :
  returns_with anything (_run_parallel_commands w args commands) tt.
Proof.
  unfold _run_parallel_commands.
  eapply returns_bind; [now apply returns_log|].
  eapply returns_bind with (a := tt); [|now apply returns_log].
  pose proof (@returns_for_each anything unit _ (fun _ _ => tt) (await_job w args)
                (combine (seq 0 (List.length commands)) commands)) as Hloop.
  specialize (Hloop (fun s x _ => match s with tt => await_job_returns x end) tt).
  destruct (fold_left _ _ tt). exact Hloop.
Qed.

End SchedulerFacts.



Section ProcessFacts.
Context `{Builtins} (w : World) (args : Args).




End ProcessFacts.

Section SchedulerTheorems.
Context `{Builtins} (w : World) (args : Args).



End SchedulerTheorems.



(* ================================================================== *)
(** * Part III: further properties of the pipeline *)

(* ------------------------------------------------------------------ *)
(** ** Arguments and the output directory *)

(** [_validate_arguments] returns exactly when the four required
    arguments are non-empty; otherwise it exits with status 1, and the
    last record logged is the error naming a required argument. *)
Theorem validate_arguments_exit (args : Args) :
  (outcome (_validate_arguments args) = Returned tt <-> args_given args) /\
  (outcome (_validate_arguments args) <> Returned tt ->
   outcome (_validate_arguments args) = Raised (SystemExit 1) /\
   exists arg_name,
     In arg_name ["input directory"; "output directory"; "MLST profile";
                  "genome directory"] /\
     List.last (logs (_validate_arguments args)) {| lvl := INFO; ev := RunTime |}
     = {| lvl := ERROR; ev := NoArgSpecified arg_name |}).
Proof.
  unfold _validate_arguments, args_given. cbn [for_each].
  destruct (String.eqb_spec (indirname args) "") as [Ei|Ei];
    [rewrite Ei|];
    (destruct (String.eqb_spec (outdirname args) "") as [Eo|Eo];
     [try rewrite Eo|]);
    (destruct (String.eqb_spec (profile args) "") as [Ep|Ep];
     [try rewrite Ep|]);
    (destruct (String.eqb_spec (genomedir args) "") as [Eg|Eg];
     [try rewrite Eg|]);
    cbn; (split; [split; [try discriminate; intros _; tauto | tauto || (intros; reflexivity)] |]);
    intros Hne; try (exfalso; apply Hne; reflexivity);
    (split; [reflexivity|]); eexists; (split; [|reflexivity]); simpl; tauto.
Qed.


(* ------------------------------------------------------------------ *)
(** ** Loops that stop at a failure *)

Lemma bind_assoc {A B C} (m : M A) (f : A -> M B) (g : B -> M C) :
  bind (bind m f) g = bind m (fun a => bind (f a) g).
Proof.
  unfold bind. destruct m as [l [a|e]]; [|reflexivity].
  destruct (f a) as [l1 [b|e]]; [|reflexivity].
  destruct (g b) as [l2 r]. now rewrite app_assoc.
Qed.

Lemma for_each_app {S X} (body : S -> X -> M S) xs ys : forall s,
  for_each (xs ++ ys) body s = bind (for_each xs body s) (fun s' => for_each ys body s').
Proof.
  induction xs as [|x xs IH]; intros s.
  - symmetry. apply bind_ret.
  - cbn [app]. rewrite !for_each_cons. unfold bind at 1 3.
    destruct (body s x) as [l [s1|e]]; [|reflexivity].
    rewrite IH. unfold bind.
    destruct (for_each xs body s1) as [l1 [s2|e]]; [|reflexivity].
    destruct (for_each ys body s2) as [l2 r]. now rewrite app_assoc.
Qed.

(** A loop whose rounds return up to a round that raises stops there:
    it raises what that round raises, and the last record logged is the
    last record of that round. *)
Lemma for_each_stops {S X} (P : log_record -> Prop) (g : S -> X -> S)
      (body : S -> X -> M S) pre x post s e :
  (forall s y, In y pre -> returns_with P (body s y) (g s y)) ->
  outcome (body (fold_left g pre s) x) = Raised e ->
  outcome (for_each (pre ++ x :: post) body s) = Raised e /\
  logs (for_each (pre ++ x :: post) body s)
  = logs (for_each pre body s) ++ logs (body (fold_left g pre s) x).
Proof.
  intros Hpre Hx. rewrite for_each_app.
  destruct (returns_for_each g body pre Hpre s) as [Ho _].
  rewrite (outcome_bind _ _ Ho), (logs_bind _ _ Ho), for_each_cons.
  rewrite (outcome_bind_raised _ _ Hx). split; [reflexivity|]. f_equal.
  destruct (body (fold_left g pre s) x) as [l [s'|e']]; simpl in *;
    [discriminate|reflexivity].
Qed.

Lemma logs_bind_raised {A B} (m : M A) (f : A -> M B) e :
  outcome m = Raised e -> logs (bind m f) = logs m.
Proof. destruct m as [l [a'|e']]; simpl; intros [= ->]. reflexivity. Qed.

(* ------------------------------------------------------------------ *)
(** ** Loaders that fail *)

Section LoadersFail.
Context (w : World) (args : Args).

Lemma load_allele_file_bad directory alleles f e :
  entry_fasta f = BadFasta e ->
  load_allele_file directory alleles f
  = ([{| lvl := ERROR;
         ev := CouldNotProcessFasta (Path.join directory (entry_name f)) (exn_of e) |}],
     Raised (SystemExit 1)).
Proof.
  intros E. unfold load_allele_file, parse_fasta. rewrite E. now destruct e.
Qed.

Lemma load_genome_file_bad directory genomes f e :
  entry_fasta f = BadFasta e ->
  load_genome_file directory genomes f
  = ([{| lvl := ERROR;
         ev := CouldNotProcessGenome (Path.join directory (entry_name f)) (exn_of e) |}],
     Raised (SystemExit 1)).
Proof.
  intros E. unfold load_genome_file, parse_fasta. rewrite E. now destruct e.
Qed.

Lemma last_app_singleton {X} (l : list X) x d : List.last (l ++ [x]) d = x.
Proof. apply last_last. Qed.

(** Either loader exits with status 1 when its directory cannot be
    listed, and at the first sequence file that fails to parse: the files
    before it were loaded, the last record logged is the error naming the
    file, and the files after it are not read. *)
Theorem loaders_exit_on_failure :
  (forall e, listing_error (dirs w (indirname args)) = Some e ->
     _load_alleles w args
     = ([ {| lvl := INFO; ev := ProcessingAlleleDir (indirname args) |};
          {| lvl := ERROR; ev := CouldNotIdentifyFasta (indirname args) e |} ],
        Raised (SystemExit 1))) /\
  (forall e, listing_error (dirs w (genomedir args)) = Some e ->
     _load_genomes w args
     = ([ {| lvl := INFO; ev := ProcessingGenomeDir (genomedir args) |};
          {| lvl := ERROR; ev := CouldNotIdentifyFasta (genomedir args) e |} ],
        Raised (SystemExit 1))) /\
  (forall l pre f post e,
     dirs w (indirname args) = Entries l ->
     filter is_fasta_file l = pre ++ f :: post ->
     Forall readable pre ->
     entry_fasta f = BadFasta e ->
     outcome (_load_alleles w args) = Raised (SystemExit 1) /\
     List.last (logs (_load_alleles w args)) no_record
     = {| lvl := ERROR;
          ev := CouldNotProcessFasta (Path.join (indirname args) (entry_name f))
                                     (exn_of e) |}) /\
  (forall l pre f post e,
     dirs w (genomedir args) = Entries l ->
     filter is_fasta_file l = pre ++ f :: post ->
     Forall readable pre ->
     entry_fasta f = BadFasta e ->
     outcome (_load_genomes w args) = Raised (SystemExit 1) /\
     List.last (logs (_load_genomes w args)) no_record
     = {| lvl := ERROR;
          ev := CouldNotProcessGenome (Path.join (genomedir args) (entry_name f))
                                      (exn_of e) |}).
Proof.
  split; [|split; [|split]].
  - intros e He. unfold _load_alleles, _get_fasta_files.
    destruct (dirs w (indirname args)) as [|e'|l]; simpl in He;
      [injection He as <-; reflexivity
      |injection He as <-; now destruct e'
      |discriminate].
  - intros e He. unfold _load_genomes, _get_fasta_files.
    destruct (dirs w (genomedir args)) as [|e'|l]; simpl in He;
      [injection He as <-; reflexivity
      |injection He as <-; now destruct e'
      |discriminate].
  - intros l pre f post e Hd Hsplit Hr Hbad.
    unfold _load_alleles, _get_fasta_files. rewrite Hd, Hsplit.
    change (try_except (ret (pre ++ f :: post)) _) with (ret (pre ++ f :: post)).
    rewrite (outcome_bind _ _ (a := tt)) by reflexivity.
    rewrite (logs_bind _ _ (a := tt)) by reflexivity.
    rewrite bind_ret.
    destruct (@for_each_stops _ _ info
                (apply_entry (allele_entry (indirname args)))
                (load_allele_file (indirname args)) pre f post
                (@PyDict.empty string (string * nat)) (SystemExit 1)) as [Ho Hl].
    + intros s y Hy. apply load_allele_file_readable.
      rewrite Forall_forall in Hr. now apply Hr.
    + now rewrite (load_allele_file_bad _ _ _ Hbad).
    + rewrite (outcome_bind_raised _ _ Ho). split; [reflexivity|].
      rewrite (@logs_bind_raised _ _ _ _ _ Ho), Hl.
      rewrite (load_allele_file_bad _ _ _ Hbad). cbn [logs fst].
      rewrite app_assoc. apply last_app_singleton.
  - intros l pre f post e Hd Hsplit Hr Hbad.
    unfold _load_genomes, _get_fasta_files. rewrite Hd, Hsplit.
    change (try_except (ret (pre ++ f :: post)) _) with (ret (pre ++ f :: post)).
    rewrite (outcome_bind _ _ (a := tt)) by reflexivity.
    rewrite (logs_bind _ _ (a := tt)) by reflexivity.
    rewrite bind_ret.
    destruct (@for_each_stops _ _ info
                (apply_entry (genome_entry (genomedir args)))
                (load_genome_file (genomedir args)) pre f post
                (@PyDict.empty string string) (SystemExit 1)) as [Ho Hl].
    + intros s y Hy. apply load_genome_file_readable.
      rewrite Forall_forall in Hr. now apply Hr.
    + now rewrite (load_genome_file_bad _ _ _ Hbad).
    + rewrite (outcome_bind_raised _ _ Ho). split; [reflexivity|].
      rewrite (@logs_bind_raised _ _ _ _ _ Ho), Hl.
      rewrite (load_genome_file_bad _ _ _ Hbad). cbn [logs fst].
      rewrite app_assoc. apply last_app_singleton.
Qed.

End LoadersFail.

(* ------------------------------------------------------------------ *)
(** ** Loops that only log *)

Lemma for_each_unit_trace {X} (body : unit -> X -> M unit) (xs : list X) :
  (forall x, outcome (body tt x) = Returned tt) ->
  for_each xs body tt = (flat_map (fun x => logs (body tt x)) xs, Returned tt).
Proof.
  intros Hb. induction xs as [|x xs IH]; [reflexivity|].
  rewrite for_each_cons. specialize (Hb x).
  destruct (body tt x) as [l [[]|e]] eqn:E; [|discriminate].
  cbn [bind]. rewrite IH. cbn [flat_map logs fst]. rewrite E. reflexivity.
Qed.

Lemma Forall_combine_seq {X} (P : X -> Prop) (xs : list X) : forall k,
  Forall (fun p : nat * X => P (snd p)) (combine (seq k (List.length xs)) xs)
  <-> Forall P xs.
Proof.
  induction xs as [|x xs IH]; intros k; cbn [List.length seq combine].
  - split; constructor.
  - split; intros Hf; inversion Hf; subst; constructor; trivial;
      now apply (IH (S k)).
Qed.

Lemma length_flat_map_ones {X Y} (f : X -> list Y) (xs : list X) :
  (forall x, List.length (f x) = 1%nat) ->
  List.length (flat_map f xs) = List.length xs.
Proof.
  intros Hf. induction xs as [|x xs IH]; [reflexivity|].
  cbn [flat_map]. rewrite length_app, Hf, IH. reflexivity.
Qed.

Section SchedulerQuiet.
Context (w : World) (args : Args).

Lemma await_job_outcome job : outcome (await_job w args tt job) = Returned tt.
Proof. apply await_job_returns. Qed.

Lemma await_job_info i cmd :
  Forall info (logs (await_job w args tt (i, cmd))) <-> job_succeeded w cmd.
Proof.
  unfold await_job, job_succeeded.
  destruct (jobs w cmd) as [rc stderr|e].
  - destruct (Z.eqb_spec rc 0) as [->|Hrc]; cbn [negb].
    + split; [intros _; now exists stderr|intros _].
      destruct (verbose args); repeat constructor.
    + split.
      * intros Hf. inversion Hf as [|? ? Hi]. discriminate Hi.
      * intros [s [= E _]]. contradiction.
  - split.
    + destruct e; intros Hf; inversion Hf as [|? ? Hi]; discriminate Hi.
    + intros [s E]. discriminate E.
Qed.

Lemma await_job_one_record job :
  verbose args = true -> List.length (logs (await_job w args tt job)) = 1%nat.
Proof.
  intros Hv. destruct job as [i cmd]. unfold await_job. rewrite Hv.
  destruct (jobs w cmd) as [rc stderr|e].
  - now destruct (negb (rc =? 0)%Z).
  - now destruct e.
Qed.

Lemma await_job_silent i cmd :
  verbose args = false -> job_succeeded w cmd ->
  logs (await_job w args tt (i, cmd)) = [].
Proof.
  intros Hv [s E]. unfold await_job. rewrite E, Hv. reflexivity.
Qed.

Lemma flat_map_nil {X Y} (f : X -> list Y) (xs : list X) :
  Forall (fun x => f x = []) xs -> flat_map f xs = [].
Proof.
  induction 1 as [|x xs Hx _ IH]; [reflexivity|].
  cbn [flat_map]. now rewrite Hx, IH.
Qed.

(** Waiting for the jobs never raises.  What it logs is at level INFO only
    exactly when every command ran and ended with status 0; without
    [verbose] that log is then the two framing records, and with
    [verbose] every command leaves exactly one record. *)
Theorem run_parallel_commands_quiet (commands : list string) :
  outcome (_run_parallel_commands w args commands) = Returned tt /\
  (Forall info (logs (_run_parallel_commands w args commands))
   <-> Forall (job_succeeded w) commands) /\
  (verbose args = false -> Forall (job_succeeded w) commands ->
   logs (_run_parallel_commands w args commands)
   = [ {| lvl := INFO; ev := RunningJobs (List.length commands) |};
       {| lvl := INFO; ev := AllJobsCompleted |} ]) /\
  (verbose args = true ->
   List.length (logs (_run_parallel_commands w args commands))
   = (List.length commands + 2)%nat).
Proof.
  unfold _run_parallel_commands.
  rewrite (for_each_unit_trace (await_job w args) _ await_job_outcome).
  set (jobs_ := combine (seq 0 (List.length commands)) commands).
  cbn [bind log logs outcome fst snd app].
  split; [reflexivity|]. split; [|split].
  - rewrite <- (Forall_combine_seq (job_succeeded w) commands 0). fold jobs_.
    split.
    + intros Hf. inversion Hf as [|? ? _ Hrest]; subst.
      apply Forall_app in Hrest as [Hrest _].
      rewrite Forall_flat_map in Hrest.
      eapply Forall_impl; [|exact Hrest].
      intros [i cmd] Hi. now apply await_job_info in Hi.
    + intros Hf. constructor; [reflexivity|].
      apply Forall_app. split; [|repeat constructor].
      rewrite Forall_flat_map.
      eapply Forall_impl; [|exact Hf].
      intros [i cmd] Hi. now apply await_job_info.
  - intros Hv Hok. rewrite flat_map_nil; [reflexivity|].
    apply (Forall_combine_seq (job_succeeded w) commands 0) in Hok. fold jobs_ in Hok.
    eapply Forall_impl; [|exact Hok].
    intros [i cmd] Hi. now apply await_job_silent.
  - intros Hv. cbn [List.length]. rewrite length_app.
    rewrite length_flat_map_ones by (intros j; now apply await_job_one_record).
    unfold jobs_. rewrite length_combine, length_seq. cbn [List.length]. lia.
Qed.

End SchedulerQuiet.

(* ------------------------------------------------------------------ *)
(** ** Writing the results *)

Section WriteFacts.
Context (w : World) (args : Args).

(** One format, one record: a warning for a name without a branch, else
    the record of the file written or of the failure to write it. *)
Lemma write_format_record output_dir fmt :
  exists r,
    write_format w output_dir tt fmt = ([r], Returned tt) /\
    ((known_format fmt = false /\ r = {| lvl := WARNING; ev := UnknownFormat fmt |}) \/
     (known_format fmt = true /\
      ((exists path, write_failure w path = None /\
        r = {| lvl := INFO;
               ev := ResultsWritten (Path.join output_dir ("MLST_results." ++ fmt)) |}) \/
       (exists path e, write_failure w path = Some e /\
        r = {| lvl := ERROR; ev := ErrorWriting fmt (exn_of e) |})))).
Proof.
  unfold write_format, known_format. cbn [existsb].
  destruct (String.eqb fmt "csv"), (String.eqb fmt "tab"), (String.eqb fmt "tsv"),
    (String.eqb fmt "excel"), (String.eqb fmt "xlsx"), (String.eqb fmt "xls");
    cbn [orb];
    repeat match goal with
      | |- context [write_failure w ?p] =>
          let E := fresh "E" in destruct (write_failure w p) as [[]|] eqn:E
      end;
    eexists; (split; [reflexivity|]);
    first [ left; split; reflexivity
          | right; split; [reflexivity|];
            first [ left; eexists; split; [eassumption|reflexivity]
                  | right; eexists; eexists; split; [eassumption|reflexivity] ] ].
Qed.

Lemma write_format_outcome output_dir fmt :
  outcome (write_format w output_dir tt fmt) = Returned tt.
Proof. destruct (write_format_record output_dir fmt) as [r [-> _]]. reflexivity. Qed.

(** Writing the results never raises, whatever the formats asked for and
    whatever fails on disk.  It logs one record per requested format: a
    warning exactly for the names it has no branch for (after lower-casing
    and stripping), an error only for a known format whose file could not
    be written, and no error when every write succeeds. *)
Theorem write_results_returns (df : DataFrame) :
  outcome (_write_results w args df) = Returned tt /\
  List.length (logs (_write_results w args df)) = List.length (output_formats args) /\
  (forall fmt,
     In {| lvl := WARNING; ev := UnknownFormat fmt |} (logs (_write_results w args df))
     <-> In fmt (output_formats args) /\ known_format fmt = false) /\
  (forall fmt e,
     In {| lvl := ERROR; ev := ErrorWriting fmt e |} (logs (_write_results w args df)) ->
     In fmt (output_formats args) /\ known_format fmt = true /\
     exists path e', write_failure w path = Some e' /\ e = exn_of e') /\
  ((forall path, write_failure w path = None) ->
   Forall (fun r => lvl r <> ERROR) (logs (_write_results w args df))).
Proof.
  unfold _write_results. fold (output_formats args).
  rewrite (for_each_unit_trace (write_format w (outdirname args)) _
             (write_format_outcome (outdirname args))).
  cbn [outcome logs fst snd].
  split; [reflexivity|]. split; [|split; [|split]].
  - apply length_flat_map_ones. intros fmt.
    destruct (write_format_record (outdirname args) fmt) as [r [-> _]]. reflexivity.
  - intros fmt. rewrite in_flat_map. split.
    + intros [fmt' [Hin Hr]].
      destruct (write_format_record (outdirname args) fmt') as [r [E Hcase]].
      rewrite E in Hr. destruct Hr as [Hr|[]].
      destruct Hcase as [[Hk ->]|[_ [[p [_ ->]]|[p [e [_ ->]]]]]]; try discriminate Hr.
      injection Hr as ->. now split.
    + intros [Hin Hk]. exists fmt. split; [exact Hin|].
      destruct (write_format_record (outdirname args) fmt) as [r [E Hcase]].
      rewrite E. left.
      destruct Hcase as [[_ ->]|[Hk' _]]; [reflexivity|congruence].
  - intros fmt e. rewrite in_flat_map. intros [fmt' [Hin Hr]].
    destruct (write_format_record (outdirname args) fmt') as [r [E Hcase]].
    rewrite E in Hr. destruct Hr as [Hr|[]].
    destruct Hcase as [[_ ->]|[Hk [[p [_ ->]]|[p [e' [Hp ->]]]]]]; try discriminate Hr.
    injection Hr as -> <-.
    split; [exact Hin|]. split; [exact Hk|]. now exists p, e'.
  - intros Hok. rewrite Forall_flat_map. apply Forall_forall. intros fmt _.
    destruct (write_format_record (outdirname args) fmt) as [r [-> Hcase]].
    constructor; [|constructor].
    destruct Hcase as [[_ ->]|[_ [[p [_ ->]]|[p [e [Hp _]]]]]]; try discriminate.
    rewrite Hok in Hp. discriminate.
Qed.

End WriteFacts.

(* ------------------------------------------------------------------ *)
(** ** The commands of a run *)

Section JobFacts.
Context (w : World) (args : Args).

Lemma add_job_commands allele genomes : forall acc,
  fst (fold_left (add_job args allele) genomes acc)
  = fst acc ++ map (fun g => job_command args (allele, g)) genomes.
Proof.
  induction genomes as [|[g gf] genomes IH]; intros [commands files]; cbn [fold_left map].
  - cbn [fst]. now rewrite app_nil_r.
  - rewrite IH. destruct allele as [a [af n]]. cbn [add_job fst job_command].
    now rewrite <- app_assoc.
Qed.

Lemma blast_jobs_commands_from alleles genomes : forall acc,
  fst (fold_left (fun acc allele => fold_left (add_job args allele) genomes acc)
                 alleles acc)
  = fst acc ++ map (job_command args) (list_prod alleles genomes).
Proof.
  induction alleles as [|allele alleles IH]; intros acc; cbn [fold_left list_prod map].
  - now rewrite app_nil_r.
  - rewrite IH, add_job_commands, map_app, map_map, <- app_assoc. reflexivity.
Qed.

Lemma blast_jobs_commands alleles genomes :
  fst (blast_jobs args alleles genomes)
  = map (job_command args) (list_prod alleles genomes).
Proof. unfold blast_jobs, PyDict.items. now rewrite blast_jobs_commands_from. Qed.

(** The alignment step always returns, whatever becomes of the jobs.  It
    issues one command per (locus, genome) pair, loci in the outer loop
    and genomes in the inner one, logs their number, and returns a
    dictionary that holds, for exactly the pairs of a genome and a locus
    of the catalogs, the output file named after the pair. *)
Theorem run_blast_analysis_jobs
    (alleles : PyDict.t string (string * nat)) (genomes : PyDict.t string string) :
  exists files,
    outcome (_run_blast_analysis w args alleles genomes) = Returned files /\
    (forall g a path,
       PyDict.get files (g, a) = Some path <->
       In a (PyDict.keys alleles) /\ In g (PyDict.keys genomes) /\
       path = output_file_of args a g) /\
    logs (_run_blast_analysis w args alleles genomes)
    = {| lvl := INFO; ev := RunningBlast |}
      :: {| lvl := INFO;
            ev := GeneratedCommands (List.length alleles * List.length genomes) |}
      :: logs (_run_parallel_commands w args
                 (map (job_command args) (list_prod alleles genomes))).
Proof.
  exists (snd (blast_jobs args alleles genomes)).
  unfold _run_blast_analysis.
  pose proof (blast_jobs_commands alleles genomes) as Hc.
  destruct (blast_jobs args alleles genomes) as [commands files] eqn:E.
  cbn [fst snd] in *. subst commands.
  destruct (run_parallel_commands_returns w args
              (map (job_command args) (list_prod alleles genomes))) as [Ho _].
  split; [|split].
  - rewrite (outcome_bind _ _ (a := tt)) by reflexivity.
    rewrite (outcome_bind _ _ (a := tt)) by reflexivity.
    now rewrite (outcome_bind _ _ Ho).
  - intros g a path. split.
    + intros Hget. apply get_in in Hget.
      assert (Hin : In (g, a, path) (snd (blast_jobs args alleles genomes)))
        by (rewrite E; exact Hget).
      apply blast_jobs_items in Hin. tauto.
    + intros [Ha [Hg ->]].
      pose proof (blast_jobs_get args alleles genomes a g Ha Hg) as Hget.
      now rewrite E in Hget.
  - rewrite (logs_bind _ _ (a := tt)) by reflexivity.
    rewrite (logs_bind _ _ (a := tt)) by reflexivity.
    rewrite (logs_bind _ _ Ho).
    cbn [log logs fst ret app]. rewrite app_nil_r.
    now rewrite length_map, length_prod.
Qed.

End JobFacts.

(* ------------------------------------------------------------------ *)
(** ** The table of alleles *)

Section TableFacts.
Context `{Builtins} (w : World).

Lemma has_In labels l : Pandas.has labels l = true <-> In l labels.
Proof.
  unfold Pandas.has. rewrite existsb_exists. split.
  - intros [x [Hx E]]. apply String.eqb_eq in E. now subst.
  - intros Hl. exists l. split; [exact Hl|apply String.eqb_refl].
Qed.




End TableFacts.



(* ------------------------------------------------------------------ *)
(** ** The profile loader's ways out *)

Lemma catchable_lift_returned {A} (a : A) : catchable (lift (Returned a)).
Proof. exact I. Qed.

Lemma catchable_raise {A} e : is_Exception e = true -> catchable (@raise A e).
Proof. intros E. exact E. Qed.

Lemma catchable_for_list {X Y} (f : X -> M Y) xs :
  (forall x, catchable (f x)) -> catchable (for_list f xs).
Proof.
  intros Hf. induction xs as [|x xs IH]; [exact I|].
  cbn [for_list]. apply catchable_bind; [apply Hf|]. intros y.
  apply catchable_bind; [exact IH|]. intros ys. exact I.
Qed.

Lemma catchable_getitem `{Eqb K} {V} (d : PyDict.t K V) k :
  catchable (lift (PyDict.getitem d k)).
Proof. unfold PyDict.getitem. now destruct (PyDict.get d k). Qed.

Lemma catchable_sorted_keys l : catchable (lift (sorted_keys l)).
Proof.
  unfold sorted_keys. destruct (filter is_None l); [exact I|].
  now destruct (strings_of l).
Qed.

(** A guarded block whose handler logs and exits: it returns what the
    block returns, and exits with status 1 when the block raises. *)
Lemma try_except_exit {A} (body : M A) (what : exn -> event) :
  catchable body ->
  let guarded := try_except body (fun e => log ERROR (what e) ;; sys_exit 1) in
  (forall a, outcome guarded = Returned a <-> outcome body = Returned a) /\
  (forall e, outcome body = Raised e ->
     outcome guarded = Raised (SystemExit 1) /\
     logs guarded = logs body ++ [{| lvl := ERROR; ev := what e |}]).
Proof.
  unfold catchable, try_except, outcome, logs.
  destruct body as [l [a|e]]; cbn [fst snd]; intros Hc.
  - split; [reflexivity|]. intros e [=].
  - rewrite Hc. cbn. split.
    + intros a. split; intros [=].
    + intros e' [= <-]. split; reflexivity.
Qed.

Lemma outcome_for_each_returned {S X} (body : S -> X -> M S) x xs s s' :
  outcome (for_each (x :: xs) body s) = Returned s' ->
  exists s1, outcome (body s x) = Returned s1.
Proof.
  rewrite for_each_cons. unfold bind, outcome.
  destruct (body s x) as [l [s1|e]]; cbn [snd]; [eauto|discriminate].
Qed.

Lemma outcome_bind_returned {A B} (m : M A) (f : A -> M B) b :
  outcome (bind m f) = Returned b ->
  exists a, outcome m = Returned a /\ outcome (f a) = Returned b.
Proof.
  unfold bind, outcome. destruct m as [l [a|e]]; cbn [snd]; [|discriminate].
  destruct (f a) as [l' r] eqn:E. cbn [snd]. intros ->. exists a.
  rewrite E. now split.
Qed.

Lemma dict_of_line_keys fieldnames line s :
  In (Some s) (PyDict.keys (dict_of_line fieldnames line)) -> In s fieldnames.
Proof.
  unfold dict_of_line.
  assert (Hzip : forall l d,
            (forall s, In (Some s) (PyDict.keys d) -> In s fieldnames) ->
            (forall kv, In kv l -> In (fst kv) fieldnames) ->
            forall s, In (Some s)
                         (PyDict.keys
                            (fold_left (fun d kv => PyDict.set d (Some (fst kv))
                                                               (VStr (snd kv))) l d)) ->
                      In s fieldnames).
  { induction l as [|kv l IH]; intros d Hd Hl s'; cbn [fold_left]; [apply Hd|].
    apply IH; [|intros; apply Hl; now right].
    intros s0 Hs0. apply keys_set in Hs0 as [[= ->]|Hs0]; [|now apply Hd].
    apply Hl. now left. }
  assert (Hpad : forall l d,
            (forall s, In (Some s) (PyDict.keys d) -> In s fieldnames) ->
            (forall k, In k l -> In k fieldnames) ->
            forall s, In (Some s)
                         (PyDict.keys
                            (fold_left (fun d k => PyDict.set d (Some k) VNone) l d)) ->
                      In s fieldnames).
  { induction l as [|k l IH]; intros d Hd Hl s'; cbn [fold_left]; [apply Hd|].
    apply IH; [|intros; apply Hl; now right].
    intros s0 Hs0. apply keys_set in Hs0 as [[= ->]|Hs0]; [|now apply Hd].
    apply Hl. now left. }
  assert (Hbase : forall s, In (Some s)
            (PyDict.keys
               (fold_left (fun d kv => PyDict.set d (Some (fst kv)) (VStr (snd kv)))
                          (combine fieldnames line)
                          (@PyDict.empty (option string) csvval))) ->
            In s fieldnames).
  { apply Hzip; [intros s0 []|].
    intros [k v] Hkv. apply in_combine_l in Hkv. exact Hkv. }
  destruct (List.length fieldnames <? List.length line)%nat.
  - intros Hs. apply keys_set in Hs as [[=]|Hs]. now apply Hbase.
  - apply Hpad; [exact Hbase|].
    intros k Hk. rewrite <- (firstn_skipn (List.length line) fieldnames).
    apply in_or_app. now right.
Qed.

Section ProfileExits.
Context `{Builtins} (w : World) (args : Args).

Lemma profile_key_catchable genes row : catchable (profile_key genes row).
Proof.
  unfold profile_key. apply catchable_bind; [|intros; exact I].
  apply catchable_for_list. intros gene.
  apply catchable_bind; [apply catchable_getitem|intros; exact I].
Qed.

Lemma profile_step_catchable st row : catchable (profile_step st row).
Proof.
  destruct st as [genes profiles]. unfold profile_step.
  apply catchable_bind.
  - destruct genes as [genes|]; [exact I|].
    apply catchable_bind; [apply catchable_sorted_keys|]. intros genes.
    apply catchable_bind; [apply catchable_log|intros; exact I].
  - intros genes'. apply catchable_bind; [apply profile_key_catchable|].
    intros key. apply catchable_bind; [apply catchable_getitem|intros; exact I].
Qed.

Lemma profile_step_needs_ST st row st' :
  outcome (profile_step st row) = Returned st' -> In (Some "ST") (PyDict.keys row).
Proof.
  destruct st as [genes profiles]. unfold profile_step. intros Ho.
  apply outcome_bind_returned in Ho as [genes' [_ Ho]].
  apply outcome_bind_returned in Ho as [key [_ Ho]].
  apply outcome_bind_returned in Ho as [v [Hv _]].
  unfold lift, outcome, PyDict.getitem in Hv. cbn [snd] in Hv.
  destruct (PyDict.get row (Some "ST")) as [v'|] eqn:E; [|discriminate].
  eapply get_in_keys; exact E.
Qed.

Lemma load_mlst_profiles_body_catchable :
  catchable
    ('(lines, failure) <- open_csv w (profile args) ;;
     st <- for_each (DictReader lines) profile_step (None, PyDict.empty) ;;
     reader_end failure ;;
     log INFO (LoadedProfiles (List.length (snd st))) ;;
     ret st).
Proof.
  apply catchable_bind; [apply open_csv_catchable|]. intros [lines failure].
  apply catchable_bind.
  - apply catchable_for_each. apply profile_step_catchable.
  - intros st. apply catchable_bind; [apply reader_end_catchable|]. intros _.
    apply catchable_bind; [apply catchable_log|intros; exact I].
Qed.

(** The profile loader returns or exits with status 1: no other exception
    leaves it.  It exits when the file cannot be opened, when the reading
    fails, and when the header has no ST column and a data line follows;
    and from a file without data lines it returns no gene list at all
    ([None]) and an empty dictionary. *)
Theorem load_mlst_profiles_exit :
  returns_or_exits (_load_mlst_profiles w args) /\
  (forall e, open_error (files w (profile args)) = Some e ->
     _load_mlst_profiles w args
     = ([ {| lvl := INFO; ev := LoadingProfiles (profile args) |};
          {| lvl := ERROR; ev := ErrorLoadingProfiles e |} ],
        Raised (SystemExit 1))) /\
  (forall lines e, files w (profile args) = Lines lines (Some e) ->
     outcome (_load_mlst_profiles w args) = Raised (SystemExit 1)) /\
  (forall header rest failure,
     files w (profile args) = Lines (header :: rest) failure ->
     ~ In "ST" header -> filter nonblank rest <> [] ->
     outcome (_load_mlst_profiles w args) = Raised (SystemExit 1)) /\
  (forall lines, files w (profile args) = Lines lines None ->
     DictReader lines = [] ->
     _load_mlst_profiles w args
     = ([ {| lvl := INFO; ev := LoadingProfiles (profile args) |};
          {| lvl := INFO; ev := LoadedProfiles 0 |} ],
        Returned (None, PyDict.empty))).
Proof.
  pose proof load_mlst_profiles_body_catchable as Hc.
  pose proof (@try_except_exit _ _ (fun e => ErrorLoadingProfiles e) Hc) as [Hret Hexit].
  assert (Hout : forall r,
            outcome (_load_mlst_profiles w args) = r <->
            outcome (try_except
                       ('(lines, failure) <- open_csv w (profile args) ;;
                        st <- for_each (DictReader lines) profile_step
                                       (None, PyDict.empty) ;;
                        reader_end failure ;;
                        log INFO (LoadedProfiles (List.length (snd st))) ;;
                        ret st)
                       (fun e => log ERROR (ErrorLoadingProfiles e) ;; sys_exit 1)) = r).
  { intros r. unfold _load_mlst_profiles.
    rewrite (outcome_bind _ _ (a := tt)) by reflexivity. reflexivity. }
  assert (Hall : returns_or_exits (_load_mlst_profiles w args)).
  { unfold returns_or_exits.
    destruct (outcome
                ('(lines, failure) <- open_csv w (profile args) ;;
                 st <- for_each (DictReader lines) profile_step (None, PyDict.empty) ;;
                 reader_end failure ;;
                 log INFO (LoadedProfiles (List.length (snd st))) ;;
                 ret st)) as [v|e] eqn:E.
    - left. exists v. apply Hout. now apply Hret.
    - right. apply Hout. now apply (Hexit e). }
  assert (Hnot : (forall v, outcome (_load_mlst_profiles w args) <> Returned v) ->
                 outcome (_load_mlst_profiles w args) = Raised (SystemExit 1)).
  { intros Hno. destruct Hall as [[v Hv]|Hx]; [now apply Hno in Hv|exact Hx]. }
  split; [exact Hall|]. split; [|split; [|split]].
  - intros e He. unfold _load_mlst_profiles, open_csv.
    destruct (files w (profile args)); simpl in He;
      [injection He as <-; reflexivity|injection He as <-; reflexivity|discriminate].
  - intros lines e Hf. apply Hnot. intros v Hv.
    apply Hout, Hret in Hv. unfold open_csv in Hv. rewrite Hf, bind_ret in Hv.
    apply outcome_bind_returned in Hv as [st [_ Hv]].
    apply outcome_bind_returned in Hv as [[] [Hv _]].
    destruct e; discriminate Hv.
  - intros header rest failure Hf HST Hdata. apply Hnot. intros v Hv.
    apply Hout, Hret in Hv. unfold open_csv in Hv. rewrite Hf, bind_ret in Hv.
    apply outcome_bind_returned in Hv as [st [Hv _]].
    cbn [DictReader] in Hv. unfold DictReader_with in Hv.
    destruct (filter nonblank rest) as [|line more]; [now apply Hdata|].
    cbn [map] in Hv. apply outcome_for_each_returned in Hv as [s1 Hs1].
    apply profile_step_needs_ST in Hs1. apply dict_of_line_keys in Hs1.
    now apply HST.
  - intros lines Hf Hrows. unfold _load_mlst_profiles, open_csv.
    rewrite Hf, bind_ret, Hrows. reflexivity.
Qed.

End ProfileExits.

(* ------------------------------------------------------------------ *)
(** ** What the assignment keeps *)

Lemma for_each_invariant {S X} (I : S -> Prop) (body : S -> X -> M S) (xs : list X) :
  (forall s x s', In x xs -> I s -> outcome (body s x) = Returned s' -> I s') ->
  forall s s', I s -> outcome (for_each xs body s) = Returned s' -> I s'.
Proof.
  induction xs as [|x xs IH]; intros Hstep s s' Hs Ho.
  - injection Ho as <-. exact Hs.
  - rewrite for_each_cons in Ho.
    apply outcome_bind_returned in Ho as [s1 [H1 Ho]].
    apply (IH (fun s x s' Hx => Hstep s x s' (or_intror Hx)) s1 s'); [|exact Ho].
    apply (Hstep s x s1); [now left|exact Hs|exact H1].
Qed.

Lemma insert_row_perm key r l : Permutation (Pandas.insert_row key r l) (r :: l).
Proof.
  induction l as [|r' l IH]; cbn [Pandas.insert_row]; [apply Permutation_refl|].
  destruct (Pandas.key_leb (key r) (key r')); [apply Permutation_refl|].
  eapply Permutation_trans; [apply perm_skip; exact IH|apply perm_swap].
Qed.

Lemma sort_rows_perm key l : Permutation (Pandas.sort_rows key l) l.
Proof.
  unfold Pandas.sort_rows. induction l as [|r l IH]; cbn [fold_right]; [constructor|].
  eapply Permutation_trans; [apply insert_row_perm|now apply perm_skip].
Qed.

Lemma sort_values_keeps by_ df df' :
  Pandas.sort_values by_ df = Returned df' ->
  Permutation (index df') (index df) /\ columns df' = columns df /\ cells df' = cells df.
Proof.
  unfold Pandas.sort_values. destruct by_ as [|c by_].
  - intros [= <-]. repeat split. apply Permutation_refl.
  - destruct (forallb _ (c :: by_)); [|discriminate].
    intros [= <-]. cbn [index columns cells]. repeat split. apply sort_rows_perm.
Qed.

Section AssignKeeps.
Context `{Builtins} (w : World) (args : Args).

Lemma assign_step_writes_ST df0 genes profiles df isolate_id df1 :
  outcome (assign_step df0 genes profiles df isolate_id) = Returned df1 ->
  exists v, df1 = Pandas.loc_set df isolate_id "ST" v.
Proof.
  unfold assign_step. intros Ho.
  apply outcome_bind_returned in Ho as [key [_ Ho]].
  apply outcome_bind_returned in Ho as [[] [_ Ho]].
  destruct (PyDict.get profiles key) as [st|].
  - apply outcome_bind_returned in Ho as [n [_ Ho]].
    apply outcome_bind_returned in Ho as [[] [_ Ho]].
    injection Ho as <-. now eexists.
  - apply outcome_bind_returned in Ho as [[] [_ Ho]].
    injection Ho as <-. now eexists.
Qed.

(** Without a data line in the profile file the gene list is [None], and
    the assignment raises a [TypeError] for every table: in the loop when
    the table has a row, at the sort when it has none.  Nothing catches
    it in the class. *)
Theorem assign_sequence_types_no_profile_rows (df : DataFrame) lines :
  files w (profile args) = Lines lines None ->
  DictReader lines = [] ->
  outcome (_assign_sequence_types w args df) = Raised TypeError.
Proof.
  intros Hf Hrows. unfold _assign_sequence_types.
  rewrite (outcome_bind _ _ (a := tt)) by reflexivity.
  assert (E : _load_mlst_profiles w args
              = ([ {| lvl := INFO; ev := LoadingProfiles (profile args) |};
                   {| lvl := INFO; ev := LoadedProfiles 0 |} ],
                 Returned (None, PyDict.empty))).
  { unfold _load_mlst_profiles, open_csv. rewrite Hf, bind_ret, Hrows. reflexivity. }
  rewrite (outcome_bind _ _ (a := (None, PyDict.empty))) by (now rewrite E).
  destruct (index df) as [|i rest].
  - reflexivity.
  - apply outcome_bind_raised. rewrite for_each_cons.
    apply outcome_bind_raised. reflexivity.
Qed.

(** Whenever the assignment returns, it returns the rows it was given, in
    another order: none is added and none is dropped.  The only column it
    may add is ST, and every cell outside the ST column is the one the
    table had. *)
Theorem assign_sequence_types_keeps_rows (df df' : DataFrame) :
  outcome (_assign_sequence_types w args df) = Returned df' ->
  Permutation (index df') (index df) /\
  (columns df' = columns df \/ columns df' = columns df ++ ["ST"]) /\
  (In "ST" (columns df) -> columns df' = columns df) /\
  (forall i c, c <> "ST" -> Pandas.at_ df' i c = Pandas.at_ df i c).
Proof.
  unfold _assign_sequence_types. intros Ho.
  apply outcome_bind_returned in Ho as [[] [_ Ho]].
  apply outcome_bind_returned in Ho as [[genes profiles] [_ Ho]].
  apply outcome_bind_returned in Ho as [df1 [Hloop Ho]].
  apply outcome_bind_returned in Ho as [by_ [_ Ho]].
  unfold lift, outcome in Ho. cbn [snd] in Ho.
  apply sort_values_keeps in Ho as [Hperm [Hcols Hcells]].
  set (I := fun d : DataFrame =>
              index d = index df /\
              (columns d = columns df \/ columns d = columns df ++ ["ST"]) /\
              (In "ST" (columns df) -> columns d = columns df) /\
              (forall i c, c <> "ST" -> Pandas.at_ d i c = Pandas.at_ df i c)).
  assert (HI : I df1).
  { apply (@for_each_invariant _ _ I (assign_step df genes profiles) (index df))
      with (s := df); [|repeat split; auto|exact Hloop].
    intros d i d' Hi [Hidx [Hc [HcST Hat]]] Hstep.
    apply assign_step_writes_ST in Hstep as [v ->].
    unfold I. cbn [Pandas.loc_set index columns]. repeat split.
    - rewrite Hidx. apply has_In in Hi. now rewrite Hi.
    - destruct (Pandas.has (columns d) "ST") eqn:EST; [exact Hc|].
      destruct Hc as [Hc|Hc]; [right; now rewrite Hc|].
      exfalso. rewrite Hc in EST. unfold Pandas.has in EST.
      rewrite existsb_app in EST. cbn in EST. rewrite orb_true_r in EST. discriminate.
    - intros HST. rewrite (HcST HST).
      apply has_In in HST. now rewrite HST.
    - intros r c Hne. rewrite at_loc_set_other; [now apply Hat|].
      intros [= _ E]. now apply Hne. }
  destruct HI as [Hidx [Hc [HcST Hat]]]. repeat split.
  - now rewrite <- Hidx.
  - now rewrite Hcols.
  - intros HST. rewrite Hcols. now apply HcST.
  - intros i c Hne. rewrite <- (Hat i c Hne). unfold Pandas.at_. now rewrite Hcells.
Qed.

End AssignKeeps.

Lemma assign_sequence_types_no_profile_rows_witness :
  outcome (@_assign_sequence_types decimal_builtins
             (profile_world (Lines lines_header_only None)) demo_args frame_two_by_two)
  = Raised TypeError.
Proof.
  apply (@assign_sequence_types_no_profile_rows decimal_builtins
           (profile_world (Lines lines_header_only None)) demo_args
           frame_two_by_two lines_header_only); reflexivity.
Defined.

Lemma assign_sequence_types_keeps_rows_witness :
  exists df',
    outcome (@_assign_sequence_types decimal_builtins world_two_by_two demo_args
               frame_two_by_two) = Returned df' /\
    Permutation (index df') ["G1"; "G2"] /\
    (columns df' = ["abc"; "xyz"; "ST"] \/ columns df' = ["abc"; "xyz"; "ST"] ++ ["ST"]) /\
    (In "ST" ["abc"; "xyz"; "ST"] -> columns df' = ["abc"; "xyz"; "ST"]) /\
    (forall i c, c <> "ST" -> Pandas.at_ df' i c = Pandas.at_ frame_two_by_two i c).
Proof.
  eexists. split; [vm_compute; reflexivity|].
  apply (@assign_sequence_types_keeps_rows decimal_builtins world_two_by_two demo_args
           frame_two_by_two).
  vm_compute. reflexivity.
Defined.

(* ------------------------------------------------------------------ *)
(** ** What a computation logs, whether it returns or raises *)

Section LogsAll.
Context (P : log_record -> Prop).

Lemma logs_all_ret {A} (a : A) : logs_all P (ret a).
Proof. constructor. Qed.

Lemma logs_all_raise {A} e : logs_all P (@raise A e).
Proof. constructor. Qed.

Lemma logs_all_lift {A} (r : result A) : logs_all P (lift r).
Proof. constructor. Qed.

Lemma logs_all_log lv e : P {| lvl := lv; ev := e |} -> logs_all P (log lv e).
Proof. intros HP. constructor; [exact HP|constructor]. Qed.

Lemma logs_all_bind {A B} (m : M A) (f : A -> M B) :
  logs_all P m -> (forall a, logs_all P (f a)) -> logs_all P (bind m f).
Proof.
  unfold logs_all, logs, bind. destruct m as [l [a|e]]; cbn [fst]; intros Hm Hf; trivial.
  specialize (Hf a). destruct (f a) as [l' r]. cbn [fst] in *.
  apply Forall_app. now split.
Qed.

Lemma logs_all_try {A} (body : M A) (handler : exn -> M A) :
  logs_all P body -> (forall e, logs_all P (handler e)) ->
  logs_all P (try_except body handler).
Proof.
  unfold logs_all, logs, try_except. destruct body as [l [a|e]]; cbn [fst];
    intros Hm Hh; trivial.
  destruct (is_Exception e); trivial.
  specialize (Hh e). destruct (handler e) as [l' r]. cbn [fst] in *.
  apply Forall_app. now split.
Qed.

Lemma logs_all_for_each {S X} (body : S -> X -> M S) (xs : list X) :
  (forall s x, logs_all P (body s x)) -> forall s, logs_all P (for_each xs body s).
Proof.
  intros Hb. induction xs as [|x xs IH]; intros s; [apply logs_all_ret|].
  rewrite for_each_cons. apply logs_all_bind; [apply Hb|exact IH].
Qed.

Lemma logs_all_for_list {X Y} (f : X -> M Y) (xs : list X) :
  (forall x, logs_all P (f x)) -> logs_all P (for_list f xs).
Proof.
  intros Hf. induction xs as [|x xs IH]; [apply logs_all_ret|].
  cbn [for_list]. apply logs_all_bind; [apply Hf|]. intros y.
  apply logs_all_bind; [exact IH|]. intros ys. apply logs_all_ret.
Qed.

End LogsAll.

(** A record of a sequence comes from its first part, or the first part
    returned and the record comes from what follows. *)
Lemma in_logs_bind_inv {A B} (m : M A) (f : A -> M B) r :
  In r (logs (bind m f)) ->
  In r (logs m) \/ exists a, outcome m = Returned a /\ In r (logs (f a)).
Proof.
  unfold logs, outcome, bind. destruct m as [l [a|e]]; cbn [fst snd]; [|auto].
  destruct (f a) as [l' r'] eqn:E. cbn [fst]. intros Hin.
  apply in_app_or in Hin as [Hin|Hin]; [auto|].
  right. exists a. rewrite E. auto.
Qed.

(** The records of a step: one rule per construct of the monad, and a case
    analysis on what the code branches on. *)
Ltac logs_all_step :=
  first
    [ apply logs_all_ret
    | apply logs_all_raise
    | apply logs_all_lift
    | apply logs_all_log; reflexivity
    | apply logs_all_bind; [|intros ?]
    | apply logs_all_try; [|intros ?]
    | apply logs_all_for_each; intros ? ?
    | apply logs_all_for_list; intros ?
    | match goal with
      | |- logs_all _ (match ?x with _ => _ end) => destruct x
      | |- logs_all _ (let (_, _) := ?x in _) => destruct x
      end ].

Ltac logs_all_steps := repeat logs_all_step.

Section Phases.
Context `{Builtins} (w : World) (args : Args).

Lemma validate_arguments_phase : logs_all (in_phase 0) (_validate_arguments args).
Proof. unfold _validate_arguments, sys_exit. logs_all_steps. Qed.

Lemma load_alleles_phase : logs_all (in_phase 1) (_load_alleles w args).
Proof.
  unfold _load_alleles, _get_fasta_files, load_allele_file, parse_fasta, sys_exit.
  logs_all_steps.
Qed.

Lemma load_genomes_phase : logs_all (in_phase 1) (_load_genomes w args).
Proof.
  unfold _load_genomes, _get_fasta_files, load_genome_file, parse_fasta, sys_exit.
  logs_all_steps.
Qed.

Lemma create_output_directory_phase :
  logs_all (in_phase 2) (_create_output_directory w args).
Proof. unfold _create_output_directory, sys_exit. logs_all_steps. Qed.

Lemma run_blast_analysis_phase alleles genomes :
  logs_all (in_phase 3) (_run_blast_analysis w args alleles genomes).
Proof.
  unfold _run_blast_analysis, _run_parallel_commands, await_job. logs_all_steps.
Qed.

Lemma find_best_allele_phase blast_file :
  logs_all (in_phase 4) (_find_best_allele w blast_file).
Proof.
  unfold _find_best_allele, open_csv, reader_end, report_best, find_best_step, field.
  logs_all_steps.
Qed.

Lemma process_blast_results_phase alleles genomes blast_files :
  logs_all (in_phase 4) (_process_blast_results w alleles genomes blast_files).
Proof.
  unfold _process_blast_results, process_blast_file.
  apply logs_all_for_each. intros df [[g a] path].
  apply logs_all_bind; [apply find_best_allele_phase|]. intros best.
  logs_all_steps.
Qed.

Lemma load_mlst_profiles_phase : logs_all (in_phase 5) (_load_mlst_profiles w args).
Proof.
  unfold _load_mlst_profiles, open_csv, reader_end, profile_step, profile_key, sys_exit.
  logs_all_steps.
Qed.

Lemma assign_sequence_types_phase df :
  logs_all (in_phase 5) (_assign_sequence_types w args df).
Proof.
  unfold _assign_sequence_types.
  apply logs_all_bind; [apply logs_all_log; reflexivity|]. intros _.
  apply logs_all_bind; [apply load_mlst_profiles_phase|]. intros [genes profiles].
  unfold assign_step, isolate_key. logs_all_steps.
Qed.

Lemma write_results_phase df : logs_all (in_phase 6) (_write_results w args df).
Proof. unfold _write_results, write_format. logs_all_steps. Qed.

End Phases.

(* ------------------------------------------------------------------ *)
(** ** The steps of a run, in order *)

Lemma validate_arguments_returned args :
  outcome (_validate_arguments args) = Returned tt -> args_given args.
Proof.
  unfold _validate_arguments, args_given. cbn [for_each].
  destruct (String.eqb_spec (indirname args) "") as [Ei|Ei]; [discriminate|].
  destruct (String.eqb_spec (outdirname args) "") as [Eo|Eo]; [discriminate|].
  destruct (String.eqb_spec (profile args) "") as [Ep|Ep]; [discriminate|].
  destruct (String.eqb_spec (genomedir args) "") as [Eg|Eg]; [discriminate|].
  intros _. tauto.
Qed.

Lemma not_in_phase {A} (m : M A) k r :
  logs_all (in_phase k) m -> In r (logs m) -> phase (ev r) = k.
Proof.
  unfold logs_all. rewrite Forall_forall. intros Hall Hin. exact (Hall r Hin).
Qed.

(** A record of the sequence [m ;; ...] that is not of the step of [m]:
    [m] returned, and the record comes from what follows. *)
Ltac past_step Hin bound :=
  let a := fresh "a" in
  let Ha := fresh "Ha" in
  let E := fresh "E" in
  apply in_logs_bind_inv in Hin as [Hin | [a [Ha Hin]]];
  [ exfalso; pose proof (not_in_phase _ bound Hin) as E; simpl in E; lia | ].

Lemma log_phase lv e : logs_all (in_phase (phase e)) (log lv e).
Proof. apply logs_all_log. reflexivity. Qed.

Section RunOrder.
Context `{Builtins} (w : World) (args : Args).


(** The steps of a run leave their records in the order of the calls, and
    a step is reached only when the ones before it returned.  A record of
    the output directory or of any later step implies that the four
    arguments were given and both catalogs were loaded; a record of the
    alignment or of any later step implies that the output directory was
    created; and the run returns exactly when it logs its completion. *)
Theorem run_analysis_steps_in_order :
  (forall r, In r (logs (run_analysis w args)) -> (2 <= phase (ev r))%nat ->
     args_given args /\
     (exists alleles, outcome (_load_alleles w args) = Returned alleles) /\
     (exists genomes, outcome (_load_genomes w args) = Returned genomes)) /\
  (forall r, In r (logs (run_analysis w args)) -> (3 <= phase (ev r))%nat ->
     outcome (_create_output_directory w args) = Returned tt) /\
  ((exists df, outcome (run_analysis w args) = Returned df) <->
   In {| lvl := INFO; ev := AnalysisCompleted |} (logs (run_analysis w args))).
Proof.
  split; [|split; [|split]].
  - intros r Hin Hr. unfold run_analysis in Hin.
    past_step Hin (log_phase INFO AnalysisStarted).
    past_step Hin (log_phase INFO RunTime).
    past_step Hin (log_phase INFO ArgumentsDump).
    past_step Hin (validate_arguments_phase args).
    past_step Hin (load_alleles_phase w args).
    past_step Hin (load_genomes_phase w args).
    destruct a2. split; [now apply validate_arguments_returned|].
    split; eauto.
  - intros r Hin Hr. unfold run_analysis in Hin.
    past_step Hin (log_phase INFO AnalysisStarted).
    past_step Hin (log_phase INFO RunTime).
    past_step Hin (log_phase INFO ArgumentsDump).
    past_step Hin (validate_arguments_phase args).
    past_step Hin (load_alleles_phase w args).
    past_step Hin (load_genomes_phase w args).
    past_step Hin (create_output_directory_phase w args).
    now destruct a5.
  - intros [df Ho]. unfold run_analysis in *.
    do 11 (let a := fresh "a" in
           let Ha := fresh "Ha" in
           apply outcome_bind_returned in Ho as [a [Ha Ho]];
           eapply in_logs_bind_r; [exact Ha|]).
    apply in_logs_bind_l. now left.
  - intros Hin. unfold run_analysis in *.
    past_step Hin (log_phase INFO AnalysisStarted).
    rewrite (outcome_bind _ _ Ha).
    past_step Hin (log_phase INFO RunTime).
    rewrite (outcome_bind _ _ Ha0).
    past_step Hin (log_phase INFO ArgumentsDump).
    rewrite (outcome_bind _ _ Ha1).
    past_step Hin (validate_arguments_phase args).
    rewrite (outcome_bind _ _ Ha2).
    past_step Hin (load_alleles_phase w args).
    rewrite (outcome_bind _ _ Ha3).
    past_step Hin (load_genomes_phase w args).
    rewrite (outcome_bind _ _ Ha4).
    past_step Hin (create_output_directory_phase w args).
    rewrite (outcome_bind _ _ Ha5).
    past_step Hin (run_blast_analysis_phase w args a3 a4).
    rewrite (outcome_bind _ _ Ha6).
    past_step Hin (process_blast_results_phase w a3 a4 a6).
    rewrite (outcome_bind _ _ Ha7).
    past_step Hin (assign_sequence_types_phase w args a7).
    rewrite (outcome_bind _ _ Ha8).
    past_step Hin (write_results_phase w args a8).
    rewrite (outcome_bind _ _ Ha9).
    now exists a8.
Qed.

End RunOrder.

(* ------------------------------------------------------------------ *)
(** ** The names in the catalogs *)

Lemma first_split_free c s : free_of c (PyStr.first (PyStr.split c s)).
Proof.
  unfold free_of, PyStr.first. induction s as [|x s IH]; [reflexivity|].
  cbn [PyStr.split]. destruct (Ascii.eqb x c) eqn:E; [reflexivity|].
  destruct (PyStr.split c s) as [|w ws]; cbn [hd PyStr.count] in *; now rewrite E.
Qed.

Lemma replace_free a b s : a <> b -> free_of a (PyStr.replace a b s).
Proof.
  intros Hne. unfold free_of. induction s as [|x s IH]; [reflexivity|].
  cbn [PyStr.replace PyStr.count]. rewrite IH.
  destruct (Ascii.eqb_spec x a) as [->|Hx].
  - apply Ascii.eqb_neq in Hne. rewrite Ascii.eqb_sym in Hne. now rewrite Hne.
  - apply Ascii.eqb_neq in Hx. now rewrite Hx.
Qed.

Lemma replace_keeps_free c a b s :
  c <> b -> free_of c s -> free_of c (PyStr.replace a b s).
Proof.
  intros Hne. unfold free_of. induction s as [|x s IH]; [reflexivity|].
  cbn [PyStr.replace PyStr.count].
  destruct (Ascii.eqb_spec x c) as [->|Hx]; [discriminate|]. intros Hs.
  rewrite (IH Hs). destruct (Ascii.eqb x a).
  - apply Ascii.eqb_neq in Hne. rewrite Ascii.eqb_sym in Hne. now rewrite Hne.
  - apply Ascii.eqb_neq in Hx. now rewrite Hx.
Qed.

Section CatalogNames.
Context (w : World) (args : Args).

Lemma load_allele_file_adds directory alleles f alleles' :
  outcome (load_allele_file directory alleles f) = Returned alleles' ->
  alleles' = alleles \/
  exists first n, alleles' = PyDict.set alleles (gene_name_of first)
                                        (Path.join directory (entry_name f), n).
Proof.
  unfold load_allele_file, parse_fasta.
  destruct (entry_fasta f) as [e|[|first rest]].
  - destruct e; discriminate.
  - intros [= <-]. now left.
  - intros [= <-]. right. now eexists; eexists.
Qed.

Lemma load_genome_file_adds directory genomes f genomes' :
  outcome (load_genome_file directory genomes f) = Returned genomes' ->
  genomes' = genomes \/
  genomes' = PyDict.set genomes (isolate_id_of (entry_name f))
                        (Path.join directory (entry_name f)).
Proof.
  unfold load_genome_file, parse_fasta.
  destruct (entry_fasta f) as [e|[|first rest]].
  - destruct e; discriminate.
  - intros [= <-]. now left.
  - intros [= <-]. now right.
Qed.

(** The names the loaders return.  A gene name has no underscore: it is
    what precedes the first underscore of a sequence identifier.  A genome
    identifier has neither a vertical bar nor a space: both were replaced
    by underscores. *)
Theorem catalog_names :
  (forall alleles gene,
     outcome (_load_alleles w args) = Returned alleles ->
     In gene (PyDict.keys alleles) -> free_of "_" gene) /\
  (forall genomes isolate_id,
     outcome (_load_genomes w args) = Returned genomes ->
     In isolate_id (PyDict.keys genomes) ->
     free_of "|" isolate_id /\ free_of " " isolate_id).
Proof.
  split.
  - intros alleles gene Ho Hin. unfold _load_alleles in Ho.
    apply outcome_bind_returned in Ho as [[] [_ Ho]].
    apply outcome_bind_returned in Ho as [fasta_files [_ Ho]].
    apply outcome_bind_returned in Ho as [alleles' [Hloop Ho]].
    apply outcome_bind_returned in Ho as [[] [_ Ho]]. injection Ho as ->.
    revert gene Hin.
    apply (@for_each_invariant _ _
             (fun d : PyDict.t string (string * nat) =>
                forall gene, In gene (PyDict.keys d) -> free_of "_" gene)
             (load_allele_file (indirname args)) fasta_files)
      with (s := @PyDict.empty string (string * nat)); [|intros gene []|exact Hloop].
    intros d f d' _ Hd Hstep gene Hin.
    apply load_allele_file_adds in Hstep as [->|[first [n ->]]]; [now apply Hd|].
    apply keys_set in Hin as [->|Hin]; [apply first_split_free|now apply Hd].
  - intros genomes isolate_id Ho Hin. unfold _load_genomes in Ho.
    apply outcome_bind_returned in Ho as [[] [_ Ho]].
    apply outcome_bind_returned in Ho as [fasta_files [_ Ho]].
    apply outcome_bind_returned in Ho as [genomes' [Hloop Ho]].
    apply outcome_bind_returned in Ho as [[] [_ Ho]]. injection Ho as ->.
    revert isolate_id Hin.
    apply (@for_each_invariant _ _
             (fun d : PyDict.t string string =>
                forall i, In i (PyDict.keys d) -> free_of "|" i /\ free_of " " i)
             (load_genome_file (genomedir args)) fasta_files)
      with (s := @PyDict.empty string string); [|intros i []|exact Hloop].
    intros d f d' _ Hd Hstep i Hin.
    apply load_genome_file_adds in Hstep as [->| ->]; [now apply Hd|].
    apply keys_set in Hin as [->|Hin]; [|now apply Hd].
    unfold isolate_id_of. split.
    + apply replace_keeps_free; [discriminate|]. apply replace_free. discriminate.
    + apply replace_free. discriminate.
Qed.

End CatalogNames.

(* ------------------------------------------------------------------ *)
(** ** One output file per pair *)

Lemma append_inv_head (p a b : string) : (p ++ a = p ++ b)%string -> a = b.
Proof. induction p as [|x p IH]; cbn [append]; [trivial|]. intros [= E]. auto. Qed.

Lemma length_append (a b : string) :
  String.length (a ++ b) = (String.length a + String.length b)%nat.
Proof. induction a as [|x a IH]; cbn [append String.length]; [reflexivity|]. now rewrite IH. Qed.

Lemma append_inv_tail (t a b : string) : (a ++ t = b ++ t)%string -> a = b.
Proof.
  revert b. induction a as [|x a IH]; intros [|y b] E; cbn [append] in E.
  - reflexivity.
  - exfalso. apply (f_equal String.length) in E.
    cbn [String.length] in E. rewrite length_append in E. lia.
  - exfalso. apply (f_equal String.length) in E.
    cbn [String.length] in E. rewrite length_append in E. lia.
  - injection E as -> E. f_equal. now apply IH.
Qed.

(** Two strings cut at their first [c] agree on both sides of the cut. *)
Lemma append_sep_inj c (a1 a2 r1 r2 : string) :
  free_of c a1 -> free_of c a2 ->
  (a1 ++ String c r1 = a2 ++ String c r2)%string -> a1 = a2 /\ r1 = r2.
Proof.
  unfold free_of. revert a2.
  induction a1 as [|x a1 IH]; intros [|y a2]; cbn [append PyStr.count]; intros H1 H2 E.
  - injection E as ->. now split.
  - injection E as <- _. rewrite Ascii.eqb_refl in H2. discriminate.
  - injection E as -> _. rewrite Ascii.eqb_refl in H1. discriminate.
  - injection E as -> E.
    destruct (Ascii.eqb y c); [discriminate|].
    destruct (IH a2 H1 H2 E) as [-> ->]. now split.
Qed.

Lemma join_relative a b :
  (forall b', b <> String "/" b') -> Path.join a b = (a ++ "/" ++ b)%string.
Proof.
  intros Hb. unfold Path.join. destruct b as [|x b]; [reflexivity|].
  destruct x as [[] [] [] [] [] [] [] []]; try reflexivity.
  exfalso. now apply (Hb b).
Qed.

Lemma free_not_head c (a rest b' : string) :
  free_of c a -> (a ++ rest)%string = String c b' -> a = EmptyString.
Proof.
  unfold free_of. destruct a as [|x a]; [reflexivity|].
  cbn [append PyStr.count]. intros Hf [= -> _].
  rewrite Ascii.eqb_refl in Hf. discriminate.
Qed.

(** Loci without an underscore or a slash in their names never share an
    output file: the file of a (locus, genome) pair determines the pair. *)
Theorem output_files_distinct (args : Args) (a1 g1 a2 g2 : string) :
  free_of "_" a1 -> free_of "_" a2 -> free_of "/" a1 -> free_of "/" a2 ->
  (output_file_of args a1 g1 = output_file_of args a2 g2 <-> a1 = a2 /\ g1 = g2).
Proof.
  intros Hu1 Hu2 Hs1 Hs2. split; [|now intros [-> ->]].
  unfold output_file_of.
  assert (Hrel : forall a g, free_of "/" a ->
            forall b', (a ++ "_vs_" ++ g ++ ".tab")%string <> String "/" b').
  { intros a g Hs b' E. pose proof (@free_not_head _ _ _ _ Hs E) as ->.
    discriminate E. }
  rewrite !join_relative by now apply Hrel.
  intros E. apply append_inv_head in E.
  cbn [append] in E. injection E as E.
  change (a1 ++ String "_" ("vs_" ++ g1 ++ ".tab") =
          a2 ++ String "_" ("vs_" ++ g2 ++ ".tab"))%string in E.
  apply append_sep_inj in E as [-> E]; trivial.
  split; [reflexivity|].
  cbn [append] in E. injection E as E. now apply append_inv_tail in E.
Qed.

Lemma output_files_distinct_witness :
  (output_file_of demo_args "abc" "G1" = output_file_of demo_args "xyz" "G1"
   <-> "abc" = "xyz" /\ "G1" = "G1") /\
  output_file_of demo_args "abc" "G1" = "out/abc_vs_G1.tab" /\
  output_file_of demo_args "xyz" "G1" = "out/xyz_vs_G1.tab".
Proof.
  split; [|split; reflexivity].
  apply (@output_files_distinct demo_args "abc" "G1" "xyz" "G1"); reflexivity.
Defined.

(** With an underscore in a locus name the hypothesis fails, and so does
    the conclusion: two pairs, one output file. *)
Example output_files_collide :
  output_file_of demo_args "x" "y_vs_z" = output_file_of demo_args "x_vs_y" "z".
Proof. reflexivity. Qed.

(* ------------------------------------------------------------------ *)
(** ** What a run may raise *)

Section RaisesOnly.
Context (P : exn -> Prop).

Lemma raises_only_ret {A} (a : A) : raises_only P (ret a).
Proof. intros e [=]. Qed.

Lemma raises_only_log lv ev : raises_only P (log lv ev).
Proof. intros e [=]. Qed.

Lemma raises_only_raise {A} e : P e -> raises_only P (@raise A e).
Proof. intros HP e' [= <-]. exact HP. Qed.

Lemma raises_only_lift {A} (r : result A) :
  (forall e, r = Raised e -> P e) -> raises_only P (lift r).
Proof. intros Hr e E. now apply Hr. Qed.

Lemma raises_only_bind {A B} (m : M A) (f : A -> M B) :
  raises_only P m -> (forall a, raises_only P (f a)) -> raises_only P (bind m f).
Proof.
  unfold raises_only, outcome, bind. destruct m as [l [a|e]]; cbn [snd]; intros Hm Hf.
  - specialize (Hf a). destruct (f a) as [l' r]. exact Hf.
  - intros e' [= <-]. now apply Hm.
Qed.

Lemma raises_only_try {A} (body : M A) (handler : exn -> M A) :
  raises_only P body -> (forall e, raises_only P (handler e)) ->
  raises_only P (try_except body handler).
Proof.
  unfold raises_only, outcome, try_except. destruct body as [l [a|e]]; cbn [snd];
    intros Hb Hh; [intros e [=]|].
  destruct (is_Exception e); [|intros e' [= <-]; now apply Hb].
  specialize (Hh e). destruct (handler e) as [l' r]. exact Hh.
Qed.

Lemma raises_only_for_each {S X} (body : S -> X -> M S) (xs : list X) :
  (forall s x, raises_only P (body s x)) -> forall s, raises_only P (for_each xs body s).
Proof.
  intros Hb. induction xs as [|x xs IH]; intros s; [apply raises_only_ret|].
  rewrite for_each_cons. apply raises_only_bind; [apply Hb|exact IH].
Qed.

Lemma raises_only_for_list {X Y} (f : X -> M Y) (xs : list X) :
  (forall x, raises_only P (f x)) -> raises_only P (for_list f xs).
Proof.
  intros Hf. induction xs as [|x xs IH]; [apply raises_only_ret|].
  cbn [for_list]. apply raises_only_bind; [apply Hf|]. intros y.
  apply raises_only_bind; [exact IH|]. intros ys. apply raises_only_ret.
Qed.

End RaisesOnly.

Lemma exn_of_ordinary e : ordinary_or_exit (exn_of e).
Proof. right. now destruct e. Qed.

(** What a pure call may raise, read off its definition. *)
Ltac raised_by_call :=
  let e := fresh "e" in
  let E := fresh "E" in
  intros e E;
  cbv [PyDict.getitem int_ int_str float_ split_ iter_ sorted_keys
       Pandas.row_get Pandas.sort_values] in E;
  repeat match type of E with
    | context [match ?x with _ => _ end] => destruct x
    end;
  try discriminate E; injection E as <-; right; reflexivity.

Ltac raises_only_step :=
  first
    [ apply raises_only_ret
    | apply raises_only_log
    | apply raises_only_raise; first [apply exn_of_ordinary | left; reflexivity | right; reflexivity]
    | apply raises_only_lift; raised_by_call
    | apply raises_only_bind; [|intros ?]
    | apply raises_only_try; [|intros ?]
    | apply raises_only_for_each; intros ? ?
    | apply raises_only_for_list; intros ?
    | match goal with
      | |- raises_only _ (match ?x with _ => _ end) => destruct x
      | |- raises_only _ (let (_, _) := ?x in _) => destruct x
      end ].

Ltac raises_only_steps := repeat raises_only_step.

Section RunRaises.
Context `{Builtins} (w : World) (args : Args).

Lemma find_best_allele_raises blast_file :
  raises_only ordinary_or_exit (_find_best_allele w blast_file).
Proof.
  intros e E. destruct (find_best_allele_returns w blast_file) as [v Hv].
  rewrite Hv in E. discriminate.
Qed.

Lemma load_mlst_profiles_raises : raises_only ordinary_or_exit (_load_mlst_profiles w args).
Proof.
  unfold _load_mlst_profiles, open_csv, reader_end, profile_step, profile_key, sys_exit.
  raises_only_steps.
Qed.

(** Whatever a run raises is an exit with status 1 or an ordinary
    exception, which the handlers of [main] turn into exit status 1: no
    exit with another status, and nothing that would pass those handlers. *)
Theorem run_analysis_raises e :
  outcome (run_analysis w args) = Raised e ->
  e = SystemExit 1 \/ is_Exception e = true.
Proof.
  revert e. change (raises_only ordinary_or_exit (run_analysis w args)).
  unfold run_analysis.
  apply raises_only_bind; [apply raises_only_log|]. intros _.
  apply raises_only_bind; [apply raises_only_log|]. intros _.
  apply raises_only_bind; [apply raises_only_log|]. intros _.
  apply raises_only_bind.
  { unfold _validate_arguments, sys_exit. raises_only_steps. }
  intros _. apply raises_only_bind.
  { unfold _load_alleles, _get_fasta_files, load_allele_file, parse_fasta, sys_exit.
    raises_only_steps. }
  intros alleles. apply raises_only_bind.
  { unfold _load_genomes, _get_fasta_files, load_genome_file, parse_fasta, sys_exit.
    raises_only_steps. }
  intros genomes. apply raises_only_bind.
  { unfold _create_output_directory, sys_exit. raises_only_steps. }
  intros _. apply raises_only_bind.
  { unfold _run_blast_analysis, _run_parallel_commands, await_job. raises_only_steps. }
  intros blast_results. apply raises_only_bind.
  { unfold _process_blast_results, process_blast_file.
    apply raises_only_for_each. intros df [[g a] path].
    apply raises_only_bind; [apply find_best_allele_raises|]. intros best.
    raises_only_steps. }
  intros results_df. apply raises_only_bind.
  { unfold _assign_sequence_types.
    apply raises_only_bind; [apply raises_only_log|]. intros _.
    apply raises_only_bind; [apply load_mlst_profiles_raises|]. intros [genes profiles].
    unfold assign_step, isolate_key. raises_only_steps. }
  intros results_df'. apply raises_only_bind.
  { unfold _write_results, write_format. raises_only_steps. }
  intros _. raises_only_steps.
Qed.

End RunRaises.

Lemma run_analysis_raises_witness :
  outcome (@run_analysis decimal_builtins quiet_world demo_args) = Raised (SystemExit 1) /\
  (SystemExit 1 = SystemExit 1 \/ is_Exception (SystemExit 1) = true).
Proof.
  split; [reflexivity|].
  apply (@run_analysis_raises decimal_builtins quiet_world demo_args (SystemExit 1)).
  reflexivity.
Defined.
